(** * pywbem_mock MainProvider: a shallow embedding of [_mainprovider.py]

    The responder methods of [MainProvider] are embedded as Rocq functions
    over an explicit provider state.  Read-only helpers return a [result];
    methods that mutate the repository or the table of enumeration contexts
    return a [result] together with the provider state they leave behind (a
    Python exception does not roll back the mutations done before it). *)

From Stdlib Require Import ZArith Ascii String Lia.
From stdpp Require Import gmap strings list.

Open Scope string_scope.
Open Scope list_scope.

(** ** Python strings *)

Module PyStr.

(** [str.lower()], on the ASCII letters. *)
Definition lower_ascii (c : ascii) : ascii :=
  let n := nat_of_ascii c in
  if ((65 <=? n) && (n <=? 90))%nat then ascii_of_nat (n + 32) else c.

Fixpoint lower (s : string) : string :=
  match s with
  | EmptyString => EmptyString
  | String c s' => String (lower_ascii c) (lower s')
  end.

Fixpoint lstrip (ch : ascii) (s : string) : string :=
  match s with
  | EmptyString => EmptyString
  | String c s' => if Ascii.eqb c ch then lstrip ch s' else s
  end.

Definition reverse (s : string) : string :=
  string_of_list_ascii (rev (list_ascii_of_string s)).

(** [s.strip(ch)] for a one-character argument. *)
Definition strip (ch : ascii) (s : string) : string :=
  reverse (lstrip ch (reverse (lstrip ch s))).

(** Truth value of an optional string: [None] and [""] are false. *)
Definition truthy (o : option string) : bool :=
  match o with
  | Some s => negb (String.eqb s "")
  | None => false
  end.

(** [a.lower() == b.lower()] *)
Definition eqb_nocase (a b : string) : bool :=
  String.eqb (lower a) (lower b).

End PyStr.

(** ** Exceptions and results *)

(** The CIM status codes that the module imports from [pywbem]. *)
Inductive status_code : Type :=
  | CIM_ERR_FAILED
  | CIM_ERR_INVALID_NAMESPACE
  | CIM_ERR_INVALID_PARAMETER
  | CIM_ERR_INVALID_CLASS
  | CIM_ERR_NOT_FOUND
  | CIM_ERR_NOT_SUPPORTED
  | CIM_ERR_ALREADY_EXISTS
  | CIM_ERR_QUERY_LANGUAGE_NOT_SUPPORTED
  | CIM_ERR_NAMESPACE_NOT_EMPTY
  | CIM_ERR_INVALID_ENUMERATION_CONTEXT.

(** [CIMError] carries the CIM status code (its message text is left out);
    the other constructors are the built-in Python exceptions that the
    methods below can let escape. *)
Inductive exception : Type :=
  | CIMError (status : status_code)
  | KeyError
  | ValueError
  | AttributeError
  | UnboundLocalError
  | RecursionError.

#[global] Instance status_code_eq_dec : EqDecision status_code.
Proof. solve_decision. Defined.
#[global] Instance exception_eq_dec : EqDecision exception.
Proof. solve_decision. Defined.

Inductive result (A : Type) : Type :=
  | Ok (a : A)
  | Raise (e : exception).
Arguments Ok {A} a.
Arguments Raise {A} e.

#[global] Instance result_ret : MRet result := fun A a => Ok a.
#[global] Instance result_bind : MBind result := fun A B f m =>
  match m with
  | Ok a => f a
  | Raise e => Raise e
  end.
#[global] Instance result_fmap : FMap result := fun A B f m =>
  match m with
  | Ok a => Ok (f a)
  | Raise e => Raise e
  end.

(** [except err: raise CIMError(code)] around a lookup. *)
Definition from_option {A} (e : exception) (o : option A) : result A :=
  match o with
  | Some a => Ok a
  | None => Raise e
  end.

(** Truth value of an optional flag ([None] is false). *)
Definition truthy_flag (o : option bool) : bool := default false o.

(** ** Python slices [l[0:n]] and [del l[0:n]] for an arbitrary integer [n] *)

Definition slice_stop (len : nat) (n : Z) : nat :=
  if (n <? 0)%Z then Z.to_nat (Z.max 0 (Z.of_nat len + n))
  else Nat.min (Z.to_nat n) len.

Definition py_slice0 {A} (l : list A) (n : Z) : list A :=
  take (slice_stop (length l) n) l.

Definition py_del0 {A} (l : list A) (n : Z) : list A :=
  drop (slice_stop (length l) n) l.

(** ** NocaseDict *)

Module NocaseDict.

(** Modelled from the spec: [pywbem._nocasedict.NocaseDict] is imported by
    this module, not defined in it; the spec describes it as an ordered map
    with case-insensitive keys that carries the original casing.  An entry
    is the key as it was last written together with its value; every
    lookup compares lower-cased keys. *)
Definition t (V : Type) : Type := list (string * V).

Definition empty {V} : t V := [].

Definition key_is {V} (k : string) (e : string * V) : bool :=
  PyStr.eqb_nocase (fst e) k.

Definition get {V} (k : string) (d : t V) : option V :=
  snd <$> List.find (key_is k) d.

Definition contains {V} (k : string) (d : t V) : bool :=
  List.existsb (key_is k) d.

Definition keys {V} (d : t V) : list string := map fst d.

Definition values {V} (d : t V) : list V := map snd d.

(** [d[k] = v]: an existing entry is replaced in place (the new casing of
    the key is kept), a new one goes to the end. *)
Fixpoint set {V} (k : string) (v : V) (d : t V) : t V :=
  match d with
  | [] => [(k, v)]
  | e :: d' => if key_is k e then (k, v) :: d' else e :: set k v d'
  end.

(** [del d[k]] *)
Definition remove {V} (k : string) (d : t V) : t V :=
  List.filter (fun e => negb (key_is k e)) d.

Definition del {V} (k : string) (d : t V) : result (t V) :=
  if contains k d then Ok (remove k d) else Raise KeyError.

(** Keep the entries whose key satisfies [p]. *)
Definition filter_keys {V} (p : string -> bool) (d : t V) : t V :=
  List.filter (fun e => p (fst e)) d.

Definition map_values {V W} (f : V -> W) (d : t V) : t W :=
  map (fun e => (fst e, f (snd e))) d.

End NocaseDict.

(** ** The CIM object model

    The classes of CIM objects are imported from [pywbem]; the records
    below follow section 3 (data model) of the spec, with the attributes
    that the responder methods read or write. *)

(** Modelled from the spec: the typed values of properties and keybindings
    ([pywbem] CIM data types, not defined in this module), as far as the
    responder methods look into them: NULL, strings, integers, booleans. *)
Inductive CIMValue : Type :=
  | VNull
  | VString (s : string)
  | VInteger (z : Z)
  | VBoolean (b : bool).

#[global] Instance CIMValue_eq_dec : EqDecision CIMValue.
Proof. solve_decision. Defined.

(** Modelled from the spec: the CIM type name that [CIMProperty(name,
    value)] of [pywbem] infers for a plain value; a NULL value has no
    inferable type. *)
Definition cimtype (v : CIMValue) : option string :=
  match v with
  | VNull => None
  | VString _ => Some "string"
  | VInteger _ => Some "sint64"
  | VBoolean _ => Some "boolean"
  end.

(** Modelled from the spec: [CIMProperty = {name, type, is_array,
    array_size?, default_value?, qualifiers, class_origin, propagated}]; in
    an instance the value is the property's value. *)
Record CIMProperty : Type := mkCIMProperty {
  prop_name : string;
  prop_value : CIMValue;
  prop_type : string;
  prop_is_array : bool;
  prop_array_size : option Z;
  prop_qualifiers : NocaseDict.t CIMValue;
  prop_class_origin : option string;
  prop_propagated : option bool
}.

(** Modelled from the spec: a method parameter, with its qualifiers. *)
Record CIMParameter : Type := mkCIMParameter {
  param_name : string;
  param_type : string;
  param_qualifiers : NocaseDict.t CIMValue
}.

(** Modelled from the spec: [CIMMethod = {name, return_type, parameters,
    qualifiers, class_origin, propagated}]. *)
Record CIMMethod : Type := mkCIMMethod {
  meth_name : string;
  meth_return_type : string;
  meth_parameters : NocaseDict.t CIMParameter;
  meth_qualifiers : NocaseDict.t CIMValue;
  meth_class_origin : option string;
  meth_propagated : option bool
}.

(** Modelled from the spec: [CIMClass = {classname, superclass?,
    qualifiers, properties, methods}]. *)
Record CIMClass : Type := mkCIMClass {
  cls_classname : string;
  cls_superclass : option string;
  cls_qualifiers : NocaseDict.t CIMValue;
  cls_properties : NocaseDict.t CIMProperty;
  cls_methods : NocaseDict.t CIMMethod
}.

(** Modelled from the spec: [CIMInstanceName = {classname, namespace?,
    host?, keybindings}]. *)
Record CIMInstanceName : Type := mkCIMInstanceName {
  path_classname : string;
  path_keybindings : NocaseDict.t CIMValue;
  path_namespace : option string;
  path_host : option string
}.

(** Modelled from the spec: [CIMInstance = {classname, properties, path}],
    and the deprecated instance qualifiers. *)
Record CIMInstance : Type := mkCIMInstance {
  inst_classname : string;
  inst_properties : NocaseDict.t CIMProperty;
  inst_path : option CIMInstanceName;
  inst_qualifiers : NocaseDict.t CIMValue
}.

#[global] Instance CIMProperty_eq_dec : EqDecision CIMProperty.
Proof. solve_decision. Defined.
#[global] Instance CIMInstanceName_eq_dec : EqDecision CIMInstanceName.
Proof. solve_decision. Defined.
#[global] Instance CIMInstance_eq_dec : EqDecision CIMInstance.
Proof. solve_decision. Defined.

(** What an [Open...] request pages through: instances (with path) or
    instance paths. *)
Inductive CIMObject : Type :=
  | ObjInstance (inst : CIMInstance)
  | ObjPath (path : CIMInstanceName).

(** *** Keybinding and path equality *)

(** Modelled from the spec: keybindings match as a case-insensitive map
    with value equality (every name of either map has the same value, or
    none, in both). *)
Definition keybindings_eqb (a b : NocaseDict.t CIMValue) : bool :=
  forallb (fun e => bool_decide (NocaseDict.get (fst e) b
                                 = NocaseDict.get (fst e) a)) a
  && forallb (fun e => bool_decide (NocaseDict.get (fst e) a
                                    = NocaseDict.get (fst e) b)) b.

(** Modelled from the spec: two paths are equal iff their classnames match
    case-insensitively and their keybindings match. *)
Definition path_eqb (a b : CIMInstanceName) : bool :=
  PyStr.eqb_nocase (path_classname a) (path_classname b)
  && keybindings_eqb (path_keybindings a) (path_keybindings b).

(** *** CIMInstance as a mapping from property names to values *)

Module Instance.

(** Modelled from the spec: the mapping interface of [pywbem]'s
    [CIMInstance] over its case-insensitive ordered map of properties (this
    definition and the ones after it in this module); [name in inst]. *)
Definition contains (name : string) (inst : CIMInstance) : bool :=
  NocaseDict.contains name (inst_properties inst).

(** [inst[name]]: the value of the property, [KeyError] without it. *)
Definition getitem (name : string) (inst : CIMInstance) : result CIMValue :=
  prop_value <$> from_option KeyError (NocaseDict.get name (inst_properties inst)).

(** [list(inst)]: the property names as the instance spells them. *)
Definition names (inst : CIMInstance) : list string :=
  NocaseDict.keys (inst_properties inst).

Definition with_properties (props : NocaseDict.t CIMProperty)
    (inst : CIMInstance) : CIMInstance :=
  mkCIMInstance (inst_classname inst) props (inst_path inst)
    (inst_qualifiers inst).

Definition with_path (p : option CIMInstanceName) (inst : CIMInstance)
    : CIMInstance :=
  mkCIMInstance (inst_classname inst) (inst_properties inst) p
    (inst_qualifiers inst).

(** [inst[name] = prop] for a [CIMProperty]. *)
Definition set_property (name : string) (p : CIMProperty)
    (inst : CIMInstance) : CIMInstance :=
  with_properties (NocaseDict.set name p (inst_properties inst)) inst.

(** [inst[name] = v] for a plain value: a property named [name] of the
    inferred type; [ValueError] when the type cannot be inferred. *)
Definition set_value (name : string) (v : CIMValue) (inst : CIMInstance)
    : result CIMInstance :=
  ty ← from_option ValueError (cimtype v);
  Ok (set_property name
        (mkCIMProperty name v ty false None NocaseDict.empty None None) inst).

(** [del inst[name]] *)
Definition remove (name : string) (inst : CIMInstance) : CIMInstance :=
  with_properties (NocaseDict.remove name (inst_properties inst)) inst.

(** [inst.update(props)]: every entry of [props] is written in turn. *)
Definition update (props : NocaseDict.t CIMProperty) (inst : CIMInstance)
    : CIMInstance :=
  foldl (fun i e => set_property (fst e) (snd e) i) inst props.

End Instance.

(** ** The datastore contract *)

Module ObjectStore.

(** Modelled from the spec: the object stores ([InMemoryObjectStore]) are
    not defined in this module; section 4.1 of the spec gives their
    contract: [exists], [get] (not found), [create] (fails if the key
    exists), [update] and [delete] (fail if it is absent), [iter_values] in
    a stable order.  The responder catches [KeyError] from [get] and
    [update] and [ValueError] from [create].  A store is the list of its
    entries in insertion order; [key_eqb] is the equality of its keys. *)
Definition t (K V : Type) : Type := list (K * V).

Section Keyed.
Context {K V : Type} (key_eqb : K -> K -> bool).

Definition matches (k : K) (e : K * V) : bool := key_eqb (fst e) k.

(** Modelled from the spec: [exists(key)]. *)
Definition exists_ (k : K) (s : t K V) : bool := List.existsb (matches k) s.

(** Modelled from the spec: [get(key)], the value or not-found
    ([KeyError]). *)
Definition get (k : K) (s : t K V) : result V :=
  from_option KeyError (snd <$> List.find (matches k) s).

(** Modelled from the spec: [create(key, value)] fails if the key exists
    ([ValueError]); a new entry goes to the end. *)
Definition create (k : K) (v : V) (s : t K V) : result (t K V) :=
  if exists_ k s then Raise ValueError else Ok (s ++ [(k, v)]).

(** Modelled from the spec: [update(key, value)] fails if the key is
    absent ([KeyError]); the entry keeps its place. *)
Definition update (k : K) (v : V) (s : t K V) : result (t K V) :=
  if exists_ k s
  then Ok (map (fun e => if matches k e then (fst e, v) else e) s)
  else Raise KeyError.

(** Modelled from the spec: [delete(key)] fails if the key is absent
    ([KeyError]). *)
Definition delete (k : K) (s : t K V) : result (t K V) :=
  if exists_ k s
  then Ok (List.filter (fun e => negb (matches k e)) s)
  else Raise KeyError.

(** Modelled from the spec: [iter_values()], in the stable order of the
    store. *)
Definition iter_values (s : t K V) : list V := map snd s.

End Keyed.
End ObjectStore.

(** Modelled from the spec: [CIMQualifierDeclaration], a named typed flag
    schema; the methods embedded here only store it. *)
Record CIMQualifierDeclaration : Type := mkCIMQualifierDeclaration {
  qdecl_name : string;
  qdecl_type : string
}.

(** Modelled from the spec: the three object stores of one namespace;
    classes and qualifier declarations are keyed by case-insensitive name,
    instances by their full path. *)
Record NamespaceStores : Type := mkNamespaceStores {
  ns_classes : ObjectStore.t string CIMClass;
  ns_instances : ObjectStore.t CIMInstanceName CIMInstance;
  ns_qualifiers : ObjectStore.t string CIMQualifierDeclaration
}.

Module Datastore.

(** Modelled from the spec: the repository ([InMemoryRepository]) is not
    defined in this module; section 4.1 and 4.2 of the spec give the
    namespace catalog: [add] (strips leading and trailing slashes, fails if
    present), [remove] (fails if absent, fails if one of the three stores
    is non-empty), [validate].  The docstrings of the responder methods call
    namespace names case independent, so the catalog compares them
    case-insensitively. *)
Definition t : Type := NocaseDict.t NamespaceStores.

(** Modelled from the spec: leading and trailing slashes are stripped off
    a namespace name. *)
Definition normalize (namespace : string) : string :=
  PyStr.strip "/"%char namespace.

Definition lookup (namespace : string) (ds : t) : option NamespaceStores :=
  NocaseDict.get (normalize namespace) ds.

(** Modelled from the spec: [validate]; [KeyError] for a namespace that is
    not in the catalog. *)
Definition validate_namespace (namespace : string) (ds : t) : result unit :=
  _ ← from_option KeyError (lookup namespace ds); Ok tt.

(** Modelled from the spec: [add]; [ValueError] for a namespace that is in
    the catalog already, else a new namespace with three empty stores. *)
Definition add_namespace (namespace : string) (ds : t) : result t :=
  if NocaseDict.contains (normalize namespace) ds then Raise ValueError
  else Ok (ds ++ [(normalize namespace, mkNamespaceStores [] [] [])]).

Definition is_empty (st : NamespaceStores) : bool :=
  match ns_classes st, ns_instances st, ns_qualifiers st with
  | [], [], [] => true
  | _, _, _ => false
  end.

(** Modelled from the spec: [remove]; [KeyError] for an absent namespace,
    [ValueError] for one with a non-empty store. *)
Definition remove_namespace (namespace : string) (ds : t) : result t :=
  st ← from_option KeyError (lookup namespace ds);
  if is_empty st then Ok (NocaseDict.remove (normalize namespace) ds)
  else Raise ValueError.

(** Write the stores of an existing namespace back (the responder mutates
    the store objects it obtained from the datastore in place). *)
Definition put (namespace : string) (st : NamespaceStores) (ds : t) : t :=
  map (fun e => if NocaseDict.key_is (normalize namespace) e
                then (fst e, st) else e) ds.

End Datastore.

Definition class_key_eqb : string -> string -> bool := PyStr.eqb_nocase.

(** ** The provider state *)

Record EnumerationContext : Type := mkEnumerationContext {
  ctx_pull_type : string;
  ctx_data : list CIMObject;
  ctx_namespace : string;
  ctx_time : Z;
  ctx_interoptimeout : Z;
  ctx_continueonerror : bool
}.

(** [self.host] and [self.conn.disable_pull_operations] come from the
    connection; [enumeration_contexts] is the dictionary of open pull
    contexts, keyed by context id. *)
Record MainProvider : Type := mkMainProvider {
  host : string;
  disable_pull_operations : bool;
  datastore : Datastore.t;
  enumeration_contexts : gmap string EnumerationContext
}.

Definition with_datastore (ds : Datastore.t) (self : MainProvider)
    : MainProvider :=
  mkMainProvider (host self) (disable_pull_operations self) ds
    (enumeration_contexts self).

Definition with_enumeration_contexts (ctxs : gmap string EnumerationContext)
    (self : MainProvider) : MainProvider :=
  mkMainProvider (host self) (disable_pull_operations self) (datastore self)
    ctxs.

(** What one request reads from outside the provider: the value of
    [uuid.uuid4()] and of [delta_time()] during the request. *)
Record Environment : Type := mkEnvironment {
  env_uuid4 : string;
  env_delta_time : Z
}.

(** ** Access to the datastore *)

Definition validate_namespace (self : MainProvider) (namespace : string)
    : result unit :=
  match Datastore.validate_namespace namespace (datastore self) with
  | Ok _ => Ok tt
  | Raise KeyError => Raise (CIMError CIM_ERR_INVALID_NAMESPACE)
  | Raise e => Raise e
  end.

Definition get_stores (self : MainProvider) (namespace : string)
    : result NamespaceStores :=
  _ ← validate_namespace self namespace;
  from_option KeyError (Datastore.lookup namespace (datastore self)).

Definition get_class_store (self : MainProvider) (namespace : string)
    : result (ObjectStore.t string CIMClass) :=
  ns_classes <$> get_stores self namespace.

Definition get_instance_store (self : MainProvider) (namespace : string)
    : result (ObjectStore.t CIMInstanceName CIMInstance) :=
  ns_instances <$> get_stores self namespace.

Definition get_qualifier_store (self : MainProvider) (namespace : string)
    : result (ObjectStore.t string CIMQualifierDeclaration) :=
  ns_qualifiers <$> get_stores self namespace.

(** The effect on the provider of mutating, in place, the class store or the
    instance store obtained for [namespace]. *)
Definition put_class_store (namespace : string)
    (cs : ObjectStore.t string CIMClass) (self : MainProvider)
    : MainProvider :=
  match Datastore.lookup namespace (datastore self) with
  | Some st =>
      with_datastore
        (Datastore.put namespace
           (mkNamespaceStores cs (ns_instances st) (ns_qualifiers st))
           (datastore self)) self
  | None => self
  end.

Definition put_instance_store (namespace : string)
    (insts : ObjectStore.t CIMInstanceName CIMInstance) (self : MainProvider)
    : MainProvider :=
  match Datastore.lookup namespace (datastore self) with
  | Some st =>
      with_datastore
        (Datastore.put namespace
           (mkNamespaceStores (ns_classes st) insts (ns_qualifiers st))
           (datastore self)) self
  | None => self
  end.

(** [add_namespace]: the datastore's [ValueError] becomes
    [CIM_ERR_ALREADY_EXISTS]. *)
Definition add_namespace (namespace : string) (self : MainProvider)
    : result unit * MainProvider :=
  match Datastore.add_namespace namespace (datastore self) with
  | Ok ds => (Ok tt, with_datastore ds self)
  | Raise ValueError => (Raise (CIMError CIM_ERR_ALREADY_EXISTS), self)
  | Raise e => (Raise e, self)
  end.

Definition remove_namespace (namespace : string) (self : MainProvider)
    : result unit * MainProvider :=
  match Datastore.remove_namespace namespace (datastore self) with
  | Ok ds => (Ok tt, with_datastore ds self)
  | Raise KeyError => (Raise (CIMError CIM_ERR_NOT_FOUND), self)
  | Raise ValueError => (Raise (CIMError CIM_ERR_NAMESPACE_NOT_EMPTY), self)
  | Raise e => (Raise e, self)
  end.

Definition _class_exists (self : MainProvider) (namespace classname : string)
    : result bool :=
  class_store ← get_class_store self namespace;
  Ok (ObjectStore.exists_ class_key_eqb classname class_store).

(** ** Helpers shared by the class and instance responders *)

(** The part of a [CIMClass] or [CIMInstance] that [_filter_properties],
    [_remove_qualifiers] and [_remove_classorigin] work on; [map_methods]
    is the identity on an instance ([isinstance(obj, CIMClass)] fails). *)
Class CIMElement (T : Type) : Type := {
  properties : T -> NocaseDict.t CIMProperty;
  with_properties : NocaseDict.t CIMProperty -> T -> T;
  with_qualifiers : NocaseDict.t CIMValue -> T -> T;
  map_methods : (CIMMethod -> CIMMethod) -> T -> T
}.

#[global] Instance CIMClass_element : CIMElement CIMClass := {
  properties := cls_properties;
  with_properties props c :=
    mkCIMClass (cls_classname c) (cls_superclass c) (cls_qualifiers c) props
      (cls_methods c);
  with_qualifiers quals c :=
    mkCIMClass (cls_classname c) (cls_superclass c) quals (cls_properties c)
      (cls_methods c);
  map_methods f c :=
    mkCIMClass (cls_classname c) (cls_superclass c) (cls_qualifiers c)
      (cls_properties c) (NocaseDict.map_values f (cls_methods c))
}.

#[global] Instance CIMInstance_element : CIMElement CIMInstance := {
  properties := inst_properties;
  with_properties := Instance.with_properties;
  with_qualifiers quals i :=
    mkCIMInstance (inst_classname i) (inst_properties i) (inst_path i) quals;
  map_methods _ i := i
}.

Definition prop_with_qualifiers (quals : NocaseDict.t CIMValue)
    (p : CIMProperty) : CIMProperty :=
  mkCIMProperty (prop_name p) (prop_value p) (prop_type p) (prop_is_array p)
    (prop_array_size p) quals (prop_class_origin p) (prop_propagated p).

Definition prop_with_class_origin (o : option string) (p : CIMProperty)
    : CIMProperty :=
  mkCIMProperty (prop_name p) (prop_value p) (prop_type p) (prop_is_array p)
    (prop_array_size p) (prop_qualifiers p) o (prop_propagated p).

Definition prop_with_name (name : string) (p : CIMProperty) : CIMProperty :=
  mkCIMProperty name (prop_value p) (prop_type p) (prop_is_array p)
    (prop_array_size p) (prop_qualifiers p) (prop_class_origin p)
    (prop_propagated p).

Definition _remove_qualifiers {T} `{CIMElement T} (obj : T) : T :=
  let obj := with_qualifiers NocaseDict.empty obj in
  let obj :=
    with_properties
      (NocaseDict.map_values (prop_with_qualifiers NocaseDict.empty)
         (properties obj)) obj in
  map_methods
    (fun m =>
       mkCIMMethod (meth_name m) (meth_return_type m)
         (NocaseDict.map_values
            (fun p => mkCIMParameter (param_name p) (param_type p)
                        NocaseDict.empty)
            (meth_parameters m))
         NocaseDict.empty (meth_class_origin m) (meth_propagated m))
    obj.

Definition _remove_classorigin {T} `{CIMElement T} (obj : T) : T :=
  let obj :=
    with_properties
      (NocaseDict.map_values (prop_with_class_origin None) (properties obj))
      obj in
  map_methods
    (fun m =>
       mkCIMMethod (meth_name m) (meth_return_type m) (meth_parameters m)
         (meth_qualifiers m) None (meth_propagated m))
    obj.

(** [x in l] for a Python list of strings (exact comparison). *)
Definition str_in (x : string) (l : list string) : bool :=
  List.existsb (String.eqb x) l.

(** The loops that delete from a dictionary while walking over its keys are
    embedded as filters over the keys the loop started with. *)
Definition _filter_properties {T} `{CIMElement T} (obj : T)
    (property_list : option (list string)) : T :=
  match property_list with
  | None => obj
  | Some property_list =>
      let property_list := map PyStr.lower property_list in
      with_properties
        (NocaseDict.filter_keys
           (fun pname => str_in (PyStr.lower pname) property_list)
           (properties obj)) obj
  end.

(** A list comprehension [[f x for x in l if cond x]] whose condition and
    element expression can both raise: they are evaluated element by
    element. *)
Fixpoint comprehension {A B} (cond : A -> result bool) (f : A -> result B)
    (l : list A) : result (list B) :=
  match l with
  | [] => Ok []
  | a :: l' =>
      keep ← cond a;
      if (keep : bool)
      then b ← f a; bs ← comprehension cond f l'; Ok (b :: bs)
      else comprehension cond f l'
  end.

(** [obj.path.classname]: [AttributeError] on an instance without path. *)
Definition path_of (inst : CIMInstance) : result CIMInstanceName :=
  from_option AttributeError (inst_path inst).

(** [except KeyError] or [except CIMError] handlers that translate one
    exception and let the others through. *)
Definition translate {A} (from_ to_ : exception) (r : result A) : result A :=
  match r with
  | Ok a => Ok a
  | Raise e => if bool_decide (e = from_) then Raise to_ else Raise e
  end.

(** ** An example repository

    A namespace [root/cimv2] with the class [CIM_Foo], two levels of
    subclasses below it, the namespace-creation class [CIM_Namespace], and
    three instances.  The concrete cases of the theorems below are run on
    it. *)

Module Example.

Definition key_qualifier : NocaseDict.t CIMValue := [("Key", VBoolean true)].

Definition string_prop (name value : string) (quals : NocaseDict.t CIMValue)
    (origin : string) (propagated : bool) : CIMProperty :=
  mkCIMProperty name (VString value) "string" false None quals (Some origin)
    (Some propagated).

Definition null_prop (name : string) (quals : NocaseDict.t CIMValue)
    (origin : string) (propagated : bool) : CIMProperty :=
  mkCIMProperty name VNull "string" false None quals (Some origin)
    (Some propagated).

Definition foo_properties (propagated : bool) : NocaseDict.t CIMProperty :=
  [("InstanceID", null_prop "InstanceID" key_qualifier "CIM_Foo" propagated);
   ("Foo", null_prop "Foo" [] "CIM_Foo" propagated)].

Definition CIM_Foo : CIMClass :=
  mkCIMClass "CIM_Foo" None [] (foo_properties false) [].

Definition CIM_Foo_sub : CIMClass :=
  mkCIMClass "CIM_Foo_sub" (Some "CIM_Foo") [] (foo_properties true) [].

Definition CIM_Foo_sub_sub : CIMClass :=
  mkCIMClass "CIM_Foo_sub_sub" (Some "CIM_Foo_sub") [] (foo_properties true)
    [].

Definition namespace_key (name : string) : string * CIMProperty :=
  (name, null_prop name key_qualifier "CIM_Namespace" false).

Definition CIM_Namespace : CIMClass :=
  mkCIMClass "CIM_Namespace" None []
    [namespace_key "Name"; namespace_key "CreationClassName";
     namespace_key "ObjectManagerName";
     namespace_key "ObjectManagerCreationClassName";
     namespace_key "SystemName"; namespace_key "SystemCreationClassName"]
    [].

Definition foo_path (classname id : string) : CIMInstanceName :=
  mkCIMInstanceName classname [("InstanceID", VString id)]
    (Some "root/cimv2") None.

Definition foo_instance (classname id foo : string) : CIMInstance :=
  mkCIMInstance classname
    [("InstanceID", string_prop "InstanceID" id [] "CIM_Foo" false);
     ("Foo", string_prop "Foo" foo [] "CIM_Foo" false)]
    (Some (foo_path classname id)) [].

Definition foo1 : CIMInstance := foo_instance "CIM_Foo" "1" "a".
Definition foo2 : CIMInstance := foo_instance "CIM_Foo_sub" "2" "b".
Definition foo3 : CIMInstance := foo_instance "CIM_Foo_sub_sub" "3" "c".

Definition stored (inst : CIMInstance) (classname id : string)
    : CIMInstanceName * CIMInstance :=
  (foo_path classname id, inst).

Definition cimv2 : NamespaceStores :=
  mkNamespaceStores
    [("CIM_Foo", CIM_Foo); ("CIM_Foo_sub", CIM_Foo_sub);
     ("CIM_Foo_sub_sub", CIM_Foo_sub_sub); ("CIM_Namespace", CIM_Namespace)]
    [stored foo1 "CIM_Foo" "1"; stored foo2 "CIM_Foo_sub" "2";
     stored foo3 "CIM_Foo_sub_sub" "3"]
    [].

Definition provider : MainProvider :=
  mkMainProvider "FakedUrl" false [("root/cimv2", cimv2)] ∅.

(** The same provider on a connection with pull operations disabled. *)
Definition provider_no_pull : MainProvider :=
  mkMainProvider "FakedUrl" true [("root/cimv2", cimv2)] ∅.

Definition env : Environment := mkEnvironment "uuid-1" 0.

(** The recursion limit of the Python interpreter. *)
Definition recursion_limit : nat := 1000.

(** An open context over the three instance paths. *)
Definition three_paths : list CIMObject :=
  [ObjPath (foo_path "CIM_Foo" "1"); ObjPath (foo_path "CIM_Foo_sub" "2");
   ObjPath (foo_path "CIM_Foo_sub_sub" "3")].

Definition open_context (namespace : string) : EnumerationContext :=
  mkEnumerationContext "PullInstancePaths" three_paths namespace 0 40 false.

Definition provider_with_context : MainProvider :=
  mkMainProvider "FakedUrl" false [("root/cimv2", cimv2)]
    {[ "uuid-0" := open_context "root/cimv2" ]}.

(** A context that outlived its namespace. *)
Definition provider_with_stale_context : MainProvider :=
  mkMainProvider "FakedUrl" false [("root/cimv2", cimv2)]
    {[ "uuid-0" := open_context "root/gone" ]}.

(** A request to create the namespace [root/test]. *)
Definition new_namespace_instance : CIMInstance :=
  mkCIMInstance "CIM_Namespace"
    [("Name", string_prop "Name" "/root/test/" [] "CIM_Namespace" false)]
    None [].

(** A modification of [Foo] on the first instance. *)
Definition modified_foo1 : CIMInstance := foo_instance "CIM_Foo" "1" "z".

(** Association responders that find nothing. *)
Definition ReferenceNames (self : MainProvider) (namespace : string)
    (InstanceName : CIMInstanceName) (ResultClass Role : option string)
    : result (list CIMInstanceName) := Ok [].

Definition References (self : MainProvider) (namespace : string)
    (InstanceName : CIMInstanceName) (ResultClass Role : option string)
    (IncludeQualifiers IncludeClassOrigin : option bool)
    (PropertyList : option (list string)) : result (list CIMInstance) :=
  Ok [].

Definition AssociatorNames (self : MainProvider) (namespace : string)
    (InstanceName : CIMInstanceName)
    (AssocClass ResultClass Role ResultRole : option string)
    : result (list CIMInstanceName) := Ok [].

Definition Associators (self : MainProvider) (namespace : string)
    (InstanceName : CIMInstanceName)
    (AssocClass ResultClass Role ResultRole : option string)
    (IncludeQualifiers IncludeClassOrigin : option bool)
    (PropertyList : option (list string)) : result (list CIMInstance) :=
  Ok [].

(** A height on the class names of [cimv2]. *)
Definition height (name : string) : nat :=
  if String.eqb name "cim_foo" then 2
  else if String.eqb name "cim_foo_sub" then 1
  else 0.


(** A class resolver that accepts every class as it is given. *)
Definition _resolve_class (self : MainProvider) (new_class : CIMClass)
    (namespace : string)
    (qualifier_store : ObjectStore.t string CIMQualifierDeclaration)
    : result CIMClass := Ok new_class.

(** The declaration of the [Key] qualifier. *)
Definition key_declaration : CIMQualifierDeclaration :=
  mkCIMQualifierDeclaration "Key" "boolean".

(** A new instance of [CIM_Foo], without a path. *)
Definition new_foo : CIMInstance :=
  mkCIMInstance "CIM_Foo"
    [("InstanceID", string_prop "InstanceID" "4" [] "CIM_Foo" false);
     ("Foo", string_prop "Foo" "d" [] "CIM_Foo" false)]
    None [].

(** A repository with a second, empty namespace [root/test] and the
    instance of [CIM_Namespace] that stands for it. *)
Definition namespace_path : CIMInstanceName :=
  mkCIMInstanceName "CIM_Namespace" [("Name", VString "root/test")]
    (Some "root/cimv2") None.

Definition namespace_instance : CIMInstance :=
  mkCIMInstance "CIM_Namespace"
    [("Name", string_prop "Name" "root/test" [] "CIM_Namespace" false)]
    (Some namespace_path) [].

Definition cimv2_with_namespace : NamespaceStores :=
  mkNamespaceStores (ns_classes cimv2)
    (ns_instances cimv2 ++ [(namespace_path, namespace_instance)]) [].

Definition provider_with_namespace : MainProvider :=
  mkMainProvider "FakedUrl" false
    [("root/cimv2", cimv2_with_namespace);
     ("root/test", mkNamespaceStores [] [] [])] ∅.
End Example.

(** ** Walks over the class hierarchy *)

(** [_get_superclass_names]: the [while] loop runs as long as the class at
    hand names a superclass; [steps] bounds its iterations, and [None] is a
    walk that needs more (a superclass cycle never leaves the loop).  The
    names are accumulated child first and reversed at the end. *)
Fixpoint superclass_walk (steps : nat) (cln_work : string)
    (class_store : ObjectStore.t string CIMClass)
    : option (result (list string)) :=
  match steps with
  | O => None
  | S steps' =>
      match ObjectStore.get class_key_eqb cln_work class_store with
      | Raise e => Some (Raise e)
      | Ok cls =>
          let cln_superclass := cls_superclass cls in
          match cln_superclass with
          | Some sup =>
              if PyStr.truthy cln_superclass
              then
                rest ← superclass_walk steps' sup class_store;
                Some (names ← rest; Ok (sup :: names))
              else Some (Ok [])
          | None => Some (Ok [])
          end
      end
  end.

Definition _get_superclass_names (steps : nat) (classname : option string)
    (class_store : ObjectStore.t string CIMClass)
    : option (result (list string)) :=
  match classname with
  | None => Some (Ok [])
  | Some classname =>
      if PyStr.truthy (Some classname)
      then r ← superclass_walk steps classname class_store;
           Some (names ← r; Ok (rev names))
      else Some (Ok [])
  end.

(** [c.superclass and c.superclass.lower() == classname.lower()] *)
Definition is_direct_subclass (classname : string) (c : CIMClass) : bool :=
  match cls_superclass c with
  | Some sup => PyStr.truthy (Some sup) && PyStr.eqb_nocase sup classname
  | None => false
  end.

(** [c.superclass is None] *)
Definition is_root_class (c : CIMClass) : bool :=
  match cls_superclass c with
  | None => true
  | Some _ => false
  end.

(** The names the first statement of [_get_subclass_names] collects: the
    top-level classes for [None], the direct subclasses otherwise. *)
Definition next_level (classname : option string)
    (class_store : ObjectStore.t string CIMClass) : list string :=
  match classname with
  | None =>
      map cls_classname
        (List.filter is_root_class (ObjectStore.iter_values class_store))
  | Some classname =>
      map cls_classname
        (List.filter (is_direct_subclass classname)
           (ObjectStore.iter_values class_store))
  end.

(** [_get_subclass_names]: [depth] is the number of nested calls the Python
    interpreter still allows; a deeper recursion is a [RecursionError]. *)
Fixpoint _get_subclass_names (depth : nat) (classname : option string)
    (class_store : ObjectStore.t string CIMClass)
    (deep_inheritance : option bool) : result (list string) :=
  match depth with
  | O => Raise RecursionError
  | S depth' =>
      let rtn_classnames := next_level classname class_store in
      if truthy_flag deep_inheritance
      then
        subclass_names ←
          mapM (fun cln =>
                  _get_subclass_names depth' (Some cln) class_store
                    deep_inheritance)
               rtn_classnames;
        Ok (rtn_classnames ++ concat subclass_names)
      else Ok rtn_classnames
  end.

Section Provider.

(** The Python recursion limit left to a responder method. *)
Variable recursion_limit : nat.

(** ** Class responders *)

Definition _get_class (self : MainProvider) (namespace classname : string)
    (local_only include_qualifiers include_classorigin : option bool)
    (property_list : option (list string)) : result CIMClass :=
  class_store ← get_class_store self namespace;
  cls ← translate KeyError (CIMError CIM_ERR_NOT_FOUND)
          (ObjectStore.get class_key_eqb classname class_store);
  let cc := cls in
  let cc :=
    if truthy_flag local_only
    then
      mkCIMClass (cls_classname cc) (cls_superclass cc) (cls_qualifiers cc)
        (List.filter (fun e => negb (truthy_flag (prop_propagated (snd e))))
           (cls_properties cc))
        (List.filter (fun e => negb (truthy_flag (meth_propagated (snd e))))
           (cls_methods cc))
    else cc in
  let cc := _filter_properties cc property_list in
  let cc := if truthy_flag include_qualifiers then cc
            else _remove_qualifiers cc in
  let cc := if truthy_flag include_classorigin then cc
            else _remove_classorigin cc in
  Ok cc.

(** [_get_subclass_list_for_enums]: the subclasses of [classname], and
    [classname] itself, as the keys of a [NocaseDict]. *)
Definition _get_subclass_list_for_enums (classname namespace : string)
    (class_store : ObjectStore.t string CIMClass)
    : result (NocaseDict.t string) :=
  if negb (ObjectStore.exists_ class_key_eqb classname class_store)
  then Raise (CIMError CIM_ERR_INVALID_CLASS)
  else
    clnslist ← _get_subclass_names recursion_limit (Some classname)
                 class_store (Some true);
    let clnsdict :=
      foldl (fun d cln => NocaseDict.set cln cln d) NocaseDict.empty
        clnslist in
    Ok (NocaseDict.set classname classname clnsdict).

(** The check both class enumerations start with. *)
Definition check_ClassName (ClassName : option string)
    (class_store : ObjectStore.t string CIMClass) : result unit :=
  match ClassName with
  | Some cn =>
      if PyStr.truthy ClassName
         && negb (ObjectStore.exists_ class_key_eqb cn class_store)
      then Raise (CIMError CIM_ERR_INVALID_CLASS)
      else Ok tt
  | None => Ok tt
  end.

Definition EnumerateClasses (self : MainProvider) (namespace : string)
    (ClassName : option string)
    (DeepInheritance LocalOnly IncludeQualifiers IncludeClassOrigin
       : option bool)
    : result (list CIMClass) :=
  _ ← validate_namespace self namespace;
  class_store ← get_class_store self namespace;
  _ ← check_ClassName ClassName class_store;
  clns ← _get_subclass_names recursion_limit ClassName class_store
           DeepInheritance;
  mapM (fun cln =>
          _get_class self namespace cln LocalOnly IncludeQualifiers
            IncludeClassOrigin None)
       clns.

Definition EnumerateClassNames (self : MainProvider) (namespace : string)
    (ClassName : option string) (DeepInheritance : option bool)
    : result (list string) :=
  _ ← validate_namespace self namespace;
  class_store ← get_class_store self namespace;
  _ ← check_ClassName ClassName class_store;
  _get_subclass_names recursion_limit ClassName class_store DeepInheritance.

(** *** DeleteClass *)

(** The stores [DeleteClass] works on, and the record of the
    [class_store.delete] calls it has made so far (the Python method returns
    nothing; the record is what makes the order of its deletions
    observable). *)
Record DeleteClassState : Type := mkDeleteClassState {
  dc_class_store : ObjectStore.t string CIMClass;
  dc_instance_store : ObjectStore.t CIMInstanceName CIMInstance;
  dc_deleted : list string
}.

(** [for ipath in inst_paths: instance_store.delete(ipath)] *)
Fixpoint delete_instances (inst_paths : list CIMInstanceName)
    (instance_store : ObjectStore.t CIMInstanceName CIMInstance)
    : result unit * ObjectStore.t CIMInstanceName CIMInstance :=
  match inst_paths with
  | [] => (Ok tt, instance_store)
  | ipath :: rest =>
      match ObjectStore.delete path_eqb ipath instance_store with
      | Ok instance_store' => delete_instances rest instance_store'
      | Raise e => (Raise e, instance_store)
      end
  end.

(** The body of the loop over [classnames]. *)
Definition DeleteClass_body (namespace ClassName clname : string)
    (st : DeleteClassState) : result unit * DeleteClassState :=
  match _get_subclass_list_for_enums ClassName namespace
          (dc_class_store st) with
  | Raise e => (Raise e, st)
  | Ok sub_clns =>
      match comprehension
              (fun inst => p ← path_of inst;
                           Ok (NocaseDict.contains (path_classname p)
                                 sub_clns))
              path_of
              (ObjectStore.iter_values (dc_instance_store st)) with
      | Raise e => (Raise e, st)
      | Ok inst_paths =>
          match delete_instances inst_paths (dc_instance_store st) with
          | (Raise e, instance_store') =>
              (Raise e,
               mkDeleteClassState (dc_class_store st) instance_store'
                 (dc_deleted st))
          | (Ok _, instance_store') =>
              match ObjectStore.delete class_key_eqb clname
                      (dc_class_store st) with
              | Raise e =>
                  (Raise e,
                   mkDeleteClassState (dc_class_store st) instance_store'
                     (dc_deleted st))
              | Ok class_store' =>
                  (Ok tt,
                   mkDeleteClassState class_store' instance_store'
                     (dc_deleted st ++ [clname]))
              end
          end
      end
  end.

Fixpoint DeleteClass_loop (namespace ClassName : string)
    (classnames : list string) (st : DeleteClassState)
    : result unit * DeleteClassState :=
  match classnames with
  | [] => (Ok tt, st)
  | clname :: rest =>
      match DeleteClass_body namespace ClassName clname st with
      | (Ok _, st') => DeleteClass_loop namespace ClassName rest st'
      | (Raise e, st') => (Raise e, st')
      end
  end.

(** [DeleteClass] returns the names of the classes in the order in which it
    deleted them, and the provider it leaves behind. *)
Definition DeleteClass (self : MainProvider) (namespace ClassName : string)
    : result (list string) * MainProvider :=
  match get_class_store self namespace with
  | Raise e => (Raise e, self)
  | Ok class_store =>
  match get_instance_store self namespace with
  | Raise e => (Raise e, self)
  | Ok instance_store =>
      if negb (ObjectStore.exists_ class_key_eqb ClassName class_store)
      then (Raise (CIMError CIM_ERR_NOT_FOUND), self)
      else
        match _get_subclass_names recursion_limit (Some ClassName)
                class_store (Some true) with
        | Raise e => (Raise e, self)
        | Ok classnames =>
            let classnames := classnames ++ [ClassName] in
            let (r, st) :=
              DeleteClass_loop namespace ClassName classnames
                (mkDeleteClassState class_store instance_store []) in
            let self' :=
              put_instance_store namespace (dc_instance_store st)
                (put_class_store namespace (dc_class_store st) self) in
            match r with
            | Ok _ => (Ok (dc_deleted st), self')
            | Raise e => (Raise e, self')
            end
        end
  end
  end.

(** ** Instance responders *)

(** [_find_instance]: the stored instance (or a copy of it), [None] when the
    store has no instance under [iname]. *)
Definition _find_instance (iname : CIMInstanceName)
    (instance_store : ObjectStore.t CIMInstanceName CIMInstance)
    (copy_inst : option bool) : result (option CIMInstance) :=
  if ObjectStore.exists_ path_eqb iname instance_store
  then Some <$> ObjectStore.get path_eqb iname instance_store
  else Ok None.

Definition _get_instance (self : MainProvider) (namespace : string)
    (iname : CIMInstanceName)
    (instance_store : ObjectStore.t CIMInstanceName CIMInstance)
    (property_list : option (list string))
    (local_only include_class_origin include_qualifiers : option bool)
    : result CIMInstance :=
  found ← _find_instance iname instance_store (Some true);
  rtn_inst ← from_option (CIMError CIM_ERR_NOT_FOUND) found;
  let rtn_inst :=
    if truthy_flag local_only
    then
      Instance.with_properties
        (List.filter
           (fun e =>
              negb (PyStr.truthy (prop_class_origin (snd e))
                    && negb (bool_decide (prop_class_origin (snd e)
                                          = Some (inst_classname rtn_inst)))))
           (inst_properties rtn_inst))
        rtn_inst
    else rtn_inst in
  rtn_inst ←
    (if truthy_flag local_only
     then
       (* a CIMError other than NOT_FOUND is swallowed by the handler and
          leaves [cl] unbound *)
       cl ← match _get_class self namespace (path_classname iname)
                    local_only None None None with
            | Ok cl => Ok cl
            | Raise (CIMError CIM_ERR_NOT_FOUND) =>
                Raise (CIMError CIM_ERR_INVALID_CLASS)
            | Raise (CIMError _) => Raise UnboundLocalError
            | Raise e => Raise e
            end;
       let class_pl := NocaseDict.keys (cls_properties cl) in
       Ok (Instance.with_properties
             (NocaseDict.filter_keys (fun p => str_in p class_pl)
                (inst_properties rtn_inst))
             rtn_inst)
     else Ok rtn_inst);
  let rtn_inst := _filter_properties rtn_inst property_list in
  let rtn_inst := if truthy_flag include_qualifiers then rtn_inst
                  else _remove_qualifiers rtn_inst in
  let rtn_inst := if truthy_flag include_class_origin then rtn_inst
                  else _remove_classorigin rtn_inst in
  Ok rtn_inst.

(** [DEFAULT_DEEP_INHERITANCE] *)
Definition DEFAULT_DEEP_INHERITANCE : bool := true.

Definition EnumerateInstances (self : MainProvider)
    (namespace ClassName : string)
    (LocalOnly DeepInheritance IncludeQualifiers IncludeClassOrigin
       : option bool)
    (PropertyList : option (list string)) : result (list CIMInstance) :=
  instance_store ← get_instance_store self namespace;
  class_store ← get_class_store self namespace;
  let DeepInheritance :=
    match DeepInheritance with
    | None => DEFAULT_DEEP_INHERITANCE
    | Some di => di
    end in
  let pl := PropertyList in
  let lo := LocalOnly in
  cl ← _get_class self namespace ClassName lo None None None;
  let class_pl := NocaseDict.keys (cls_properties cl) in
  let pl :=
    if negb DeepInheritance
    then
      match pl with
      | None => Some class_pl
      | Some pl =>
          let pl_lower := map PyStr.lower pl in
          Some (List.filter (fun pc => str_in (PyStr.lower pc) pl_lower)
                  class_pl)
      end
    else pl in
  clns_dict ← _get_subclass_list_for_enums ClassName namespace class_store;
  comprehension
    (fun inst => p ← path_of inst;
                 Ok (NocaseDict.contains (path_classname p) clns_dict))
    (fun inst => p ← path_of inst;
                 _get_instance self namespace p instance_store pl None
                   IncludeClassOrigin IncludeQualifiers)
    (ObjectStore.iter_values instance_store).

Definition EnumerateInstanceNames (self : MainProvider)
    (namespace ClassName : string) : result (list CIMInstanceName) :=
  instance_store ← get_instance_store self namespace;
  class_store ← get_class_store self namespace;
  clns ← _get_subclass_list_for_enums ClassName namespace class_store;
  comprehension
    (fun inst => p ← path_of inst;
                 Ok (NocaseDict.contains (path_classname p) clns))
    path_of
    (ObjectStore.iter_values instance_store).

(** *** CreateInstance *)

(** Modelled from the spec: [CIMInstanceName.from_instance] is imported;
    step 7 of the CreateInstance contract: the path is constructed from the
    class's key properties and the instance's values.  A path holds no NULL
    key value (invariant I4 of the spec: key properties are non-null): the
    constructor of the path raises [ValueError] for one; and it keeps the
    namespace name without its leading and trailing slashes. *)
Definition from_instance (class_ : CIMClass) (inst : CIMInstance)
    (namespace : string) : result CIMInstanceName :=
  let keybindings :=
    foldl
      (fun kbs e =>
         let p := snd e in
         if NocaseDict.contains "key" (prop_qualifiers p)
         then match NocaseDict.get (prop_name p) (inst_properties inst) with
              | Some ip => NocaseDict.set (prop_name p) (prop_value ip) kbs
              | None => kbs
              end
         else kbs)
      NocaseDict.empty (cls_properties class_) in
  if List.existsb (fun e => bool_decide (snd e = VNull)) keybindings
  then Raise ValueError
  else
    Ok (mkCIMInstanceName (cls_classname class_) keybindings
          (Some (PyStr.strip "/"%char namespace)) None).

(** [[p.name for p in six.itervalues(target_class.properties)
      if 'key' in p.qualifiers]] *)
Definition key_props (target_class : CIMClass) : list string :=
  map prop_name
    (List.filter (fun p => NocaseDict.contains "key" (prop_qualifiers p))
       (NocaseDict.values (cls_properties target_class))).

(** The namespace-creation class the instance is of, if any. *)
Definition ns_classname_of (classname : string) : option string :=
  let classname_lower := PyStr.lower classname in
  if String.eqb classname_lower "pg_namespace" then Some "PG_Namespace"
  else if String.eqb classname_lower "cim_namespace" then Some "CIM_Namespace"
  else None.

(** [s.strip('/')] on a property value: only a string has the method. *)
Definition strip_value (v : CIMValue) : result string :=
  match v with
  | VString s => Ok (PyStr.strip "/"%char s)
  | _ => Raise AttributeError
  end.

(** The namespace-creation part: the new namespace name and the instance
    with its well-known properties filled in. *)
Definition namespace_creation (ns_classname : string)
    (new_instance : CIMInstance) : result (string * CIMInstance) :=
  name ← translate KeyError (CIMError CIM_ERR_INVALID_PARAMETER)
           (Instance.getitem "Name" new_instance);
  new_namespace ← strip_value name;
  new_instance ← Instance.set_value "Name" (VString new_namespace)
                   new_instance;
  new_instance ← Instance.set_value "CreationClassName"
                   (VString ns_classname) new_instance;
  new_instance ← Instance.set_value "ObjectManagerName"
                   (VString "MyFakeObjectManager") new_instance;
  new_instance ← Instance.set_value "ObjectManagerCreationClassName"
                   (VString "CIM_ObjectManager") new_instance;
  new_instance ← Instance.set_value "SystemName"
                   (VString "Mock_Test_WBEMServerTest") new_instance;
  new_instance ← Instance.set_value "SystemCreationClassName"
                   (VString "CIM_ComputerSystem") new_instance;
  Ok (new_namespace, new_instance).

(** [for pn in key_props: if pn not in new_instance: raise ...] *)
Definition check_key_props_present (target_class : CIMClass)
    (new_instance : CIMInstance) : result unit :=
  if forallb (fun pn => Instance.contains pn new_instance)
       (key_props target_class)
  then Ok tt
  else Raise (CIMError CIM_ERR_INVALID_PARAMETER).

(** One pass of the loop over the instance's property names: the property
    must be exposed by the class with the same [is_array] and [type]; its
    name is set to the class's spelling. *)
Definition conform_property (target_class : CIMClass) (iprop_name : string)
    (new_instance : CIMInstance) : result CIMInstance :=
  match NocaseDict.get iprop_name (cls_properties target_class) with
  | None => Raise (CIMError CIM_ERR_INVALID_PARAMETER)
  | Some cprop =>
      iprop ← from_option KeyError
                (NocaseDict.get iprop_name (inst_properties new_instance));
      if negb (bool_decide (prop_is_array iprop = prop_is_array cprop))
         || negb (String.eqb (prop_type iprop) (prop_type cprop))
      then Raise (CIMError CIM_ERR_INVALID_PARAMETER)
      else
        let cprop_name := prop_name cprop in
        if negb (String.eqb cprop_name iprop_name)
        then
          Ok (Instance.with_properties
                (map (fun e => if NocaseDict.key_is iprop_name e
                               then (fst e, prop_with_name cprop_name (snd e))
                               else e)
                   (inst_properties new_instance))
                new_instance)
        else Ok new_instance
  end.

(** A [for] loop whose body can raise, over a list fixed at its start. *)
Fixpoint for_each {A S} (body : A -> S -> result S) (l : list A) (s : S)
    : result S :=
  match l with
  | [] => Ok s
  | a :: l' => s' ← body a s; for_each body l' s'
  end.

(** [for cprop_name in target_class.properties: ...]: a class property the
    instance lacks is added with the class's property as default. *)
Definition fill_defaults (target_class : CIMClass)
    (new_instance : CIMInstance) : CIMInstance :=
  foldl
    (fun inst e =>
       let cprop_name := fst e in
       if negb (Instance.contains cprop_name inst)
       then Instance.set_property cprop_name (snd e) inst
       else inst)
    new_instance (cls_properties target_class).

(** Everything [CreateInstance] does before it touches the repository: the
    new namespace (for a namespace-creation class) and the instance to store,
    with its path. *)
Definition CreateInstance_prepare (self : MainProvider) (namespace : string)
    (NewInstance : CIMInstance)
    : result (option string * CIMInstance * CIMInstanceName
              * ObjectStore.t CIMInstanceName CIMInstance) :=
  let new_instance := NewInstance in
  instance_store ← get_instance_store self namespace;
  target_class ←
    translate (CIMError CIM_ERR_NOT_FOUND) (CIMError CIM_ERR_INVALID_CLASS)
      (_get_class self namespace (inst_classname new_instance)
         (Some false) (Some true) (Some true) None);
  let ns_classname := ns_classname_of (inst_classname new_instance) in
  '(new_namespace, new_instance) ←
    match ns_classname with
    | Some nsc =>
        if PyStr.truthy ns_classname
        then '(n, i) ← namespace_creation nsc new_instance; Ok (Some n, i)
        else Ok (None, new_instance)
    | None => Ok (None, new_instance)
    end;
  _ ← check_key_props_present target_class new_instance;
  new_instance ← for_each (conform_property target_class)
                   (Instance.names new_instance) new_instance;
  let new_instance := fill_defaults target_class new_instance in
  path ← from_instance target_class new_instance namespace;
  let new_instance := Instance.with_path (Some path) new_instance in
  if ObjectStore.exists_ path_eqb path instance_store
  then Raise (CIMError CIM_ERR_ALREADY_EXISTS)
  else Ok (new_namespace, new_instance, path, instance_store).

Definition CreateInstance (self : MainProvider) (namespace : string)
    (NewInstance : CIMInstance) : result CIMInstanceName * MainProvider :=
  match CreateInstance_prepare self namespace NewInstance with
  | Raise e => (Raise e, self)
  | Ok (new_namespace, new_instance, path, instance_store) =>
      let (added, self1) :=
        match new_namespace with
        | Some new_namespace => add_namespace new_namespace self
        | None => (Ok tt, self)
        end in
      match added with
      | Raise e => (Raise e, self1)
      | Ok _ =>
          match ObjectStore.create path_eqb path new_instance
                  instance_store with
          | Raise e => (Raise e, self1)
          | Ok instance_store' =>
              (Ok path, put_instance_store namespace instance_store' self1)
          end
      end
  end.

(** *** ModifyInstance *)

(** [list(set(property_list))]: the names without exact duplicates.  Python
    leaves the order of the result open; [ModifyInstance] only tests
    membership in it and raises the same error whatever the order. *)
Definition dedupe (property_list : list string) : list string :=
  remove_dups property_list.

(** [if property_list: if len(property_list) != len(set(property_list)): ...] *)
Definition dedupe_property_list (property_list : option (list string))
    : option (list string) :=
  match property_list with
  | Some ((_ :: _) as pl) =>
      if negb (length pl =? length (dedupe pl))%nat then Some (dedupe pl)
      else Some pl
  | other => other
  end.

(** Truth value of an optional list: [None] and [[]] are false. *)
Definition truthy_list {A} (o : option (list A)) : bool :=
  match o with
  | Some (_ :: _) => true
  | _ => false
  end.

(** The two loops that test that the names of the property list and of the
    modified instance are exposed by the class. *)
Definition check_names_in_class (target_class : CIMClass)
    (names : list string) : result unit :=
  if forallb (fun p => NocaseDict.contains p (cls_properties target_class))
       names
  then Ok tt
  else Raise (CIMError CIM_ERR_INVALID_PARAMETER).

(** [mod_inst_props.difference(set(cl_props))] and the loop over it. *)
Definition set_class_values (target_class : CIMClass)
    (modified_instance : CIMInstance) : result CIMInstance :=
  let mod_inst_props :=
    remove_dups (map PyStr.lower (Instance.names modified_instance)) in
  let cl_props :=
    map PyStr.lower (NocaseDict.keys (cls_properties target_class)) in
  let chngd_props :=
    List.filter (fun k => negb (str_in k cl_props)) mod_inst_props in
  for_each
    (fun prop inst =>
       cprop ← from_option KeyError
                 (NocaseDict.get prop (cls_properties target_class));
       Instance.set_value prop (prop_value cprop) inst)
    chngd_props modified_instance.

(** [for p in list(modified_instance): if orig_instance[p] ==
    modified_instance[p]: del modified_instance[p]] *)
Definition drop_unchanged (orig_instance : CIMInstance)
    (modified_instance : CIMInstance) : result CIMInstance :=
  for_each
    (fun p inst =>
       ov ← Instance.getitem p orig_instance;
       mv ← Instance.getitem p inst;
       if bool_decide (ov = mv) then Ok (Instance.remove p inst) else Ok inst)
    (Instance.names modified_instance) modified_instance.

(** [for p in key_props: if p in modified_instance: raise ...] *)
Definition check_no_key_props (target_class : CIMClass)
    (modified_instance : CIMInstance) : result unit :=
  if List.existsb (fun p => Instance.contains p modified_instance)
       (key_props target_class)
  then Raise (CIMError CIM_ERR_INVALID_PARAMETER)
  else Ok tt.

(** [if property_list: for p in list(modified_instance):
      if p not in property_list: del modified_instance[p]] *)
Definition keep_listed (property_list : option (list string))
    (modified_instance : CIMInstance) : CIMInstance :=
  match property_list with
  | Some ((_ :: _) as pl) =>
      foldl
        (fun inst p => if negb (str_in p pl) then Instance.remove p inst
                       else inst)
        modified_instance (Instance.names modified_instance)
  | _ => modified_instance
  end.

(** One pass of the last validation loop of [ModifyInstance]. *)
Definition conform_modified_property (target_class : CIMClass)
    (pname : string) (modified_instance : CIMInstance)
    : result CIMInstance :=
  match NocaseDict.get pname (cls_properties target_class) with
  | None => Raise (CIMError CIM_ERR_INVALID_PARAMETER)
  | Some cprop =>
      iprop ← from_option KeyError
                (NocaseDict.get pname (inst_properties modified_instance));
      if negb (bool_decide (prop_is_array iprop = prop_is_array cprop))
         || negb (String.eqb (prop_type iprop) (prop_type cprop))
         || negb (bool_decide (prop_array_size iprop = prop_array_size cprop))
      then Raise (CIMError CIM_ERR_INVALID_PARAMETER)
      else
        if negb (String.eqb (prop_name iprop) (prop_name cprop))
        then
          if NocaseDict.contains (prop_name iprop)
               (inst_properties modified_instance)
          then
            Ok (Instance.with_properties
                  (map (fun e =>
                          if NocaseDict.key_is (prop_name iprop) e
                          then (fst e, prop_with_name (prop_name cprop) (snd e))
                          else e)
                     (inst_properties modified_instance))
                  modified_instance)
          else Raise KeyError
        else Ok modified_instance
  end.

(** The path with another namespace.  An assignment
    [path.namespace = namespace] runs the property setter of
    [CIMInstanceName], which keeps the name without its leading and
    trailing slashes: the callers pass the stripped name. *)
Definition path_with_namespace (namespace : option string)
    (p : CIMInstanceName) : CIMInstanceName :=
  mkCIMInstanceName (path_classname p) (path_keybindings p) namespace
    (path_host p).

Definition ModifyInstance (self : MainProvider) (namespace : string)
    (ModifiedInstance : CIMInstance) (IncludeQualifiers : option bool)
    (PropertyList : option (list string)) : result unit * MainProvider :=
  match get_instance_store self namespace with
  | Raise e => (Raise e, self)
  | Ok instance_store =>
  let modified_instance := ModifiedInstance in
  let property_list := PropertyList in
  match property_list with
  | Some [] => (Ok tt, self)
  | _ =>
  let prepared : result (CIMInstanceName * CIMInstance) :=
    mpath ← path_of modified_instance;
    _ ← (if negb (PyStr.eqb_nocase (inst_classname modified_instance)
                    (path_classname mpath))
         then Raise (CIMError CIM_ERR_INVALID_PARAMETER) else Ok tt);
    target_class ←
      translate (CIMError CIM_ERR_NOT_FOUND) (CIMError CIM_ERR_INVALID_CLASS)
        (_get_class self namespace (inst_classname modified_instance)
           (Some false) (Some true) (Some true) None);
    let mpath :=
      match path_namespace mpath with
      | None =>
          path_with_namespace (Some (PyStr.strip "/"%char namespace)) mpath
      | Some _ => mpath
      end in
    let modified_instance :=
      Instance.with_path (Some mpath) modified_instance in
    found ← _find_instance mpath instance_store (Some true);
    orig_instance ← from_option (CIMError CIM_ERR_NOT_FOUND) found;
    let property_list := dedupe_property_list property_list in
    _ ← (if truthy_list property_list
         then check_names_in_class target_class (default [] property_list)
         else Ok tt);
    _ ← check_names_in_class target_class (Instance.names modified_instance);
    modified_instance ← set_class_values target_class modified_instance;
    modified_instance ← drop_unchanged orig_instance modified_instance;
    _ ← check_no_key_props target_class modified_instance;
    let modified_instance := keep_listed property_list modified_instance in
    modified_instance ←
      for_each (conform_modified_property target_class)
        (Instance.names modified_instance) modified_instance;
    let orig_instance :=
      Instance.update (inst_properties modified_instance) orig_instance in
    Ok (mpath, orig_instance) in
  match prepared with
  | Raise e => (Raise e, self)
  | Ok (mpath, orig_instance) =>
      match ObjectStore.update path_eqb mpath orig_instance
              instance_store with
      | Raise e => (Raise e, self)
      | Ok instance_store' =>
          (Ok tt, put_instance_store namespace instance_store' self)
      end
  end
  end
  end.

(** ** The remaining repository responders *)

(** *** GetClass, CreateClass, ModifyClass *)

Definition GetClass (self : MainProvider) (namespace ClassName : string)
    (LocalOnly IncludeQualifiers IncludeClassOrigin : option bool)
    (PropertyList : option (list string)) : result CIMClass :=
  _ ← validate_namespace self namespace;
  _get_class self namespace ClassName LocalOnly IncludeQualifiers
    IncludeClassOrigin PropertyList.

(** [_resolve_class] is inherited from [ResolverMixin], which this module
    imports: it completes the copy of the new class from its superclass and
    the qualifier declarations, or raises.  [CreateClass] is embedded over
    an arbitrary resolver of this signature. *)
Variable _resolve_class :
  MainProvider -> CIMClass -> string ->
  ObjectStore.t string CIMQualifierDeclaration -> result CIMClass.

Definition CreateClass (self : MainProvider) (namespace : string)
    (NewClass : CIMClass) : result unit * MainProvider :=
  match validate_namespace self namespace with
  | Raise e => (Raise e, self)
  | Ok _ =>
  match get_class_store self namespace with
  | Raise e => (Raise e, self)
  | Ok class_store =>
      if ObjectStore.exists_ class_key_eqb (cls_classname NewClass)
           class_store
      then (Raise (CIMError CIM_ERR_ALREADY_EXISTS), self)
      else
        let new_class := NewClass in
        match get_qualifier_store self namespace with
        | Raise e => (Raise e, self)
        | Ok qualifier_store =>
            match _resolve_class self new_class namespace qualifier_store with
            | Raise e => (Raise e, self)
            | Ok new_class =>
                match ObjectStore.create class_key_eqb
                        (cls_classname new_class) new_class class_store with
                | Raise e => (Raise e, self)
                | Ok class_store' =>
                    (Ok tt, put_class_store namespace class_store' self)
                end
            end
        end
  end
  end.

Definition ModifyClass (self : MainProvider) (namespace : string)
    (ModifiedClass : CIMClass) : result unit :=
  _ ← validate_namespace self namespace;
  Raise (CIMError CIM_ERR_NOT_SUPPORTED).

(** *** Qualifier declarations *)

(** Qualifier declarations are keyed by their name, as classes are. *)
Definition qualifier_key_eqb : string -> string -> bool := PyStr.eqb_nocase.

(** The effect on the provider of mutating, in place, the qualifier store
    obtained for [namespace]. *)
Definition put_qualifier_store (namespace : string)
    (qs : ObjectStore.t string CIMQualifierDeclaration) (self : MainProvider)
    : MainProvider :=
  match Datastore.lookup namespace (datastore self) with
  | Some st =>
      with_datastore
        (Datastore.put namespace
           (mkNamespaceStores (ns_classes st) (ns_instances st) qs)
           (datastore self)) self
  | None => self
  end.

Definition EnumerateQualifiers (self : MainProvider) (namespace : string)
    : result (list CIMQualifierDeclaration) :=
  qualifier_store ← get_qualifier_store self namespace;
  let qualifiers := ObjectStore.iter_values qualifier_store in
  Ok qualifiers.

Definition GetQualifier (self : MainProvider) (namespace : string)
    (QualifierName : string) : result CIMQualifierDeclaration :=
  qualifier_store ← get_qualifier_store self namespace;
  translate KeyError (CIMError CIM_ERR_NOT_FOUND)
    (ObjectStore.get qualifier_key_eqb QualifierName qualifier_store).

(** [SetQualifier]: the declaration is created, and when the store refuses
    that ([ValueError]), the stored declaration is updated. *)
Definition SetQualifier (self : MainProvider) (namespace : string)
    (QualifierDeclaration : CIMQualifierDeclaration)
    : result unit * MainProvider :=
  match get_qualifier_store self namespace with
  | Raise e => (Raise e, self)
  | Ok qualifier_store =>
      let qual_decl := QualifierDeclaration in
      match ObjectStore.create qualifier_key_eqb (qdecl_name qual_decl)
              qual_decl qualifier_store with
      | Ok qualifier_store' =>
          (Ok tt, put_qualifier_store namespace qualifier_store' self)
      | Raise ValueError =>
          match ObjectStore.update qualifier_key_eqb (qdecl_name qual_decl)
                  qual_decl qualifier_store with
          | Ok qualifier_store' =>
              (Ok tt, put_qualifier_store namespace qualifier_store' self)
          | Raise KeyError => (Raise (CIMError CIM_ERR_FAILED), self)
          | Raise e => (Raise e, self)
          end
      | Raise e => (Raise e, self)
      end
  end.

Definition DeleteQualifier (self : MainProvider) (namespace : string)
    (QualifierName : string) : result unit * MainProvider :=
  match get_qualifier_store self namespace with
  | Raise e => (Raise e, self)
  | Ok qualifier_store =>
      if ObjectStore.exists_ qualifier_key_eqb QualifierName qualifier_store
      then
        match ObjectStore.delete qualifier_key_eqb QualifierName
                qualifier_store with
        | Raise e => (Raise e, self)
        | Ok qualifier_store' =>
            (Ok tt, put_qualifier_store namespace qualifier_store' self)
        end
      else (Raise (CIMError CIM_ERR_NOT_FOUND), self)
  end.

(** *** GetInstance, DeleteInstance *)

(** The first statements of [GetInstance] and [DeleteInstance]: a path
    without namespace gets the namespace of the request.  The assignment
    [iname.namespace = namespace] runs the property setter of
    [CIMInstanceName], which keeps the name without its leading and
    trailing slashes. *)
Definition request_path (namespace : string)
    (InstanceName : CIMInstanceName) : CIMInstanceName :=
  match path_namespace InstanceName with
  | None =>
      path_with_namespace (Some (PyStr.strip "/"%char namespace))
        InstanceName
  | Some _ => InstanceName
  end.

Definition GetInstance (self : MainProvider) (namespace : string)
    (InstanceName : CIMInstanceName)
    (LocalOnly IncludeQualifiers IncludeClassOrigin : option bool)
    (PropertyList : option (list string)) : result CIMInstance :=
  let iname := request_path namespace InstanceName in
  if negb (bool_decide (path_namespace iname = Some namespace))
  then Raise (CIMError CIM_ERR_INVALID_NAMESPACE)
  else
    instance_store ← get_instance_store self namespace;
    class_exists ← _class_exists self namespace (path_classname iname);
    if negb class_exists
    then Raise (CIMError CIM_ERR_INVALID_CLASS)
    else
      _get_instance self namespace iname instance_store PropertyList
        LocalOnly IncludeClassOrigin IncludeQualifiers.

(** [self.remove_namespace(namespace)] for the value of a keybinding: the
    method refuses [None] with a [ValueError] before it calls the
    datastore, and only a string can be stripped of its slashes (as in
    [strip_value]). *)
Definition remove_namespace_named (v : CIMValue) (self : MainProvider)
    : result unit * MainProvider :=
  match v with
  | VNull => (Raise ValueError, self)
  | VString namespace => remove_namespace namespace self
  | _ => (Raise AttributeError, self)
  end.

(** [DeleteInstance]: the instance store is obtained before a namespace is
    removed, and the instance is deleted from that store afterwards. *)
Definition DeleteInstance (self : MainProvider) (namespace : string)
    (InstanceName : CIMInstanceName) : result unit * MainProvider :=
  let iname := request_path namespace InstanceName in
  if negb (bool_decide (path_namespace iname = Some namespace))
  then (Raise (CIMError CIM_ERR_INVALID_NAMESPACE), self)
  else
    match get_instance_store self namespace with
    | Raise e => (Raise e, self)
    | Ok instance_store =>
    match _class_exists self namespace (path_classname iname) with
    | Raise e => (Raise e, self)
    | Ok class_exists =>
        if negb class_exists
        then (Raise (CIMError CIM_ERR_INVALID_CLASS), self)
        else
          if negb (ObjectStore.exists_ path_eqb iname instance_store)
          then (Raise (CIMError CIM_ERR_NOT_FOUND), self)
          else
            let ns_classname := ns_classname_of (path_classname iname) in
            let (removed, self1) :=
              if PyStr.truthy ns_classname
              then
                match NocaseDict.get "Name" (path_keybindings iname) with
                | None => (Raise KeyError, self)
                | Some name => remove_namespace_named name self
                end
              else (Ok tt, self) in
            match removed with
            | Raise e => (Raise e, self1)
            | Ok _ =>
                match ObjectStore.delete path_eqb iname instance_store with
                | Raise e => (Raise e, self1)
                | Ok instance_store' =>
                    (Ok tt,
                     put_instance_store namespace instance_store' self1)
                end
            end
    end
    end.

(** *** ExecQuery *)

Definition ExecQuery (self : MainProvider) (namespace : string)
    (QueryLanguage Query : option string) : result (list CIMInstance) :=
  _ ← validate_namespace self namespace;
  Raise (CIMError CIM_ERR_NOT_SUPPORTED).

(** *** Helpers of the association engine that only read class names *)

(** [_subclasses_lc]: the class and its subclasses, lower-cased. *)
Definition _subclasses_lc (classname : option string)
    (class_store : ObjectStore.t string CIMClass) : result (list string) :=
  match classname with
  | Some cn =>
      if negb (PyStr.truthy classname) then Ok []
      else
        let clns := [cn] in
        subs ← _get_subclass_names recursion_limit (Some cn) class_store
                 (Some true);
        Ok (map PyStr.lower (clns ++ subs))
  | None => Ok []
  end.

Definition _validate_class_exists (self : MainProvider)
    (namespace cln : string) : result unit :=
  class_exists ← _class_exists self namespace cln;
  if negb class_exists then Raise (CIMError CIM_ERR_INVALID_PARAMETER)
  else Ok tt.

(** [_iter_association_classes]: the stored classes that carry the
    [Association] qualifier. *)
Definition _iter_association_classes (self : MainProvider)
    (namespace : string) : result (list CIMClass) :=
  class_store ← get_class_store self namespace;
  Ok (List.filter
        (fun cl => NocaseDict.contains "Association" (cls_qualifiers cl))
        (ObjectStore.iter_values class_store)).

(** ** The association engine

    The reference and associator responders only matter to the pull
    operations as producers of the list that is paged; they read the
    repository and return a list or raise.  The [Open...] responders are
    embedded over arbitrary responders of these signatures. *)

Variable ReferenceNames :
  MainProvider -> string -> CIMInstanceName ->
  option string -> option string -> result (list CIMInstanceName).

Variable References :
  MainProvider -> string -> CIMInstanceName ->
  option string -> option string -> option bool -> option bool ->
  option (list string) -> result (list CIMInstance).

Variable AssociatorNames :
  MainProvider -> string -> CIMInstanceName ->
  option string -> option string -> option string -> option string ->
  result (list CIMInstanceName).

Variable Associators :
  MainProvider -> string -> CIMInstanceName ->
  option string -> option string -> option string -> option string ->
  option bool -> option bool -> option (list string) ->
  result (list CIMInstance).

(** ** Open and pull responders *)

Definition _DEFAULT_MAX_OBJECT_COUNT : Z := 100.

Definition OPEN_MAX_TIMEOUT : Z := 40.

(** [_create_contextid]: [str(uuid.uuid4())] *)
Definition _create_contextid (env : Environment) : string := env_uuid4 env.

(** What the [Open...] and [Pull...] responders return: the objects, the
    end-of-sequence flag and the context id. *)
Definition PullResult : Type := list CIMObject * string * string.

Definition _open_response (env : Environment) (self : MainProvider)
    (namespace : string) (objects : list CIMObject) (pull_type : string)
    (OperationTimeout MaxObjectCount : option Z)
    (ContinueOnError : option bool) : result PullResult * MainProvider :=
  let max_obj_cnt :=
    match MaxObjectCount with
    | None => _DEFAULT_MAX_OBJECT_COUNT
    | Some n => n
    end in
  let ContinueOnError :=
    match ContinueOnError with
    | None => false
    | Some b => b
    end in
  let default_server_timeout := 40%Z in
  let timeout :=
    match OperationTimeout with
    | None => default_server_timeout
    | Some t => t
    end in
  if (Z.of_nat (length objects) <=? max_obj_cnt)%Z
  then (Ok (objects, "TRUE", ""), self)
  else
    let context_id := _create_contextid env in
    (* the context holds the list object itself; the objects sent to the
       client are then deleted from that list *)
    let rtn_objects := py_slice0 objects max_obj_cnt in
    let objects := py_del0 objects max_obj_cnt in
    (Ok (rtn_objects, "FALSE", context_id),
     with_enumeration_contexts
       (<[context_id :=
            mkEnumerationContext pull_type objects namespace
              (env_delta_time env) timeout ContinueOnError]>
          (enumeration_contexts self))
       self).

(** [_pull_response].  When the context holds more than [max_obj_cnt]
    objects, the method slices them off the stored list and then returns
    the tuple [(rtn_objs_list, eos, context_id)]; [context_id] is assigned
    in the other branch only, so the return statement raises
    [UnboundLocalError] after the list has been shortened. *)
Definition _pull_response (self : MainProvider) (req_type : string)
    (EnumerationContext : string) (MaxObjectCount : option Z)
    : result PullResult * MainProvider :=
  match enumeration_contexts self !! EnumerationContext with
  | None => (Raise (CIMError CIM_ERR_INVALID_ENUMERATION_CONTEXT), self)
  | Some context_data =>
      match validate_namespace self (ctx_namespace context_data) with
      | Raise e => (Raise e, self)
      | Ok _ =>
          if negb (String.eqb (ctx_pull_type context_data) req_type)
          then (Raise (CIMError CIM_ERR_INVALID_ENUMERATION_CONTEXT), self)
          else
            let objs_list := ctx_data context_data in
            let max_obj_cnt :=
              match MaxObjectCount with
              | None => _DEFAULT_MAX_OBJECT_COUNT
              | Some n => if (n =? 0)%Z then _DEFAULT_MAX_OBJECT_COUNT else n
              end in
            if (Z.of_nat (length objs_list) <=? max_obj_cnt)%Z
            then
              (Ok (objs_list, "TRUE", ""),
               with_enumeration_contexts
                 (delete EnumerationContext (enumeration_contexts self))
                 self)
            else
              let objs_list' := py_del0 objs_list max_obj_cnt in
              (Raise UnboundLocalError,
               with_enumeration_contexts
                 (<[EnumerationContext :=
                      mkEnumerationContext (ctx_pull_type context_data)
                        objs_list' (ctx_namespace context_data)
                        (ctx_time context_data)
                        (ctx_interoptimeout context_data)
                        (ctx_continueonerror context_data)]>
                    (enumeration_contexts self))
                 self)
      end
  end.

(** [_validate_open_params].  For an [OperationTimeout] out of range the
    method sets out to raise [CIM_ERR_INVALID_PARAMETER], but the format
    string of its message has a malformed replacement field
    ([{0!A }]), so building the message raises [ValueError] and that is
    the exception that leaves the method. *)
Definition _validate_open_params (FilterQueryLanguage FilterQuery
    : option string) (OperationTimeout : option Z) : result unit :=
  if negb (PyStr.truthy FilterQueryLanguage) && PyStr.truthy FilterQuery
  then Raise (CIMError CIM_ERR_INVALID_PARAMETER)
  else
    if PyStr.truthy FilterQueryLanguage
       && negb (bool_decide (FilterQueryLanguage = Some "DMTF:FQL"))
    then Raise (CIMError CIM_ERR_QUERY_LANGUAGE_NOT_SUPPORTED)
    else
      match OperationTimeout with
      | Some ot =>
          if negb (ot =? 0)%Z && ((ot <? 0)%Z || (OPEN_MAX_TIMEOUT <? ot)%Z)
          then Raise ValueError
          else Ok tt
      | None => Ok tt
      end.

Definition _pull_operations_disabled (self : MainProvider) : result unit :=
  if disable_pull_operations self then Raise (CIMError CIM_ERR_NOT_SUPPORTED)
  else Ok tt.

(** The statements every [Open...] responder starts with, followed by its
    non-paged operation. *)
Definition open_request {A} (self : MainProvider) (namespace : string)
    (FilterQueryLanguage FilterQuery : option string)
    (OperationTimeout : option Z) (operation : result (list A))
    : result (list A) :=
  _ ← _pull_operations_disabled self;
  _ ← validate_namespace self namespace;
  _ ← _validate_open_params FilterQueryLanguage FilterQuery OperationTimeout;
  operation.

Definition OpenEnumerateInstancePaths (env : Environment)
    (self : MainProvider) (namespace ClassName : string)
    (FilterQueryLanguage FilterQuery : option string)
    (OperationTimeout : option Z) (ContinueOnError : option bool)
    (MaxObjectCount : option Z) : result PullResult * MainProvider :=
  match open_request self namespace FilterQueryLanguage FilterQuery
          OperationTimeout
          (EnumerateInstanceNames self namespace ClassName) with
  | Raise e => (Raise e, self)
  | Ok result =>
      _open_response env self namespace (map ObjPath result)
        "PullInstancePaths" OperationTimeout MaxObjectCount ContinueOnError
  end.

Definition OpenEnumerateInstances (env : Environment) (self : MainProvider)
    (namespace ClassName : string) (DeepInheritance IncludeClassOrigin
    : option bool) (PropertyList : option (list string))
    (FilterQueryLanguage FilterQuery : option string)
    (OperationTimeout : option Z) (ContinueOnError : option bool)
    (MaxObjectCount : option Z) : result PullResult * MainProvider :=
  match open_request self namespace FilterQueryLanguage FilterQuery
          OperationTimeout
          (EnumerateInstances self namespace ClassName None DeepInheritance
             None IncludeClassOrigin PropertyList) with
  | Raise e => (Raise e, self)
  | Ok result =>
      _open_response env self namespace (map ObjInstance result)
        "PullInstancesWithPath" OperationTimeout MaxObjectCount
        ContinueOnError
  end.

Definition OpenReferenceInstancePaths (env : Environment)
    (self : MainProvider) (namespace : string)
    (InstanceName : CIMInstanceName) (ResultClass Role : option string)
    (FilterQueryLanguage FilterQuery : option string)
    (OperationTimeout : option Z) (ContinueOnError : option bool)
    (MaxObjectCount : option Z) : result PullResult * MainProvider :=
  match open_request self namespace FilterQueryLanguage FilterQuery
          OperationTimeout
          (ReferenceNames self namespace InstanceName ResultClass Role) with
  | Raise e => (Raise e, self)
  | Ok instances =>
      _open_response env self namespace (map ObjPath instances)
        "PullInstancePaths" OperationTimeout MaxObjectCount ContinueOnError
  end.

Definition OpenReferenceInstances (env : Environment) (self : MainProvider)
    (namespace : string) (InstanceName : CIMInstanceName)
    (ResultClass Role : option string) (IncludeClassOrigin : option bool)
    (PropertyList : option (list string))
    (FilterQueryLanguage FilterQuery : option string)
    (OperationTimeout : option Z) (ContinueOnError : option bool)
    (MaxObjectCount : option Z) : result PullResult * MainProvider :=
  match open_request self namespace FilterQueryLanguage FilterQuery
          OperationTimeout
          (References self namespace InstanceName ResultClass Role None
             IncludeClassOrigin PropertyList) with
  | Raise e => (Raise e, self)
  | Ok instances =>
      _open_response env self namespace (map ObjInstance instances)
        "PullInstancesWithPath" OperationTimeout MaxObjectCount
        ContinueOnError
  end.

Definition OpenAssociatorInstancePaths (env : Environment)
    (self : MainProvider) (namespace : string)
    (InstanceName : CIMInstanceName)
    (AssocClass ResultClass Role ResultRole : option string)
    (FilterQueryLanguage FilterQuery : option string)
    (OperationTimeout : option Z) (ContinueOnError : option bool)
    (MaxObjectCount : option Z) : result PullResult * MainProvider :=
  match open_request self namespace FilterQueryLanguage FilterQuery
          OperationTimeout
          (AssociatorNames self namespace InstanceName AssocClass ResultClass
             Role ResultRole) with
  | Raise e => (Raise e, self)
  | Ok instances =>
      _open_response env self namespace (map ObjPath instances)
        "PullInstancePaths" OperationTimeout MaxObjectCount ContinueOnError
  end.

Definition OpenAssociatorInstances (env : Environment) (self : MainProvider)
    (namespace : string) (InstanceName : CIMInstanceName)
    (AssocClass ResultClass Role ResultRole : option string)
    (IncludeClassOrigin : option bool) (PropertyList : option (list string))
    (FilterQueryLanguage FilterQuery : option string)
    (OperationTimeout : option Z) (ContinueOnError : option bool)
    (MaxObjectCount : option Z) : result PullResult * MainProvider :=
  match open_request self namespace FilterQueryLanguage FilterQuery
          OperationTimeout
          (Associators self namespace InstanceName AssocClass ResultClass
             Role ResultRole None IncludeClassOrigin PropertyList) with
  | Raise e => (Raise e, self)
  | Ok instances =>
      _open_response env self namespace (map ObjInstance instances)
        "PullInstancesWithPath" OperationTimeout MaxObjectCount
        ContinueOnError
  end.

(** The three [Pull...] responders differ in the pull type they ask for. *)
Definition pull (req_type : string) (self : MainProvider)
    (EnumerationContext : string) (MaxObjectCount : option Z)
    : result PullResult * MainProvider :=
  match _pull_operations_disabled self with
  | Raise e => (Raise e, self)
  | Ok _ => _pull_response self req_type EnumerationContext MaxObjectCount
  end.

Definition PullInstancesWithPath := pull "PullInstancesWithPath".

Definition PullInstancePaths := pull "PullInstancePaths".

Definition PullInstances := pull "PullInstances".

Definition CloseEnumeration (self : MainProvider)
    (EnumerationContext : string) : result unit * MainProvider :=
  match _pull_operations_disabled self with
  | Raise e => (Raise e, self)
  | Ok _ =>
      match enumeration_contexts self !! EnumerationContext with
      | Some _ =>
          (Ok tt,
           with_enumeration_contexts
             (delete EnumerationContext (enumeration_contexts self)) self)
      | None => (Raise (CIMError CIM_ERR_INVALID_ENUMERATION_CONTEXT), self)
      end
  end.

(** *** OpenQueryInstances *)

Definition OpenQueryInstances (env : Environment) (self : MainProvider)
    (namespace : string) (FilterQueryLanguage FilterQuery : option string)
    (ReturnQueryResultClass : option bool) (OperationTimeout : option Z)
    (ContinueOnError : option bool) (MaxObjectCount : option Z)
    : result PullResult * MainProvider :=
  match open_request self namespace FilterQueryLanguage FilterQuery
          OperationTimeout
          (ExecQuery self namespace FilterQueryLanguage FilterQuery) with
  | Raise e => (Raise e, self)
  | Ok instances =>
      _open_response env self namespace (map ObjInstance instances)
        "PullInstancesWithPath" OperationTimeout MaxObjectCount
        ContinueOnError
  end.

(** ** The requests of the pull protocol, as a dispatcher sees them *)

(** The six [Open...] requests, each with the parameters that are its
    own. *)
Inductive OpenOperation : Type :=
  | OpenEnumerateInstancePaths_ (ClassName : string)
  | OpenEnumerateInstances_ (ClassName : string)
      (DeepInheritance IncludeClassOrigin : option bool)
      (PropertyList : option (list string))
  | OpenReferenceInstancePaths_ (InstanceName : CIMInstanceName)
      (ResultClass Role : option string)
  | OpenReferenceInstances_ (InstanceName : CIMInstanceName)
      (ResultClass Role : option string) (IncludeClassOrigin : option bool)
      (PropertyList : option (list string))
  | OpenAssociatorInstancePaths_ (InstanceName : CIMInstanceName)
      (AssocClass ResultClass Role ResultRole : option string)
  | OpenAssociatorInstances_ (InstanceName : CIMInstanceName)
      (AssocClass ResultClass Role ResultRole : option string)
      (IncludeClassOrigin : option bool)
      (PropertyList : option (list string)).

(** The parameters all [Open...] requests share. *)
Record OpenParameters : Type := mkOpenParameters {
  open_FilterQueryLanguage : option string;
  open_FilterQuery : option string;
  open_OperationTimeout : option Z;
  open_ContinueOnError : option bool;
  open_MaxObjectCount : option Z
}.

Definition call_open (env : Environment) (self : MainProvider)
    (namespace : string) (op : OpenOperation) (ps : OpenParameters)
    : result PullResult * MainProvider :=
  let fql := open_FilterQueryLanguage ps in
  let fq := open_FilterQuery ps in
  let ot := open_OperationTimeout ps in
  let coe := open_ContinueOnError ps in
  let moc := open_MaxObjectCount ps in
  match op with
  | OpenEnumerateInstancePaths_ cn =>
      OpenEnumerateInstancePaths env self namespace cn fql fq ot coe moc
  | OpenEnumerateInstances_ cn di ico pl =>
      OpenEnumerateInstances env self namespace cn di ico pl fql fq ot coe
        moc
  | OpenReferenceInstancePaths_ iname rc role =>
      OpenReferenceInstancePaths env self namespace iname rc role fql fq ot
        coe moc
  | OpenReferenceInstances_ iname rc role ico pl =>
      OpenReferenceInstances env self namespace iname rc role ico pl fql fq
        ot coe moc
  | OpenAssociatorInstancePaths_ iname ac rc role rrole =>
      OpenAssociatorInstancePaths env self namespace iname ac rc role rrole
        fql fq ot coe moc
  | OpenAssociatorInstances_ iname ac rc role rrole ico pl =>
      OpenAssociatorInstances env self namespace iname ac rc role rrole ico
        pl fql fq ot coe moc
  end.

(** The non-paged operation underlying an [Open...] request. *)
Definition non_paged (self : MainProvider) (namespace : string)
    (op : OpenOperation) : result (list CIMObject) :=
  match op with
  | OpenEnumerateInstancePaths_ cn =>
      map ObjPath <$> EnumerateInstanceNames self namespace cn
  | OpenEnumerateInstances_ cn di ico pl =>
      map ObjInstance <$>
        EnumerateInstances self namespace cn None di None ico pl
  | OpenReferenceInstancePaths_ iname rc role =>
      map ObjPath <$> ReferenceNames self namespace iname rc role
  | OpenReferenceInstances_ iname rc role ico pl =>
      map ObjInstance <$>
        References self namespace iname rc role None ico pl
  | OpenAssociatorInstancePaths_ iname ac rc role rrole =>
      map ObjPath <$> AssociatorNames self namespace iname ac rc role rrole
  | OpenAssociatorInstances_ iname ac rc role rrole ico pl =>
      map ObjInstance <$>
        Associators self namespace iname ac rc role rrole None ico pl
  end.

(** The pull type an [Open...] request records in its context. *)
Definition pull_type_of (op : OpenOperation) : string :=
  match op with
  | OpenEnumerateInstancePaths_ _ | OpenReferenceInstancePaths_ _ _ _
  | OpenAssociatorInstancePaths_ _ _ _ _ _ => "PullInstancePaths"
  | _ => "PullInstancesWithPath"
  end.

Inductive PullOperation : Type :=
  | PullInstancesWithPath_
  | PullInstancePaths_
  | PullInstances_.

Definition pull_type_name (op : PullOperation) : string :=
  match op with
  | PullInstancesWithPath_ => "PullInstancesWithPath"
  | PullInstancePaths_ => "PullInstancePaths"
  | PullInstances_ => "PullInstances"
  end.

Definition call_pull (self : MainProvider) (op : PullOperation)
    (EnumerationContext : string) (MaxObjectCount : option Z)
    : result PullResult * MainProvider :=
  match op with
  | PullInstancesWithPath_ =>
      PullInstancesWithPath self EnumerationContext MaxObjectCount
  | PullInstancePaths_ =>
      PullInstancePaths self EnumerationContext MaxObjectCount
  | PullInstances_ => PullInstances self EnumerationContext MaxObjectCount
  end.

(** ** Invariants of a well-formed repository *)

(** No two entries of a store have equal keys (I1 and I6 of the spec). *)
Fixpoint keys_unique {K V} (key_eqb : K -> K -> bool)
    (s : ObjectStore.t K V) : bool :=
  match s with
  | [] => true
  | e :: s' =>
      forallb (fun e' => negb (key_eqb (fst e') (fst e))
                         && negb (key_eqb (fst e) (fst e'))) s'
      && keys_unique key_eqb s'
  end.

(** Every class is stored under its own name, and no name twice. *)
Definition class_store_ok (cs : ObjectStore.t string CIMClass) : bool :=
  keys_unique class_key_eqb cs
  && forallb (fun e => String.eqb (fst e) (cls_classname (snd e))) cs.

(** Every instance is stored under its own path, and no path twice. *)
Definition instance_store_ok
    (insts : ObjectStore.t CIMInstanceName CIMInstance) : bool :=
  keys_unique path_eqb insts
  && forallb (fun e => bool_decide (inst_path (snd e) = Some (fst e))) insts.

(** [h] assigns every class a smaller number than its superclass: the
    hierarchy has no cycle.  The numbers are read off lower-cased names. *)
Definition heights_decrease (h : string -> nat)
    (cs : ObjectStore.t string CIMClass) : bool :=
  forallb
    (fun e =>
       match cls_superclass (snd e) with
       | Some sup =>
           if PyStr.truthy (Some sup)
           then (h (PyStr.lower (cls_classname (snd e)))
                 <? h (PyStr.lower sup))%nat
           else true
       | None => true
       end) cs.

(** Case-insensitive membership in a list of names. *)
Definition in_names (x : string) (names : list string) : bool :=
  List.existsb (PyStr.eqb_nocase x) names.

(** The depth of a class: the number of its superclasses. *)
Definition class_depth (class_store : ObjectStore.t string CIMClass)
    (classname : string) : option nat :=
  match _get_superclass_names (S (length class_store)) (Some classname)
          class_store with
  | Some (Ok names) => Some (length names)
  | _ => None
  end.

(** An order of deletion is in descending depth when no class comes before
    a deeper one. *)
Definition descending_depth (class_store : ObjectStore.t string CIMClass)
    (order : list string) : Prop :=
  forall i j c d dc dd,
    i < j -> order !! i = Some c -> order !! j = Some d ->
    class_depth class_store c = Some dc ->
    class_depth class_store d = Some dd ->
    dd <= dc.

(** [descends cs cn c]: the stored class [c] is a direct or indirect
    subclass of the class named [cn]. *)
Inductive descends (cs : ObjectStore.t string CIMClass) (cn : string)
    : CIMClass -> Prop :=
  | descends_child c :
      c ∈ ObjectStore.iter_values cs ->
      is_direct_subclass cn c = true ->
      descends cs cn c
  | descends_step d c :
      descends cs cn d ->
      c ∈ ObjectStore.iter_values cs ->
      is_direct_subclass (cls_classname d) c = true ->
      descends cs cn c.

(** Every superclass that a stored class names is stored. *)
Definition superclasses_stored (cs : ObjectStore.t string CIMClass) : bool :=
  forallb
    (fun e =>
       match cls_superclass (snd e) with
       | Some sup =>
           if PyStr.truthy (Some sup)
           then ObjectStore.exists_ class_key_eqb sup cs
           else true
       | None => true
       end) cs.

(** The class that a stored instance path names is stored. *)
Definition instance_classes_stored (cs : ObjectStore.t string CIMClass)
    (insts : ObjectStore.t CIMInstanceName CIMInstance) : bool :=
  forallb
    (fun e => ObjectStore.exists_ class_key_eqb (path_classname (fst e)) cs)
    insts.

(** A well-formed namespace: classes and instances are stored once, under
    their own name and path, and nothing refers to a class that is not
    stored. *)
Definition stores_ok (st : NamespaceStores) : Prop :=
  class_store_ok (ns_classes st) = true
  /\ instance_store_ok (ns_instances st) = true
  /\ superclasses_stored (ns_classes st) = true
  /\ instance_classes_stored (ns_classes st) (ns_instances st) = true.

(** A well-formed repository: every namespace is well-formed. *)
Definition repository_ok (self : MainProvider) : Prop :=
  Forall (fun e => stores_ok (snd e)) (datastore self).

(** Two names denote the same namespace when they agree up to case and
    to leading and trailing slashes. *)
Definition same_namespace (a b : string) : Prop :=
  PyStr.lower (Datastore.normalize a) = PyStr.lower (Datastore.normalize b).

#[global] Instance same_namespace_dec a b : Decision (same_namespace a b).
Proof. unfold same_namespace. apply _. Defined.

(** An object that carries no qualifier: none on the class, on its
    properties, on its methods or on their parameters. *)
Definition is_empty_dict {V} (d : NocaseDict.t V) : bool :=
  match d with
  | [] => true
  | _ :: _ => false
  end.

Definition carries_no_qualifier (c : CIMClass) : bool :=
  is_empty_dict (cls_qualifiers c)
  && forallb (fun p => is_empty_dict (prop_qualifiers p))
       (NocaseDict.values (cls_properties c))
  && forallb
       (fun m =>
          is_empty_dict (meth_qualifiers m)
          && forallb (fun p => is_empty_dict (param_qualifiers p))
               (NocaseDict.values (meth_parameters m)))
       (NocaseDict.values (cls_methods c)).

(** A class none of whose properties and methods names its class of
    origin. *)
Definition carries_no_class_origin (c : CIMClass) : bool :=
  forallb (fun p => bool_decide (prop_class_origin p = None))
    (NocaseDict.values (cls_properties c))
  && forallb (fun m => bool_decide (meth_class_origin m = None))
       (NocaseDict.values (cls_methods c)).

(** Whether a property list lets a property name through: every name
    without a list, and with a list the names it holds under some
    casing. *)
Definition listed (pl : option (list string)) (name : string) : bool :=
  match pl with
  | Some pl => str_in (PyStr.lower name) (map PyStr.lower pl)
  | None => true
  end.

(** * Properties *)

(** ** Slices *)

Lemma py_slice0_del0 {A} (l : list A) (n : Z) :
  py_slice0 l n ++ py_del0 l n = l.
Proof. unfold py_slice0, py_del0. apply take_drop. Qed.

Lemma py_slice0_nonneg {A} (l : list A) (n : Z) :
  (0 <= n)%Z -> py_slice0 l n = take (Z.to_nat n) l.
Proof.
  intros Hn. unfold py_slice0, slice_stop.
  destruct (Z.ltb_spec n 0); [lia|].
  destruct (Nat.le_gt_cases (Z.to_nat n) (length l)) as [Hle|Hgt].
  - by rewrite Nat.min_l.
  - rewrite Nat.min_r by lia. rewrite !take_ge; [done|lia|lia].
Qed.

Lemma py_del0_nonneg {A} (l : list A) (n : Z) :
  (0 <= n)%Z -> py_del0 l n = drop (Z.to_nat n) l.
Proof.
  intros Hn. unfold py_del0, slice_stop.
  destruct (Z.ltb_spec n 0); [lia|].
  destruct (Nat.le_gt_cases (Z.to_nat n) (length l)) as [Hle|Hgt].
  - by rewrite Nat.min_l.
  - rewrite Nat.min_r by lia. rewrite !drop_ge; [done|lia|lia].
Qed.

Lemma py_slice0_zero {A} (l : list A) : py_slice0 l 0 = [].
Proof. rewrite py_slice0_nonneg by lia. done. Qed.

Lemma py_del0_zero {A} (l : list A) : py_del0 l 0 = l.
Proof. rewrite py_del0_nonneg by lia. done. Qed.

(** ** The open protocol *)

(** What [_open_response] does with the list it is given. *)
Lemma _open_response_spec env self namespace objects pull_type ot moc coe :
  let N := default _DEFAULT_MAX_OBJECT_COUNT moc in
  ((Z.of_nat (length objects) <= N)%Z ->
   _open_response env self namespace objects pull_type ot moc coe
   = (Ok (objects, "TRUE", ""), self))
  /\ ((N < Z.of_nat (length objects))%Z ->
      exists ctx,
        _open_response env self namespace objects pull_type ot moc coe
        = (Ok (py_slice0 objects N, "FALSE", _create_contextid env),
           with_enumeration_contexts
             (<[_create_contextid env := ctx]> (enumeration_contexts self))
             self)
        /\ ctx_data ctx = py_del0 objects N
        /\ ctx_pull_type ctx = pull_type
        /\ ctx_namespace ctx = namespace).
Proof.
  intros N. unfold _open_response.
  replace (match moc with Some n => n | None => _DEFAULT_MAX_OBJECT_COUNT end)
    with N by (subst N; by destruct moc).
  split; intros HN.
  - destruct (Z.leb_spec (Z.of_nat (length objects)) N); [done|lia].
  - destruct (Z.leb_spec (Z.of_nat (length objects)) N); [lia|].
    eexists. split; [reflexivity|]. done.
Qed.

(** An [Open...] request that passes the checks all of them start with runs
    its non-paged operation and hands the result to [_open_response]. *)
Lemma call_open_unfold env self namespace op ps all :
  disable_pull_operations self = false ->
  validate_namespace self namespace = Ok tt ->
  _validate_open_params (open_FilterQueryLanguage ps) (open_FilterQuery ps)
    (open_OperationTimeout ps) = Ok tt ->
  non_paged self namespace op = Ok all ->
  call_open env self namespace op ps
  = _open_response env self namespace all (pull_type_of op)
      (open_OperationTimeout ps) (open_MaxObjectCount ps)
      (open_ContinueOnError ps).
Proof.
  intros Hen Hns Hps Hop.
  destruct op; cbn [call_open non_paged pull_type_of] in *;
    unfold OpenEnumerateInstancePaths, OpenEnumerateInstances,
      OpenReferenceInstancePaths, OpenReferenceInstances,
      OpenAssociatorInstancePaths, OpenAssociatorInstances, open_request,
      _pull_operations_disabled;
    rewrite Hen, Hns, Hps; cbn [mbind result_bind];
    match type of Hop with
    | _ <$> ?r = _ => destruct r; cbn in Hop; [|discriminate]
    end;
    by injection Hop as <-.
Qed.

(** C1. For each of the six [Open...] operations whose non-paged operation
    yields the list [all], with [N] the [MaxObjectCount] of the request (100
    when it is absent): if [|all| <= N] the call returns
    [(all, "TRUE", "")] and leaves the provider, and so the table of
    enumeration contexts, as it was; otherwise it returns
    [(all[:N], "FALSE", context_id)] for the newly generated context id and
    enters, under that id, a context whose data is the tail [all[N:]]. *)
Theorem C1_open_returns_first_page env self namespace op ps all :
  disable_pull_operations self = false ->
  validate_namespace self namespace = Ok tt ->
  _validate_open_params (open_FilterQueryLanguage ps) (open_FilterQuery ps)
    (open_OperationTimeout ps) = Ok tt ->
  non_paged self namespace op = Ok all ->
  let N := default 100%Z (open_MaxObjectCount ps) in
  ((Z.of_nat (length all) <= N)%Z ->
   call_open env self namespace op ps = (Ok (all, "TRUE", ""), self))
  /\ ((N < Z.of_nat (length all))%Z ->
      exists ctx,
        call_open env self namespace op ps
        = (Ok (py_slice0 all N, "FALSE", _create_contextid env),
           with_enumeration_contexts
             (<[_create_contextid env := ctx]> (enumeration_contexts self))
             self)
        /\ ctx_data ctx = py_del0 all N
        /\ ctx_pull_type ctx = pull_type_of op
        /\ ctx_namespace ctx = namespace
        /\ py_slice0 all N ++ py_del0 all N = all).
Proof.
  intros Hen Hns Hps Hop N.
  rewrite (call_open_unfold env _ _ _ _ _ Hen Hns Hps Hop).
  destruct (_open_response_spec env self namespace all (pull_type_of op)
              (open_OperationTimeout ps) (open_MaxObjectCount ps)
              (open_ContinueOnError ps)) as [Hle Hgt].
  split; [exact Hle|].
  intros HN. destruct (Hgt HN) as (ctx & -> & Hd & Ht & Hn).
  exists ctx. repeat split; try done. apply py_slice0_del0.
Qed.

(** ** The pull protocol *)

Lemma call_pull_unfold self op EnumerationContext MaxObjectCount :
  call_pull self op EnumerationContext MaxObjectCount
  = if disable_pull_operations self
    then (Raise (CIMError CIM_ERR_NOT_SUPPORTED), self)
    else _pull_response self (pull_type_name op) EnumerationContext
           MaxObjectCount.
Proof.
  destruct op; cbn [call_pull pull_type_name];
    unfold PullInstancesWithPath, PullInstancePaths, PullInstances, pull,
      _pull_operations_disabled;
    by destruct (disable_pull_operations self).
Qed.

(** The number of objects a pull slices off: the requested count, or the
    default when the request gives none or gives 0. *)
Lemma _pull_response_spec self req_type EnumerationContext MaxObjectCount
    context_data :
  enumeration_contexts self !! EnumerationContext = Some context_data ->
  validate_namespace self (ctx_namespace context_data) = Ok tt ->
  ctx_pull_type context_data = req_type ->
  let data := ctx_data context_data in
  let M := match MaxObjectCount with
           | Some n => if (n =? 0)%Z then 100%Z else n
           | None => 100%Z
           end in
  ((Z.of_nat (length data) <= M)%Z ->
   _pull_response self req_type EnumerationContext MaxObjectCount
   = (Ok (data, "TRUE", ""),
      with_enumeration_contexts
        (delete EnumerationContext (enumeration_contexts self)) self))
  /\ ((M < Z.of_nat (length data))%Z ->
      _pull_response self req_type EnumerationContext MaxObjectCount
      = (Raise UnboundLocalError,
         with_enumeration_contexts
           (<[EnumerationContext :=
                mkEnumerationContext (ctx_pull_type context_data)
                  (py_del0 data M) (ctx_namespace context_data)
                  (ctx_time context_data) (ctx_interoptimeout context_data)
                  (ctx_continueonerror context_data)]>
              (enumeration_contexts self))
           self)).
Proof.
  intros Hctx Hns Hty data M. unfold _pull_response.
  rewrite Hctx, Hns, Hty, String.eqb_refl. cbn [negb].
  fold data. unfold _DEFAULT_MAX_OBJECT_COUNT. fold M.
  split; intros HM.
  - destruct (Z.leb_spec (Z.of_nat (length data)) M); [done|lia].
  - destruct (Z.leb_spec (Z.of_nat (length data)) M); [lia|done].
Qed.

(** C2 (amended). For each of the three [Pull...] operations, on a
    connection with pull operations enabled, on an existing context of
    matching pull type whose namespace still validates and which holds the
    list [data]: with [M] the requested [MaxObjectCount] if it is present and
    not 0, and 100 otherwise, if [|data| <= M] the call returns
    [(data, "TRUE", "")] and discards the context; otherwise the first [M]
    entries are removed from the context's data and the remainder [data[M:]]
    stays in the context. *)
Theorem C2_pull_slices_requested_count self op EnumerationContext
    MaxObjectCount context_data :
  disable_pull_operations self = false ->
  enumeration_contexts self !! EnumerationContext = Some context_data ->
  validate_namespace self (ctx_namespace context_data) = Ok tt ->
  ctx_pull_type context_data = pull_type_name op ->
  let data := ctx_data context_data in
  let M := match MaxObjectCount with
           | Some n => if (n =? 0)%Z then 100%Z else n
           | None => 100%Z
           end in
  ((Z.of_nat (length data) <= M)%Z ->
   call_pull self op EnumerationContext MaxObjectCount
   = (Ok (data, "TRUE", ""),
      with_enumeration_contexts
        (delete EnumerationContext (enumeration_contexts self)) self))
  /\ ((M < Z.of_nat (length data))%Z ->
      snd (call_pull self op EnumerationContext MaxObjectCount)
      = with_enumeration_contexts
          (<[EnumerationContext :=
               mkEnumerationContext (ctx_pull_type context_data)
                 (py_del0 data M) (ctx_namespace context_data)
                 (ctx_time context_data) (ctx_interoptimeout context_data)
                 (ctx_continueonerror context_data)]>
             (enumeration_contexts self))
          self
      /\ py_slice0 data M ++ py_del0 data M = data).
Proof.
  intros Hen Hctx Hns Hty data M.
  rewrite call_pull_unfold, Hen.
  destruct (_pull_response_spec self (pull_type_name op) EnumerationContext
              MaxObjectCount context_data Hctx Hns Hty) as [Hle Hgt].
  split; [exact Hle|].
  intros HM. rewrite (Hgt HM). split; [done|apply py_slice0_del0].
Qed.

(** C4 (amended). On a connection with pull operations enabled: a
    [Pull...] call whose context id is not in the table raises
    [CIM_ERR_INVALID_ENUMERATION_CONTEXT]; a [Pull...] call on a context
    whose namespace still validates and whose stored pull type differs from
    the requested one raises [CIM_ERR_INVALID_ENUMERATION_CONTEXT];
    [CloseEnumeration] raises it for a missing context id and deletes the
    context of a present one.  The failing calls change nothing. *)
Theorem C4_invalid_enumeration_context self op EnumerationContext
    MaxObjectCount :
  disable_pull_operations self = false ->
  (enumeration_contexts self !! EnumerationContext = None ->
   call_pull self op EnumerationContext MaxObjectCount
   = (Raise (CIMError CIM_ERR_INVALID_ENUMERATION_CONTEXT), self)
   /\ CloseEnumeration self EnumerationContext
      = (Raise (CIMError CIM_ERR_INVALID_ENUMERATION_CONTEXT), self))
  /\ (forall context_data,
        enumeration_contexts self !! EnumerationContext = Some context_data ->
        (validate_namespace self (ctx_namespace context_data) = Ok tt ->
         ctx_pull_type context_data <> pull_type_name op ->
         call_pull self op EnumerationContext MaxObjectCount
         = (Raise (CIMError CIM_ERR_INVALID_ENUMERATION_CONTEXT), self))
        /\ CloseEnumeration self EnumerationContext
           = (Ok tt,
              with_enumeration_contexts
                (delete EnumerationContext (enumeration_contexts self))
                self)).
Proof.
  intros Hen. split.
  - intros Hnone. rewrite call_pull_unfold, Hen.
    unfold _pull_response, CloseEnumeration, _pull_operations_disabled.
    by rewrite Hen, Hnone.
  - intros cd Hsome. split.
    + intros Hns Hty. rewrite call_pull_unfold, Hen.
      unfold _pull_response. rewrite Hsome, Hns.
      destruct (String.eqb_spec (ctx_pull_type cd) (pull_type_name op));
        [contradiction|done].
    + unfold CloseEnumeration, _pull_operations_disabled.
      by rewrite Hen, Hsome.
Qed.

(** C10. [MaxObjectCount = 0] in a [Pull...] call is treated as an absent
    count: the call does what it does without a count, and slices the
    default of 100 objects off the context.  In an [Open...] call whose
    non-paged operation yields a non-empty list, [MaxObjectCount = 0]
    returns no objects with end-of-sequence ["FALSE"] and stores the entire
    list in a newly created context. *)
Theorem C10_MaxObjectCount_zero env self namespace op ps all
    self' pop EnumerationContext context_data :
  disable_pull_operations self = false ->
  validate_namespace self namespace = Ok tt ->
  _validate_open_params (open_FilterQueryLanguage ps) (open_FilterQuery ps)
    (open_OperationTimeout ps) = Ok tt ->
  open_MaxObjectCount ps = Some 0%Z ->
  non_paged self namespace op = Ok all ->
  all <> [] ->
  disable_pull_operations self' = false ->
  enumeration_contexts self' !! EnumerationContext = Some context_data ->
  validate_namespace self' (ctx_namespace context_data) = Ok tt ->
  ctx_pull_type context_data = pull_type_name pop ->
  let data := ctx_data context_data in
  (call_pull self' pop EnumerationContext (Some 0%Z)
   = call_pull self' pop EnumerationContext None)
  /\ (length data <= 100 ->
      call_pull self' pop EnumerationContext (Some 0%Z)
      = (Ok (data, "TRUE", ""),
         with_enumeration_contexts
           (delete EnumerationContext (enumeration_contexts self')) self'))
  /\ (100 < length data ->
      ctx_data <$>
        (enumeration_contexts
           (snd (call_pull self' pop EnumerationContext (Some 0%Z)))
         !! EnumerationContext)
      = Some (drop 100 data))
  /\ (exists ctx,
        call_open env self namespace op ps
        = (Ok ([], "FALSE", _create_contextid env),
           with_enumeration_contexts
             (<[_create_contextid env := ctx]> (enumeration_contexts self))
             self)
        /\ ctx_data ctx = all
        /\ ctx_pull_type ctx = pull_type_of op
        /\ ctx_namespace ctx = namespace).
Proof.
  intros Hen Hns Hps Hmoc Hop Hne Hen' Hctx Hns' Hty data.
  destruct (_pull_response_spec self' (pull_type_name pop) EnumerationContext
              (Some 0%Z) context_data Hctx Hns' Hty) as [Hle Hgt].
  cbn [Z.eqb] in Hle, Hgt. fold data in Hle, Hgt.
  split; [|split; [|split]].
  - rewrite !call_pull_unfold, Hen'. reflexivity.
  - intros Hlen. rewrite call_pull_unfold, Hen'. apply Hle. lia.
  - intros Hlen. rewrite call_pull_unfold, Hen', Hgt by lia.
    cbn [snd enumeration_contexts with_enumeration_contexts].
    rewrite lookup_insert_eq.
    change (Some (py_del0 data 100) = Some (drop 100 data)).
    by rewrite py_del0_nonneg by lia.
  - rewrite (call_open_unfold env _ _ _ _ _ Hen Hns Hps Hop), Hmoc.
    destruct (_open_response_spec env self namespace all (pull_type_of op)
                (open_OperationTimeout ps) (Some 0%Z)
                (open_ContinueOnError ps)) as [_ Hopen].
    change (default _DEFAULT_MAX_OBJECT_COUNT (Some 0%Z)) with 0%Z in Hopen.
    destruct Hopen as (ctx & -> & Hd & Ht & Hn).
    { destruct all; [done|]. cbn [length]. lia. }
    exists ctx. rewrite py_slice0_zero. rewrite py_del0_zero in Hd. done.
Qed.

(** ** Names and stores *)

Lemma eqb_nocase_eq a b : PyStr.eqb_nocase a b = true <-> PyStr.lower a = PyStr.lower b.
Proof. unfold PyStr.eqb_nocase. apply String.eqb_eq. Qed.

Lemma eqb_nocase_refl a : PyStr.eqb_nocase a a = true.
Proof. by apply eqb_nocase_eq. Qed.

Lemma eqb_nocase_sym a b : PyStr.eqb_nocase a b = PyStr.eqb_nocase b a.
Proof. unfold PyStr.eqb_nocase. apply String.eqb_sym. Qed.

Lemma in_names_spec x names :
  in_names x names = true
  <-> exists y, y ∈ names /\ PyStr.lower x = PyStr.lower y.
Proof.
  unfold in_names. rewrite existsb_exists. split.
  - intros (y & Hy & He). exists y. split; [by apply list_elem_of_In|].
    by apply eqb_nocase_eq.
  - intros (y & Hy & He). exists y. split; [by apply list_elem_of_In|].
    by apply eqb_nocase_eq.
Qed.

Lemma in_names_app x l k :
  in_names x (l ++ k) = in_names x l || in_names x k.
Proof. unfold in_names. apply existsb_app. Qed.

Lemma elem_of_concat {A} (x : A) (ls : list (list A)) :
  x ∈ concat ls <-> exists l, x ∈ l /\ l ∈ ls.
Proof.
  rewrite list_elem_of_In, in_concat. split.
  - intros (l & Hl & Hx). exists l. by rewrite !list_elem_of_In.
  - intros (l & Hx & Hl). exists l. by rewrite <- !list_elem_of_In.
Qed.

Lemma mapM_Ok {A B} (f : A -> result B) (l : list A) (ys : list B) :
  mapM f l = Ok ys <-> Forall2 (fun x y => f x = Ok y) l ys.
Proof.
  revert ys. induction l as [|x l IH]; intros ys; cbn.
  - split.
    + intros [= <-]. constructor.
    + by intros ->%Forall2_nil_inv_l.
  - split.
    + destruct (f x) as [y|] eqn:Hx; cbn; [|done].
      destruct (mapM f l) as [k|] eqn:Hl; cbn; [|done].
      intros [= <-]. constructor; [done|]. by apply IH.
    + intros (y & k & Hx & Hl & ->)%Forall2_cons_inv_l.
      rewrite Hx. cbn. apply IH in Hl. rewrite Hl. done.
Qed.

Section Store.
Context {K V : Type} (key_eqb : K -> K -> bool).

Lemma exists_get k (s : ObjectStore.t K V) :
  ObjectStore.exists_ key_eqb k s = true ->
  exists v, ObjectStore.get key_eqb k s = Ok v.
Proof.
  unfold ObjectStore.exists_, ObjectStore.get.
  intros (e & He & Hm)%existsb_exists.
  destruct (List.find (ObjectStore.matches key_eqb k) s) as [e'|] eqn:Hf.
  - by exists (snd e').
  - by rewrite (find_none _ _ Hf e He) in Hm.
Qed.

Lemma exists_elem k (s : ObjectStore.t K V) :
  ObjectStore.exists_ key_eqb k s = true
  <-> exists e, e ∈ s /\ key_eqb (fst e) k = true.
Proof.
  unfold ObjectStore.exists_. rewrite existsb_exists.
  split; intros (e & He & Hm); exists e; split; try done;
    by apply list_elem_of_In.
Qed.

Lemma keys_unique_filter (p : K * V -> bool) (s : ObjectStore.t K V) :
  keys_unique key_eqb s = true ->
  keys_unique key_eqb (List.filter p s) = true.
Proof.
  induction s as [|e s IH]; [done|]. cbn [keys_unique List.filter].
  intros [Hall Hs]%andb_true_iff.
  destruct (p e); [|by apply IH].
  cbn [keys_unique]. apply andb_true_iff. split; [|by apply IH].
  rewrite forallb_forall in *. intros e' [He' _]%filter_In. by apply Hall.
Qed.

Lemma keys_unique_elem (s : ObjectStore.t K V) e1 e2 :
  keys_unique key_eqb s = true -> e1 ∈ s -> e2 ∈ s ->
  key_eqb (fst e1) (fst e2) = true -> e1 = e2.
Proof.
  induction s as [|e s IH]; [by intros _ ?%elem_of_nil|].
  cbn [keys_unique]. intros [Hall Hs]%andb_true_iff.
  rewrite forallb_forall in Hall.
  intros [->|H1]%elem_of_cons [->|H2]%elem_of_cons Heq.
  - done.
  - apply list_elem_of_In, Hall in H2.
    apply andb_true_iff in H2 as [_ H2]. by rewrite Heq in H2.
  - apply list_elem_of_In, Hall in H1.
    apply andb_true_iff in H1 as [H1 _]. by rewrite Heq in H1.
  - by apply IH.
Qed.

End Store.

(** ** The subclass walk on a well-formed class store *)

Lemma is_direct_subclass_spec cn c :
  is_direct_subclass cn c = true
  <-> exists sup, cls_superclass c = Some sup
                  /\ PyStr.truthy (Some sup) = true
                  /\ PyStr.lower sup = PyStr.lower cn.
Proof.
  unfold is_direct_subclass. destruct (cls_superclass c) as [sup|].
  - rewrite andb_true_iff, eqb_nocase_eq. split.
    + intros [? ?]. by exists sup.
    + by intros (? & [= <-] & ? & ?).
  - split; [done|]. by intros (? & ? & _).
Qed.

Lemma parent_unique a b c :
  is_direct_subclass a c = true -> is_direct_subclass b c = true ->
  PyStr.lower a = PyStr.lower b.
Proof.
  intros (s1 & H1 & _ & E1)%is_direct_subclass_spec
         (s2 & H2 & _ & E2)%is_direct_subclass_spec.
  congruence.
Qed.

Lemma is_direct_subclass_nocase a b c :
  PyStr.lower a = PyStr.lower b ->
  is_direct_subclass a c = is_direct_subclass b c.
Proof.
  intros E. unfold is_direct_subclass, PyStr.eqb_nocase.
  destruct (cls_superclass c); [|done]. by rewrite E.
Qed.

Lemma next_level_elem cn cs x :
  x ∈ next_level (Some cn) cs
  <-> exists c, c ∈ ObjectStore.iter_values cs
                /\ is_direct_subclass cn c = true /\ cls_classname c = x.
Proof.
  cbn [next_level]. rewrite list_elem_of_fmap. split.
  - intros (c & -> & Hc). apply list_elem_of_In, filter_In in Hc.
    destruct Hc as [Hc Hd]. exists c. by rewrite list_elem_of_In.
  - intros (c & Hc & Hd & <-). exists c. split; [done|].
    apply list_elem_of_In, filter_In. by rewrite <- list_elem_of_In.
Qed.

Lemma subclass_walk_deep depth cn cs l :
  _get_subclass_names (S depth) (Some cn) cs (Some true) = Ok l
  <-> exists subs,
        Forall2 (fun c k => _get_subclass_names depth (Some c) cs (Some true)
                            = Ok k)
          (next_level (Some cn) cs) subs
        /\ l = next_level (Some cn) cs ++ concat subs.
Proof.
  cbn [_get_subclass_names truthy_flag default]. split.
  - destruct (mapM _ _) as [subs|] eqn:Hm; cbn; [|done].
    intros [= <-]. exists subs. split; [|done]. by apply mapM_Ok.
  - intros (subs & Hm%mapM_Ok & ->). by rewrite Hm.
Qed.

Section Hierarchy.
Variable cs : ObjectStore.t string CIMClass.
Variable h : string -> nat.
Hypothesis Hh : heights_decrease h cs = true.

Lemma child_height cn c :
  c ∈ ObjectStore.iter_values cs -> is_direct_subclass cn c = true ->
  h (PyStr.lower (cls_classname c)) < h (PyStr.lower cn).
Proof.
  intros Hc (sup & Hs & Ht & <-)%is_direct_subclass_spec.
  unfold ObjectStore.iter_values in Hc.
  apply list_elem_of_fmap in Hc as (e & -> & He).
  unfold heights_decrease in Hh. rewrite forallb_forall in Hh.
  specialize (Hh e). rewrite <- list_elem_of_In in Hh. specialize (Hh He).
  rewrite Hs, Ht in Hh. by apply Nat.ltb_lt.
Qed.

Lemma descends_height cn c :
  descends cs cn c -> h (PyStr.lower (cls_classname c)) < h (PyStr.lower cn).
Proof.
  induction 1 as [c Hc Hd|d c _ IH Hc Hd].
  - by apply child_height.
  - pose proof (child_height _ _ Hc Hd). lia.
Qed.

Lemma descends_trans a d c :
  descends cs a d -> descends cs (cls_classname d) c -> descends cs a c.
Proof.
  intros Ha. induction 1 as [c Hc Hd|e c _ IH Hc Hd].
  - by eapply descends_step.
  - by eapply descends_step.
Qed.

Lemma descends_child_height a cn d :
  descends cs a d -> is_direct_subclass cn d = true ->
  h (PyStr.lower cn) <= h (PyStr.lower a).
Proof.
  intros Ha Hd. destruct Ha as [d Hc Hd'|e d He Hc Hd'].
  - by rewrite (parent_unique _ _ _ Hd Hd').
  - rewrite (parent_unique _ _ _ Hd Hd').
    pose proof (descends_height _ _ He). lia.
Qed.

Lemma walk_elements depth cn l x :
  _get_subclass_names depth (Some cn) cs (Some true) = Ok l ->
  x ∈ l ->
  exists c, cls_classname c = x /\ descends cs cn c.
Proof.
  revert cn l x. induction depth as [|depth IH]; intros cn l x; [done|].
  intros (subs & Hsubs & ->)%subclass_walk_deep.
  intros [Hx|Hx]%elem_of_app.
  - apply next_level_elem in Hx as (c & Hc & Hd & <-).
    exists c. split; [done|]. by apply descends_child.
  - apply elem_of_concat in Hx as (k & Hx & Hk).
    apply list_elem_of_lookup in Hk as [i Hi].
    destruct (Forall2_lookup_r _ _ _ _ _ Hsubs Hi) as (ci & Hci & Hw).
    destruct (IH _ _ _ Hw Hx) as (c & <- & Hdesc).
    apply list_elem_of_lookup_2, next_level_elem in Hci
      as (d & Hd & Hdd & <-).
    exists c. split; [done|].
    eapply descends_trans; [|done]. by apply descends_child.
Qed.

Lemma walk_terminates depth cn :
  h (PyStr.lower cn) < depth ->
  exists l, _get_subclass_names depth (Some cn) cs (Some true) = Ok l.
Proof.
  revert cn. induction depth as [|depth IH]; intros cn Hlt; [lia|].
  assert (exists subs,
            Forall2 (fun c k => _get_subclass_names depth (Some c) cs
                                  (Some true) = Ok k)
              (next_level (Some cn) cs) subs) as [subs Hsubs].
  { assert (Forall (fun c => h (PyStr.lower c) < depth)
              (next_level (Some cn) cs)) as Hall.
    { apply Forall_forall. intros x (c & Hc & Hd & <-)%next_level_elem.
      pose proof (child_height _ _ Hc Hd). lia. }
    induction Hall as [|c cs' Hc _ [subs IHs]].
    - by exists [].
    - destruct (IH c Hc) as [k Hk]. exists (k :: subs). by constructor. }
  eexists. apply subclass_walk_deep. by exists subs.
Qed.

End Hierarchy.

Lemma NoDup_fmap_filter {A B} (f : A -> B) (p : A -> bool) (l : list A) :
  NoDup (f <$> l) -> NoDup (f <$> List.filter p l).
Proof.
  induction l as [|a l IH]; [done|]. cbn [List.filter fmap list_fmap].
  intros [Hn Hl]%NoDup_cons. destruct (p a); [|by apply IH].
  cbn [fmap list_fmap]. apply NoDup_cons. split; [|by apply IH].
  intros (b & Hb & Hin)%list_elem_of_fmap. apply Hn.
  apply list_elem_of_fmap. exists b. split; [done|].
  apply list_elem_of_In, filter_In in Hin as [Hin _].
  by apply list_elem_of_In.
Qed.

Lemma descends_stored cs cn c :
  descends cs cn c -> c ∈ ObjectStore.iter_values cs.
Proof. by destruct 1. Qed.

Section WellFormed.
Variable cs : ObjectStore.t string CIMClass.
Variable h : string -> nat.
Hypothesis Hh : heights_decrease h cs = true.
Hypothesis Hok : class_store_ok cs = true.

Lemma class_keys_unique : keys_unique class_key_eqb cs = true.
Proof.
  pose proof Hok as H0. unfold class_store_ok in H0.
  by apply andb_true_iff in H0 as [? _].
Qed.

Lemma stored_under_name e : e ∈ cs -> fst e = cls_classname (snd e).
Proof.
  intros He. pose proof Hok as H0. unfold class_store_ok in H0.
  apply andb_true_iff in H0 as [_ Hn]. rewrite forallb_forall in Hn.
  apply String.eqb_eq, Hn. by apply list_elem_of_In.
Qed.

Lemma class_by_name c c' :
  c ∈ ObjectStore.iter_values cs -> c' ∈ ObjectStore.iter_values cs ->
  PyStr.lower (cls_classname c) = PyStr.lower (cls_classname c') ->
  c = c'.
Proof.
  unfold ObjectStore.iter_values.
  intros (e & -> & He)%list_elem_of_fmap (e' & -> & He')%list_elem_of_fmap.
  intros Heq. f_equal.
  apply (keys_unique_elem class_key_eqb cs); try done;
    [apply class_keys_unique|].
  rewrite (stored_under_name _ He), (stored_under_name _ He').
  by apply eqb_nocase_eq.
Qed.

Lemma names_NoDup :
  NoDup (PyStr.lower <$> (cls_classname <$> ObjectStore.iter_values cs)).
Proof.
  rewrite <- list_fmap_compose.
  apply NoDup_fmap_2_strong.
  - intros c c' Hc Hc' Heq. by apply class_by_name.
  - pose proof class_keys_unique as Hu.
    unfold ObjectStore.iter_values. apply NoDup_fmap_2_strong.
    + intros e e' He He' Heq.
      apply (keys_unique_elem class_key_eqb cs); try done.
      rewrite (stored_under_name _ He), (stored_under_name _ He'), Heq.
      apply eqb_nocase_refl.
    + clear -Hu. induction cs as [|e s IH]; [constructor|].
      cbn [keys_unique] in Hu. apply andb_true_iff in Hu as [Hall Hs].
      apply NoDup_cons. split; [|by apply IH].
      intros Hin. rewrite forallb_forall in Hall.
      apply list_elem_of_In, Hall in Hin.
      apply andb_true_iff in Hin as [Hin _].
      unfold class_key_eqb in Hin. by rewrite eqb_nocase_refl in Hin.
Qed.

Lemma descends_linear a b c :
  descends cs a c -> descends cs b c ->
  PyStr.lower a = PyStr.lower b
  \/ (exists d, PyStr.lower (cls_classname d) = PyStr.lower b
                /\ descends cs a d)
  \/ (exists d, PyStr.lower (cls_classname d) = PyStr.lower a
                /\ descends cs b d).
Proof.
  intros Ha. revert b.
  induction Ha as [c Hc Hd|d c Hda IH Hc Hd]; intros b Hb.
  - destruct Hb as [c _ Hd'|d' c Hdb _ Hd'].
    + left. by eapply parent_unique.
    + right. right. exists d'. split; [|done]. by eapply parent_unique.
  - destruct Hb as [c _ Hd'|d' c Hdb _ Hd'].
    + right. left. exists d. split; [|done]. by eapply parent_unique.
    + assert (d = d') as <-.
      { apply class_by_name; try by eapply descends_stored.
        by eapply parent_unique. }
      by apply IH.
Qed.

(** The subclasses of two different direct subclasses of [cn] are
    different classes, and none of them is a direct subclass of [cn]. *)
Lemma siblings_disjoint cn d c ci :
  ci ∈ next_level (Some cn) cs ->
  descends cs ci c -> is_direct_subclass cn d = true ->
  d ∈ ObjectStore.iter_values cs ->
  PyStr.lower (cls_classname d) <> PyStr.lower ci ->
  ~ (c = d \/ descends cs (cls_classname d) c).
Proof.
  intros (di & Hdi & Hci & <-)%next_level_elem Hc Hd Hdin Hne.
  pose proof (child_height cs h Hh _ _ Hdi Hci) as Hlt.
  pose proof (child_height cs h Hh _ _ Hdin Hd) as Hlt'.
  intros [->|Hc'].
  - pose proof (descends_child_height cs h Hh _ _ _ Hc Hd). lia.
  - destruct (descends_linear _ _ _ Hc Hc') as [E|[(e & E & He)|(e & E & He)]].
    + by rewrite E in Hne.
    + assert (e = d) as ->.
      { apply class_by_name; try done. by eapply descends_stored. }
      pose proof (descends_child_height cs h Hh _ _ _ He Hd). lia.
    + assert (e = di) as ->.
      { apply class_by_name; try done. by eapply descends_stored. }
      pose proof (descends_child_height cs h Hh _ _ _ He Hci). lia.
Qed.

Lemma walks_NoDup depth cn chs subs :
  (forall c k, _get_subclass_names depth (Some c) cs (Some true) = Ok k ->
               NoDup (PyStr.lower <$> k)) ->
  (forall ci, ci ∈ chs -> ci ∈ next_level (Some cn) cs) ->
  NoDup (PyStr.lower <$> chs) ->
  Forall2 (fun c k => _get_subclass_names depth (Some c) cs (Some true)
                      = Ok k) chs subs ->
  NoDup (PyStr.lower <$> (chs ++ concat subs)).
Proof.
  intros IH Hsub Hch Hsubs.
  rewrite fmap_app. apply NoDup_app. split; [done|]. split.
  - intros x (y & -> & Hy)%list_elem_of_fmap (y' & E & Hy')%list_elem_of_fmap.
    apply elem_of_concat in Hy' as (k & Hy' & Hk).
    apply list_elem_of_lookup in Hk as [i Hi].
    destruct (Forall2_lookup_r _ _ _ _ _ Hsubs Hi) as (ci & Hci & Hw).
    apply list_elem_of_lookup_2 in Hci.
    destruct (walk_elements _ _ _ _ _ Hw Hy') as (c & <- & Hc).
    apply Hsub in Hy. apply next_level_elem in Hy as (d & Hd & Hdd & <-).
    assert (c = d) as ->.
    { apply class_by_name; try done. by eapply descends_stored. }
    apply Hsub in Hci. apply next_level_elem in Hci as (di & Hdi & Hcdi & <-).
    pose proof (descends_child_height cs h Hh _ _ _ Hc Hdd).
    pose proof (child_height cs h Hh _ _ Hdi Hcdi). lia.
  - induction Hsubs as [|c1 k chs' subs' Hw Hrest IHs]; [constructor|].
    cbn [concat]. rewrite fmap_app. apply NoDup_app.
    apply NoDup_cons in Hch as [Hc1 Hch].
    split; [by eapply IH|]. split.
    + intros x (y & -> & Hy)%list_elem_of_fmap
               (y' & E & Hy')%list_elem_of_fmap.
      apply elem_of_concat in Hy' as (kj & Hy' & Hk).
      apply list_elem_of_lookup in Hk as [i Hi].
      destruct (Forall2_lookup_r _ _ _ _ _ Hrest Hi) as (cj & Hcj & Hwj).
      apply list_elem_of_lookup_2 in Hcj.
      destruct (walk_elements _ _ _ _ _ Hw Hy) as (c & <- & Hc).
      destruct (walk_elements _ _ _ _ _ Hwj Hy') as (c' & <- & Hc').
      assert (c = c') as <-.
      { apply class_by_name; try by eapply descends_stored. done. }
      assert (cj ∈ next_level (Some cn) cs) as Hcjn
        by (apply Hsub; by right).
      apply next_level_elem in Hcjn as (dj & Hdj & Hcdj & <-).
      apply (siblings_disjoint cn dj c c1); try done.
      * apply Hsub. by left.
      * intros E'. apply Hc1. apply list_elem_of_fmap.
        exists (cls_classname dj). by split.
      * by right.
    + apply IHs; [|done]. intros ci Hci. apply Hsub. by right.
Qed.

Lemma walk_NoDup depth cn l :
  _get_subclass_names depth (Some cn) cs (Some true) = Ok l ->
  NoDup (PyStr.lower <$> l).
Proof.
  revert cn l. induction depth as [|depth IH]; intros cn l; [done|].
  intros (subs & Hsubs & ->)%subclass_walk_deep.
  apply (walks_NoDup depth cn); try done.
  cbn [next_level].
  change (NoDup (PyStr.lower <$>
                   (cls_classname <$>
                      List.filter (is_direct_subclass cn)
                        (ObjectStore.iter_values cs)))).
  rewrite <- list_fmap_compose. apply NoDup_fmap_filter.
  rewrite list_fmap_compose. apply names_NoDup.
Qed.

Lemma walk_not_self depth cn l x :
  _get_subclass_names depth (Some cn) cs (Some true) = Ok l ->
  x ∈ l -> PyStr.lower x <> PyStr.lower cn.
Proof.
  intros Hw Hx E.
  destruct (walk_elements _ _ _ _ _ Hw Hx) as (c & <- & Hc).
  pose proof (descends_height cs h Hh _ _ Hc). rewrite E in H. lia.
Qed.

End WellFormed.

(** ** Deleting from the stores *)

Lemma contains_set {V} (x k : string) (v : V) (d : NocaseDict.t V) :
  NocaseDict.contains x (NocaseDict.set k v d)
  = PyStr.eqb_nocase x k || NocaseDict.contains x d.
Proof.
  unfold NocaseDict.contains.
  induction d as [|e d IH]; cbn [NocaseDict.set existsb].
  - unfold NocaseDict.key_is at 1. cbn [fst].
    by rewrite (eqb_nocase_sym k x).
  - destruct (NocaseDict.key_is k e) eqn:Hk; cbn [existsb].
    + unfold NocaseDict.key_is in *. cbn [fst].
      apply eqb_nocase_eq in Hk.
      rewrite (eqb_nocase_sym k x).
      assert (PyStr.eqb_nocase (fst e) x = PyStr.eqb_nocase x k) as ->.
      { unfold PyStr.eqb_nocase. rewrite Hk. apply String.eqb_sym. }
      by destruct (PyStr.eqb_nocase x k).
    + rewrite IH.
      destruct (NocaseDict.key_is x e), (PyStr.eqb_nocase x k); done.
Qed.

Lemma contains_foldl_set (x : string) (l : list string)
    (d : NocaseDict.t string) :
  NocaseDict.contains x
    (foldl (fun d cln => NocaseDict.set cln cln d) d l)
  = in_names x l || NocaseDict.contains x d.
Proof.
  revert d. induction l as [|c l IH]; intros d; [done|].
  cbn [foldl]. rewrite IH, contains_set. unfold in_names. cbn [existsb].
  destruct (existsb _ l), (PyStr.eqb_nocase x c); done.
Qed.

(** The names [_get_subclass_list_for_enums] returns: the subclass walk and
    the class itself. *)
Lemma subclass_list_for_enums_spec classname namespace cs subs :
  ObjectStore.exists_ class_key_eqb classname cs = true ->
  _get_subclass_names recursion_limit (Some classname) cs (Some true)
  = Ok subs ->
  exists clns,
    _get_subclass_list_for_enums classname namespace cs = Ok clns
    /\ forall x, NocaseDict.contains x clns
                 = in_names x (subs ++ [classname]).
Proof.
  intros Hex Hw. unfold _get_subclass_list_for_enums.
  rewrite Hex, Hw. cbn. eexists. split; [done|].
  intros x. rewrite contains_set, contains_foldl_set, in_names_app.
  unfold in_names. cbn.
  destruct (PyStr.eqb_nocase x classname), (existsb _ subs); done.
Qed.

Lemma path_eqb_refl p : path_eqb p p = true.
Proof.
  unfold path_eqb, keybindings_eqb. rewrite eqb_nocase_refl. cbn.
  assert (forallb
            (fun e => bool_decide
                        (NocaseDict.get (fst e) (path_keybindings p)
                         = NocaseDict.get (fst e) (path_keybindings p)))
            (path_keybindings p) = true) as ->; [|done].
  apply forallb_forall. intros e _. by apply bool_decide_eq_true.
Qed.

Section Store2.
Context {K V : Type} (key_eqb : K -> K -> bool).

Lemma keys_unique_app_cons (pre post : ObjectStore.t K V) e :
  keys_unique key_eqb (pre ++ e :: post) = true ->
  forall e', e' ∈ pre ++ post -> key_eqb (fst e') (fst e) = false.
Proof.
  induction pre as [|a pre IH]; cbn [app keys_unique];
    intros [Hall Hs]%andb_true_iff e' He'.
  - rewrite forallb_forall in Hall. apply list_elem_of_In, Hall in He'.
    apply andb_true_iff in He' as [He' _]. by apply negb_true_iff.
  - apply elem_of_cons in He' as [->|He'].
    + rewrite forallb_forall in Hall.
      assert (In e (pre ++ e :: post)) as Hin
        by (apply in_or_app; right; by left).
      apply Hall, andb_true_iff in Hin as [_ Hin]. by apply negb_true_iff.
    + by apply IH.
Qed.

Lemma filter_all {A} (p : A -> bool) (l : list A) :
  (forall x, x ∈ l -> p x = true) -> List.filter p l = l.
Proof.
  induction l as [|a l IH]; [done|]. intros Hall. cbn [List.filter].
  rewrite (Hall a) by left. f_equal. apply IH. intros x Hx. apply Hall.
  by right.
Qed.

Lemma filter_none {A} (p : A -> bool) (l : list A) :
  (forall x, x ∈ l -> p x = false) -> List.filter p l = [].
Proof.
  induction l as [|a l IH]; [done|]. intros Hall. cbn [List.filter].
  rewrite (Hall a) by left. apply IH. intros x Hx. apply Hall. by right.
Qed.

Lemma filter_filter {A} (p q : A -> bool) (l : list A) :
  List.filter p (List.filter q l) = List.filter (fun x => q x && p x) l.
Proof.
  induction l as [|a l IH]; [done|]. cbn [List.filter].
  destruct (q a); cbn [List.filter andb]; [|done].
  destruct (p a); by rewrite IH.
Qed.

Lemma delete_present (pre post : ObjectStore.t K V) e :
  keys_unique key_eqb (pre ++ e :: post) = true ->
  key_eqb (fst e) (fst e) = true ->
  ObjectStore.delete key_eqb (fst e) (pre ++ e :: post) = Ok (pre ++ post).
Proof.
  intros Hu Hrefl. unfold ObjectStore.delete.
  assert (ObjectStore.exists_ key_eqb (fst e) (pre ++ e :: post) = true)
    as ->.
  { apply exists_elem. exists e. split; [|done].
    apply elem_of_app. right. by left. }
  f_equal. rewrite List.filter_app. cbn [List.filter].
  unfold ObjectStore.matches at 2. rewrite Hrefl. cbn [negb].
  rewrite <- List.filter_app. apply filter_all.
  intros e' He'. unfold ObjectStore.matches.
  by rewrite (keys_unique_app_cons _ _ _ Hu e' He').
Qed.

Lemma keys_unique_app_remove (pre post : ObjectStore.t K V) e :
  keys_unique key_eqb (pre ++ e :: post) = true ->
  keys_unique key_eqb (pre ++ post) = true.
Proof.
  induction pre as [|a pre IH]; cbn [app keys_unique];
    intros [Hall Hs]%andb_true_iff; [done|].
  apply andb_true_iff. split; [|by apply IH].
  rewrite forallb_forall in *. intros e' He'. apply Hall.
  apply in_app_or in He' as [He'|He']; apply in_or_app; [by left|].
  right. by right.
Qed.

End Store2.

(** [for ipath in inst_paths: instance_store.delete(ipath)] over the paths
    of the stored instances that satisfy [f] leaves the others. *)
Lemma delete_instances_filter (f : CIMInstanceName -> bool)
    (pre s : ObjectStore.t CIMInstanceName CIMInstance) :
  keys_unique path_eqb (pre ++ s) = true ->
  delete_instances (map fst (List.filter (fun e => f (fst e)) s)) (pre ++ s)
  = (Ok tt, pre ++ List.filter (fun e => negb (f (fst e))) s).
Proof.
  revert pre. induction s as [|e s IH]; intros pre Hu; [done|].
  cbn [List.filter]. destruct (f (fst e)) eqn:Hf; cbn [negb map].
  - cbn [delete_instances].
    rewrite (delete_present path_eqb pre s e Hu (path_eqb_refl _)).
    apply IH. by eapply keys_unique_app_remove.
  - replace (pre ++ e :: s) with ((pre ++ [e]) ++ s) in *
      by (by rewrite <- app_assoc).
    rewrite (IH _ Hu). by rewrite <- app_assoc.
Qed.

(** The list comprehension over the stored instances that reads their
    paths. *)
Lemma comprehension_paths (g : CIMInstanceName -> bool)
    (s : ObjectStore.t CIMInstanceName CIMInstance) :
  forallb (fun e => bool_decide (inst_path (snd e) = Some (fst e))) s = true ->
  comprehension (fun inst => p ← path_of inst; Ok (g p)) path_of
    (ObjectStore.iter_values s)
  = Ok (map fst (List.filter (fun e => g (fst e)) s)).
Proof.
  induction s as [|e s IH]; [done|]. cbn [forallb].
  intros [He Hs]%andb_true_iff. apply bool_decide_eq_true in He.
  specialize (IH Hs). unfold ObjectStore.iter_values in *.
  cbn [map comprehension List.filter].
  assert (path_of (snd e) = Ok (fst e)) as Hp
    by (unfold path_of; by rewrite He).
  rewrite !Hp. cbn [mbind result_bind].
  rewrite IH. by destruct (g (fst e)).
Qed.

(** ** The class store after some of its classes are gone *)

Lemma forallb_filter_sub {A} (q p : A -> bool) (l : list A) :
  forallb q l = true -> forallb q (List.filter p l) = true.
Proof.
  rewrite !forallb_forall. intros H x [Hx _]%filter_In. by apply H.
Qed.

Lemma heights_decrease_filter h p cs :
  heights_decrease h cs = true ->
  heights_decrease h (List.filter p cs) = true.
Proof. apply forallb_filter_sub. Qed.


Lemma instance_store_ok_filter p insts :
  instance_store_ok insts = true ->
  instance_store_ok (List.filter p insts) = true.
Proof.
  unfold instance_store_ok. intros [Hu Hn]%andb_true_iff.
  apply andb_true_iff. split.
  - by apply keys_unique_filter.
  - by apply forallb_filter_sub.
Qed.

Lemma next_level_filter p cn (cs : ObjectStore.t string CIMClass) x :
  x ∈ next_level (Some cn) (List.filter p cs) ->
  x ∈ next_level (Some cn) cs.
Proof.
  intros (c & Hc & Hd & <-)%next_level_elem. apply next_level_elem.
  exists c. split; [|done]. unfold ObjectStore.iter_values in *.
  apply list_elem_of_fmap in Hc as (e & -> & He).
  apply list_elem_of_fmap. exists e. split; [done|].
  apply list_elem_of_In, filter_In in He as [He _].
  by apply list_elem_of_In.
Qed.

Lemma walk_filter_subset p (cs : ObjectStore.t string CIMClass) depth cn
    l l' x :
  _get_subclass_names depth (Some cn) cs (Some true) = Ok l ->
  _get_subclass_names depth (Some cn) (List.filter p cs) (Some true)
  = Ok l' ->
  x ∈ l' -> x ∈ l.
Proof.
  revert cn l l' x. induction depth as [|depth IH]; intros cn l l' x; [done|].
  intros (subs & Hsubs & ->)%subclass_walk_deep
         (subs' & Hsubs' & ->)%subclass_walk_deep.
  intros [Hx|Hx]%elem_of_app; apply elem_of_app.
  - left. by eapply next_level_filter.
  - right. apply elem_of_concat in Hx as (k' & Hx & Hk').
    apply list_elem_of_lookup in Hk' as [i Hi].
    destruct (Forall2_lookup_r _ _ _ _ _ Hsubs' Hi) as (ci & Hci & Hw').
    apply list_elem_of_lookup_2, next_level_filter in Hci.
    apply list_elem_of_lookup in Hci as [j Hj].
    destruct (Forall2_lookup_l _ _ _ _ _ Hsubs Hj) as (k & Hk & Hw).
    apply elem_of_concat. exists k. split.
    + by eapply IH.
    + by eapply list_elem_of_lookup_2.
Qed.

Lemma in_names_nocase a b names :
  PyStr.lower a = PyStr.lower b -> in_names a names = in_names b names.
Proof.
  intros E. unfold in_names, PyStr.eqb_nocase. by rewrite E.
Qed.

Lemma in_names_false x names :
  in_names x names = false
  <-> PyStr.lower x ∉ (PyStr.lower <$> names).
Proof.
  rewrite <- not_true_iff_false, in_names_spec, list_elem_of_fmap.
  split; intros H (y & H1 & H2); apply H; exists y; done.
Qed.

Lemma get_stores_lookup self namespace st :
  Datastore.lookup namespace (datastore self) = Some st ->
  get_stores self namespace = Ok st.
Proof.
  intros Hl. unfold get_stores, validate_namespace,
    Datastore.validate_namespace. by rewrite Hl.
Qed.

(** ** DeleteClass on a well-formed namespace *)

Section DeleteClassLoop.
Variables namespace ClassName : string.
Variable cs0 : ObjectStore.t string CIMClass.
Variable is0 : ObjectStore.t CIMInstanceName CIMInstance.
Variable h : string -> nat.
Variable subs : list string.
Hypothesis Hcs : class_store_ok cs0 = true.
Hypothesis His : instance_store_ok is0 = true.
Hypothesis Hh : heights_decrease h cs0 = true.
Hypothesis Hlimit : h (PyStr.lower ClassName) < recursion_limit.
Hypothesis Hex : ObjectStore.exists_ class_key_eqb ClassName cs0 = true.
Hypothesis Hwalk :
  _get_subclass_names recursion_limit (Some ClassName) cs0 (Some true)
  = Ok subs.

Let names : list string := subs ++ [ClassName].

Let cs_after (gone : list string) : ObjectStore.t string CIMClass :=
  List.filter (fun e => negb (in_names (fst e) gone)) cs0.

Let is_final : ObjectStore.t CIMInstanceName CIMInstance :=
  List.filter (fun e => negb (in_names (path_classname (fst e)) names)) is0.

Lemma delete_names_NoDup : NoDup (PyStr.lower <$> names).
Proof.
  unfold names. rewrite fmap_app. apply NoDup_app.
  split; [by eapply walk_NoDup|]. split.
  - intros x (y & -> & Hy)%list_elem_of_fmap [E|[]%elem_of_nil]%elem_of_cons.
    by eapply walk_not_self.
  - apply NoDup_singleton.
Qed.

Lemma delete_name_stored x :
  x ∈ names -> exists e, e ∈ cs0 /\ PyStr.lower (fst e) = PyStr.lower x.
Proof.
  unfold names. intros [Hx|Hx]%elem_of_app.
  - destruct (walk_elements _ _ _ _ _ Hwalk Hx) as (c & <- & Hc).
    apply descends_stored in Hc. unfold ObjectStore.iter_values in Hc.
    apply list_elem_of_fmap in Hc as (e & -> & He). exists e.
    split; [done|]. by rewrite (stored_under_name cs0 Hcs e He).
  - apply elem_of_cons in Hx as [->|[]%elem_of_nil].
    apply exists_elem in Hex as (e & He & Hk). exists e. split; [done|].
    by apply eqb_nocase_eq.
Qed.

Lemma exists_after gone x rest :
  names = gone ++ rest -> x ∈ rest ->
  ObjectStore.exists_ class_key_eqb x (cs_after gone) = true.
Proof.
  intros Hn Hx.
  destruct (delete_name_stored x) as (e & He & Hk).
  { rewrite Hn. apply elem_of_app. by right. }
  apply exists_elem. exists e. split; [|by apply eqb_nocase_eq].
  apply list_elem_of_In, filter_In. split; [by apply list_elem_of_In|].
  apply negb_true_iff. rewrite (in_names_nocase _ x) by done.
  apply in_names_false. intros Hin.
  pose proof delete_names_NoDup as Hnd. rewrite Hn, fmap_app in Hnd.
  apply NoDup_app in Hnd as (_ & Hdis & _). apply (Hdis _ Hin).
  apply list_elem_of_fmap. by exists x.
Qed.

Lemma delete_after gone ck rest :
  names = gone ++ ck :: rest ->
  ObjectStore.delete class_key_eqb ck (cs_after gone)
  = Ok (cs_after (gone ++ [ck])).
Proof.
  intros Hn. unfold ObjectStore.delete.
  rewrite (exists_after gone ck (ck :: rest) Hn) by left.
  f_equal. unfold cs_after. rewrite filter_filter. apply filter_ext.
  intros e. rewrite in_names_app. unfold in_names at 3. cbn [existsb].
  unfold ObjectStore.matches, class_key_eqb. rewrite orb_false_r.
  by rewrite negb_orb.
Qed.

Lemma walk_after gone rest :
  names = gone ++ rest -> rest <> [] ->
  exists clns,
    _get_subclass_list_for_enums ClassName namespace (cs_after gone)
    = Ok clns
    /\ (forall x, NocaseDict.contains x clns = true -> in_names x names = true)
    /\ (gone = [] -> forall x, NocaseDict.contains x clns = in_names x names).
Proof.
  intros Hn Hrest.
  assert (ClassName ∈ rest) as Hlast.
  { assert (last names = Some ClassName) as Hl by apply last_snoc.
    rewrite Hn in Hl. destruct rest as [|r rest]; [done|].
    rewrite last_app_cons in Hl. by apply last_Some_elem_of. }
  destruct (walk_terminates (cs_after gone) h
              (heights_decrease_filter _ _ _ Hh) _ _ Hlimit) as [l' Hl'].
  destruct (subclass_list_for_enums_spec ClassName namespace _ l'
              (exists_after gone _ _ Hn Hlast) Hl') as (clns & Hclns & Hc).
  exists clns. split; [done|]. split.
  - intros x. rewrite Hc. unfold names. rewrite !in_names_app.
    intros [Hx|Hx]%orb_true_iff; apply orb_true_iff; [left|by right].
    apply in_names_spec in Hx as (y & Hy & E). apply in_names_spec.
    exists y. split; [|done]. by eapply walk_filter_subset.
  - intros -> x. rewrite Hc.
    assert (cs_after [] = cs0) as Hcs0 by (by apply filter_all).
    rewrite Hcs0 in Hl'. unfold names. congruence.
Qed.

Lemma DeleteClass_body_spec gone ck rest insts :
  names = gone ++ ck :: rest ->
  (gone = [] /\ insts = is0) \/ insts = is_final ->
  DeleteClass_body namespace ClassName ck
    (mkDeleteClassState (cs_after gone) insts gone)
  = (Ok tt,
     mkDeleteClassState (cs_after (gone ++ [ck])) is_final (gone ++ [ck])).
Proof.
  intros Hn Hinsts. unfold DeleteClass_body. cbn [dc_class_store
    dc_instance_store dc_deleted].
  destruct (walk_after gone (ck :: rest) Hn) as (clns & -> & Hsub & Hfirst);
    [done|].
  pose proof His as His'. unfold instance_store_ok in His'.
  apply andb_true_iff in His' as [Hu Hp].
  assert (delete_instances
            (map fst (List.filter
                        (fun e => NocaseDict.contains
                                    (path_classname (fst e)) clns) insts))
            insts = (Ok tt, is_final)) as Hdel.
  { destruct Hinsts as [[-> ->]| ->].
    - pose proof (delete_instances_filter
                    (fun p => NocaseDict.contains (path_classname p) clns)
                    [] is0 Hu) as Hd.
      cbn [app] in Hd. rewrite Hd. f_equal. unfold is_final. apply filter_ext.
      intros e. by rewrite Hfirst.
    - rewrite filter_none; [done|].
      intros e [_ He]%list_elem_of_In%filter_In.
      apply negb_true_iff in He. apply not_true_iff_false.
      intros Hc%Hsub. by rewrite Hc in He. }
  rewrite (comprehension_paths
             (fun p => NocaseDict.contains (path_classname p) clns) insts).
  - rewrite Hdel. by rewrite (delete_after gone ck rest Hn).
  - destruct Hinsts as [[_ ->]| ->]; [done|].
    by apply forallb_filter_sub.
Qed.

Lemma DeleteClass_loop_spec rest :
  forall gone insts,
    names = gone ++ rest -> rest <> [] ->
    (gone = [] /\ insts = is0) \/ insts = is_final ->
    DeleteClass_loop namespace ClassName rest
      (mkDeleteClassState (cs_after gone) insts gone)
    = (Ok tt, mkDeleteClassState (cs_after names) is_final names).
Proof.
  induction rest as [|ck rest IH]; intros gone insts Hn Hne Hinsts; [done|].
  cbn [DeleteClass_loop].
  rewrite (DeleteClass_body_spec gone ck rest insts Hn Hinsts).
  destruct rest as [|r rest].
  - cbn [DeleteClass_loop]. by rewrite Hn.
  - apply IH; [|done|by right]. by rewrite Hn, <- app_assoc.
Qed.

End DeleteClassLoop.

(** The walk is closed under direct subclasses, so it reaches every class
    that descends from its start. *)
Lemma walk_closed cs depth cn l x c :
  _get_subclass_names depth (Some cn) cs (Some true) = Ok l ->
  x ∈ l ->
  c ∈ ObjectStore.iter_values cs ->
  is_direct_subclass x c = true ->
  cls_classname c ∈ l.
Proof.
  revert cn l x. induction depth as [|depth IH]; intros cn l x; [done|].
  intros (subs & Hsubs & ->)%subclass_walk_deep Hx Hc Hd.
  apply elem_of_app. right. apply elem_of_concat.
  apply elem_of_app in Hx as [Hx|Hx].
  - apply list_elem_of_lookup in Hx as [i Hi].
    destruct (Forall2_lookup_l _ _ _ _ _ Hsubs Hi) as (k & Hk & Hw).
    exists k. split; [|by eapply list_elem_of_lookup_2].
    destruct depth as [|depth]; [done|].
    apply subclass_walk_deep in Hw as (subs' & _ & ->).
    apply elem_of_app. left. apply next_level_elem. by exists c.
  - apply elem_of_concat in Hx as (k & Hx & Hk). exists k. split; [|done].
    apply list_elem_of_lookup in Hk as [i Hi].
    destruct (Forall2_lookup_r _ _ _ _ _ Hsubs Hi) as (ci & Hci & Hw).
    by eapply IH.
Qed.

Lemma walk_complete cs depth cn l c :
  _get_subclass_names depth (Some cn) cs (Some true) = Ok l ->
  descends cs cn c ->
  cls_classname c ∈ l.
Proof.
  intros Hw. induction 1 as [c Hc Hd|d c _ IH Hc Hd].
  - destruct depth as [|depth]; [done|].
    apply subclass_walk_deep in Hw as (subs & _ & ->).
    apply elem_of_app. left. apply next_level_elem. by exists c.
  - by eapply walk_closed.
Qed.

(** C6 (amended).  [DeleteClass] in an existing namespace: if the class is
    absent, [CIM_ERR_NOT_FOUND] is raised and nothing is deleted.  Otherwise,
    on a well-formed namespace (classes and instances stored once under their
    own name and path, a class hierarchy without cycles that is less deep
    than the recursion limit), the subclass walk yields the direct
    subclasses followed by the walks of each of them, which are the names of
    exactly the classes that descend from the class; every instance whose
    path classname falls case-insensitively in that set or is the class is
    deleted, and the classes are deleted in the order of the walk, the
    target class last. *)
Theorem C6_DeleteClass self namespace ClassName st :
  Datastore.lookup namespace (datastore self) = Some st ->
  let cs := ns_classes st in
  let direct :=
    map cls_classname
      (List.filter (is_direct_subclass ClassName)
         (ObjectStore.iter_values cs)) in
  (ObjectStore.exists_ class_key_eqb ClassName cs = false ->
   DeleteClass self namespace ClassName
   = (Raise (CIMError CIM_ERR_NOT_FOUND), self))
  /\ (ObjectStore.exists_ class_key_eqb ClassName cs = true ->
      forall h,
        class_store_ok cs = true ->
        instance_store_ok (ns_instances st) = true ->
        heights_decrease h cs = true ->
        h (PyStr.lower ClassName) < recursion_limit ->
        exists deeper,
          Forall2
            (fun c k => _get_subclass_names (pred recursion_limit) (Some c)
                          cs (Some true) = Ok k)
            direct deeper
          /\ let subclasses := direct ++ concat deeper in
             let names := subclasses ++ [ClassName] in
             (forall c, c ∈ ObjectStore.iter_values cs ->
                        cls_classname c ∈ subclasses
                        <-> descends cs ClassName c)
             /\ DeleteClass self namespace ClassName
                = (Ok names,
                   put_instance_store namespace
                     (List.filter
                        (fun e => negb (in_names (path_classname (fst e))
                                          names))
                        (ns_instances st))
                     (put_class_store namespace
                        (List.filter
                           (fun e => negb (in_names (fst e) names)) cs)
                        self))).
Proof.
  intros Hl cs direct. split.
  - intros Hex. unfold DeleteClass, get_class_store, get_instance_store.
    rewrite (get_stores_lookup _ _ _ Hl). cbn [fmap result_fmap].
    fold cs. by rewrite Hex.
  - intros Hex h Hcs His Hh Hlimit.
    destruct (walk_terminates cs h Hh _ _ Hlimit) as [subs Hwalk].
    assert (recursion_limit = S (pred recursion_limit)) as Hrl by lia.
    pose proof Hwalk as Hwalk'. rewrite Hrl in Hwalk'.
    apply subclass_walk_deep in Hwalk' as (deeper & Hdeeper & ->).
    exists deeper. split; [done|]. cbn zeta. split.
    + intros c Hc. split.
      * intros Hin.
        destruct (walk_elements _ _ _ _ _ Hwalk Hin) as (c' & E & Hd).
        assert (c' = c) as <-; [|done].
        apply (class_by_name cs Hcs); try done.
        { by eapply descends_stored. }
        by rewrite E.
      * intros Hd. by eapply walk_complete.
    + unfold DeleteClass, get_class_store, get_instance_store.
      rewrite (get_stores_lookup _ _ _ Hl). cbn [fmap result_fmap].
      fold cs. rewrite Hex. cbn [negb]. rewrite Hwalk.
      pose proof (DeleteClass_loop_spec namespace ClassName cs
                    (ns_instances st) h _ Hcs His Hh Hlimit Hex Hwalk
                    _ [] (ns_instances st) eq_refl) as Hloop.
      cbv beta zeta in Hloop.
      rewrite (filter_all (fun e : string * CIMClass =>
                             negb (in_names (fst e) [])) cs) in Hloop
        by done.
      rewrite Hloop; [done| |by left].
      by destruct (next_level (Some ClassName) cs ++ concat deeper).
Qed.

(** ** CreateInstance of a namespace-creation class *)

Lemma ns_classname_of_truthy classname nsc :
  ns_classname_of classname = Some nsc -> PyStr.truthy (Some nsc) = true.
Proof.
  unfold ns_classname_of.
  destruct (String.eqb _ "pg_namespace"); [by intros [= <-]|].
  destruct (String.eqb _ "cim_namespace"); [by intros [= <-]|done].
Qed.

Lemma add_namespace_Ok new_namespace self self1 :
  add_namespace new_namespace self = (Ok tt, self1) ->
  NocaseDict.contains (Datastore.normalize new_namespace) (datastore self)
  = false
  /\ self1
     = with_datastore
         (datastore self
          ++ [(Datastore.normalize new_namespace, mkNamespaceStores [] [] [])])
         self.
Proof.
  unfold add_namespace, Datastore.add_namespace.
  destruct (NocaseDict.contains _ _); [done|]. by intros [= <-].
Qed.

Lemma add_namespace_Raise new_namespace self e self1 :
  add_namespace new_namespace self = (Raise e, self1) -> self1 = self.
Proof.
  unfold add_namespace. destruct (Datastore.add_namespace _ _) as [|[]];
    by intros [= <-].
Qed.

(** C5.  [CreateInstance] of an instance whose class is, case-insensitively,
    [PG_Namespace] or [CIM_Namespace]: when the call raises, the provider is
    as it was before the call, so no namespace has been added; when it
    returns, every validation has succeeded (the [Name] property is present,
    all key properties of the class are present, every property of the
    instance conforms to the class, the constructed path is not in the
    instance store), the namespace named by the slash-stripped [Name] was
    absent and has been added first, and the instance has then been inserted
    under its path. *)
Theorem C5_namespace_added_after_validation self namespace NewInstance :
  PyStr.eqb_nocase (inst_classname NewInstance) "PG_Namespace" = true
  \/ PyStr.eqb_nocase (inst_classname NewInstance) "CIM_Namespace" = true ->
  match CreateInstance self namespace NewInstance with
  | (Raise e, self') => self' = self
  | (Ok path, self') =>
      exists nsc instance_store target_class name inst1 inst2 self1,
        get_instance_store self namespace = Ok instance_store
        /\ _get_class self namespace (inst_classname NewInstance)
             (Some false) (Some true) (Some true) None = Ok target_class
        /\ Instance.getitem "Name" NewInstance = Ok (VString name)
        /\ namespace_creation nsc NewInstance
           = Ok (PyStr.strip "/"%char name, inst1)
        /\ check_key_props_present target_class inst1 = Ok tt
        /\ for_each (conform_property target_class) (Instance.names inst1)
             inst1 = Ok inst2
        /\ from_instance target_class
             (fill_defaults target_class inst2) namespace = Ok path
        /\ ObjectStore.exists_ path_eqb path instance_store = false
        /\ NocaseDict.contains
             (Datastore.normalize (PyStr.strip "/"%char name))
             (datastore self) = false
        /\ self1
           = with_datastore
               (datastore self
                ++ [(Datastore.normalize (PyStr.strip "/"%char name),
                     mkNamespaceStores [] [] [])])
               self
        /\ self'
           = put_instance_store namespace
               (instance_store
                ++ [(path,
                     Instance.with_path (Some path)
                       (fill_defaults target_class inst2))])
               self1
  end.
Proof.
  intros Hcase.
  assert (exists nsc, ns_classname_of (inst_classname NewInstance) = Some nsc)
    as [nsc Hns].
  { unfold ns_classname_of.
    destruct Hcase as [H|H]; apply eqb_nocase_eq in H; rewrite H.
    - by exists "PG_Namespace".
    - by exists "CIM_Namespace". }
  unfold CreateInstance.
  destruct (CreateInstance_prepare self namespace NewInstance)
    as [[[[new_namespace new_instance] path] instance_store]|e] eqn:Hprep;
    [|done].
  unfold CreateInstance_prepare in Hprep.
  destruct (get_instance_store self namespace) as [store|] eqn:Hstore;
    cbn [mbind result_bind] in Hprep; [|done].
  destruct (_get_class self namespace (inst_classname NewInstance)
              (Some false) (Some true) (Some true) None)
    as [target_class|] eqn:Hclass;
    cbn [translate mbind result_bind] in Hprep;
    [|by destruct (bool_decide _)].
  rewrite Hns, (ns_classname_of_truthy _ _ Hns) in Hprep.
  destruct (namespace_creation nsc NewInstance) as [[n inst1]|] eqn:Hcreation;
    cbn [mbind result_bind] in Hprep; [|done].
  destruct (check_key_props_present target_class inst1) as [[]|] eqn:Hkeys;
    cbn [mbind result_bind] in Hprep; [|done].
  destruct (for_each (conform_property target_class) (Instance.names inst1)
              inst1) as [inst2|] eqn:Hconform;
    cbn [mbind result_bind] in Hprep; [|done].
  destruct (from_instance target_class (fill_defaults target_class inst2)
              namespace) as [path0|] eqn:Hpath;
    cbn [mbind result_bind] in Hprep; [|done].
  destruct (ObjectStore.exists_ path_eqb _ store) eqn:Hexists; [done|].
  injection Hprep as <- <- <- <-.
  assert (exists name, Instance.getitem "Name" NewInstance = Ok (VString name)
                       /\ n = PyStr.strip "/"%char name) as (name & Hname & ->).
  { unfold namespace_creation in Hcreation.
    destruct (Instance.getitem "Name" NewInstance) as [v|] eqn:Hv;
      cbn [translate mbind result_bind] in Hcreation;
      [|by destruct (bool_decide _)].
    destruct v as [|name| |]; cbn [strip_value mbind result_bind] in Hcreation;
      try done.
    exists name. split; [done|].
    unfold Instance.set_value in Hcreation.
    cbn [cimtype from_option mbind result_bind] in Hcreation.
    by injection Hcreation as <- _. }
  destruct (add_namespace (PyStr.strip "/"%char name) self)
    as [[[]|e] self1] eqn:Hadd.
  - apply add_namespace_Ok in Hadd as [Habsent ->].
    unfold ObjectStore.create. rewrite Hexists.
    eexists nsc, store, target_class, name, inst1, inst2, _.
    repeat (split; [done|]). done.
  - by apply add_namespace_Raise in Hadd.
Qed.

(** ** Defaults of DeepInheritance *)

Lemma subclass_names_shallow depth classname cs deep_inheritance :
  truthy_flag deep_inheritance = false ->
  _get_subclass_names depth classname cs deep_inheritance
  = match depth with
    | O => Raise RecursionError
    | S _ => Ok (next_level classname cs)
    end.
Proof. intros Hd. destruct depth; [done|]. cbn. by rewrite Hd. Qed.

Lemma _find_instance_stored (s : ObjectStore.t CIMInstanceName CIMInstance)
    e copy_inst :
  e ∈ s ->
  exists inst, _find_instance (fst e) s copy_inst = Ok (Some inst).
Proof.
  intros He. unfold _find_instance.
  assert (ObjectStore.exists_ path_eqb (fst e) s = true) as Hex.
  { apply exists_elem. exists e. split; [done|apply path_eqb_refl]. }
  rewrite Hex. destruct (exists_get path_eqb _ _ Hex) as [inst ->].
  by exists inst.
Qed.

(** The shaping of a stored instance for reading cannot fail when the
    caller does not ask for [LocalOnly]. *)
Lemma _get_instance_stored self namespace
    (s : ObjectStore.t CIMInstanceName CIMInstance) e pl ico iq :
  e ∈ s ->
  exists inst, _get_instance self namespace (fst e) s pl None ico iq = Ok inst.
Proof.
  intros He. unfold _get_instance.
  destruct (_find_instance_stored s e (Some true) He) as [inst ->].
  cbn. by eexists.
Qed.

Lemma comprehension_instances (g : CIMInstanceName -> bool)
    (F : CIMInstanceName -> result CIMInstance)
    (s : ObjectStore.t CIMInstanceName CIMInstance) :
  forallb (fun e => bool_decide (inst_path (snd e) = Some (fst e))) s = true ->
  (forall e, e ∈ s -> exists r, F (fst e) = Ok r) ->
  exists insts,
    comprehension (fun inst => p ← path_of inst; Ok (g p))
      (fun inst => p ← path_of inst; F p) (ObjectStore.iter_values s)
    = Ok insts
    /\ Forall2 (fun e r => F (fst e) = Ok r)
         (List.filter (fun e => g (fst e)) s) insts.
Proof.
  induction s as [|e s IH]; [by exists []|]. cbn [forallb].
  intros [He Hs]%andb_true_iff HF. apply bool_decide_eq_true in He.
  destruct IH as (insts & IH & Hall); [done| |].
  { intros e' He'. apply HF. by right. }
  unfold ObjectStore.iter_values in *.
  cbn [map comprehension List.filter].
  assert (path_of (snd e) = Ok (fst e)) as Hp
    by (unfold path_of; by rewrite He).
  rewrite !Hp. cbn [mbind result_bind]. rewrite IH.
  destruct (g (fst e)).
  - destruct (HF e) as [r Hr]; [by left|]. rewrite Hr.
    exists (r :: insts). split; [done|]. by constructor.
  - by exists insts.
Qed.

(** ** ModifyInstance with an empty property list *)

(** C9 (amended).  A [ModifyInstance] call whose [PropertyList] is an empty
    list returns normally when the namespace exists and raises
    [CIM_ERR_INVALID_NAMESPACE] when it does not; in both cases, and for all
    values of the other arguments, it changes nothing. *)
Theorem C9_ModifyInstance_empty_PropertyList self namespace ModifiedInstance
    IncludeQualifiers :
  ModifyInstance self namespace ModifiedInstance IncludeQualifiers (Some [])
  = (match Datastore.lookup namespace (datastore self) with
     | Some _ => Ok tt
     | None => Raise (CIMError CIM_ERR_INVALID_NAMESPACE)
     end, self).
Proof.
  unfold ModifyInstance, get_instance_store, get_stores, validate_namespace,
    Datastore.validate_namespace.
  by destruct (Datastore.lookup namespace (datastore self)).
Qed.

(** * Further properties of the responders *)

(** ** Lookups in a datastore that a responder has written to *)

Lemma get_map_entries {V} (g : string * V -> string * V) k
    (d : NocaseDict.t V) :
  (forall e, fst (g e) = fst e) ->
  NocaseDict.get k (map g d)
  = (fun e => snd (g e)) <$> List.find (NocaseDict.key_is k) d.
Proof.
  intros Hg. unfold NocaseDict.get.
  induction d as [|e d IH]; [done|]. cbn [map List.find].
  unfold NocaseDict.key_is at 1 3. rewrite Hg.
  destruct (PyStr.eqb_nocase (fst e) k); [done|apply IH].
Qed.

Lemma lookup_put namespace st ds :
  Datastore.lookup namespace (Datastore.put namespace st ds)
  = (fun _ => st) <$> Datastore.lookup namespace ds.
Proof.
  unfold Datastore.lookup, Datastore.put.
  rewrite get_map_entries by (intros e; by destruct (NocaseDict.key_is _ e)).
  unfold NocaseDict.get.
  destruct (List.find _ ds) as [e|] eqn:Hf; [|done]. cbn.
  apply find_some in Hf as [_ ->]. done.
Qed.

Lemma lookup_put_ne namespace namespace' st ds :
  PyStr.lower (Datastore.normalize namespace')
  <> PyStr.lower (Datastore.normalize namespace) ->
  Datastore.lookup namespace' (Datastore.put namespace st ds)
  = Datastore.lookup namespace' ds.
Proof.
  intros Hne. unfold Datastore.lookup, Datastore.put.
  rewrite get_map_entries by (intros e; by destruct (NocaseDict.key_is _ e)).
  unfold NocaseDict.get.
  destruct (List.find _ ds) as [e|] eqn:Hf; [|done]. cbn.
  apply find_some in Hf as [_ Hk].
  destruct (NocaseDict.key_is (Datastore.normalize namespace) e) eqn:Hk';
    [|done].
  unfold NocaseDict.key_is in *.
  apply eqb_nocase_eq in Hk, Hk'. congruence.
Qed.

Lemma lookup_app namespace ds ds' st :
  Datastore.lookup namespace ds = Some st ->
  Datastore.lookup namespace (ds ++ ds') = Some st.
Proof.
  unfold Datastore.lookup, NocaseDict.get.
  induction ds as [|e ds IH]; [done|]. cbn [app List.find].
  by destruct (NocaseDict.key_is _ e).
Qed.

Lemma validate_namespace_lookup self namespace :
  validate_namespace self namespace
  = match Datastore.lookup namespace (datastore self) with
    | Some _ => Ok tt
    | None => Raise (CIMError CIM_ERR_INVALID_NAMESPACE)
    end.
Proof.
  unfold validate_namespace, Datastore.validate_namespace.
  by destruct (Datastore.lookup namespace (datastore self)).
Qed.

Lemma get_stores_None self namespace :
  Datastore.lookup namespace (datastore self) = None ->
  get_stores self namespace = Raise (CIMError CIM_ERR_INVALID_NAMESPACE).
Proof.
  intros Hl. unfold get_stores. rewrite validate_namespace_lookup.
  by rewrite Hl.
Qed.

(** ** The pull protocol: what a session leaves behind *)

Lemma call_open_cases env self namespace op ps :
  match open_request self namespace (open_FilterQueryLanguage ps)
          (open_FilterQuery ps) (open_OperationTimeout ps)
          (non_paged self namespace op) with
  | Raise e => call_open env self namespace op ps = (Raise e, self)
  | Ok all =>
      call_open env self namespace op ps
      = _open_response env self namespace all (pull_type_of op)
          (open_OperationTimeout ps) (open_MaxObjectCount ps)
          (open_ContinueOnError ps)
  end.
Proof.
  destruct op; cbn [call_open non_paged pull_type_of];
    unfold OpenEnumerateInstancePaths, OpenEnumerateInstances,
      OpenReferenceInstancePaths, OpenReferenceInstances,
      OpenAssociatorInstancePaths, OpenAssociatorInstances, open_request;
    destruct (_pull_operations_disabled self); cbn [mbind result_bind];
      try done;
    destruct (validate_namespace self namespace); cbn [mbind result_bind];
      try done;
    destruct (_validate_open_params _ _ _); cbn [mbind result_bind];
      try done;
    match goal with
    | |- context [_ <$> ?r] => by destruct r
    end.
Qed.

Lemma open_request_Ok {A} self namespace fql fq ot
    (operation : result (list A)) all :
  open_request self namespace fql fq ot operation = Ok all ->
  disable_pull_operations self = false
  /\ validate_namespace self namespace = Ok tt
  /\ _validate_open_params fql fq ot = Ok tt
  /\ operation = Ok all.
Proof.
  unfold open_request, _pull_operations_disabled.
  destruct (disable_pull_operations self); [done|]. cbn [mbind result_bind].
  destruct (validate_namespace self namespace) as [[]|]; [|done].
  cbn [mbind result_bind].
  destruct (_validate_open_params fql fq ot) as [[]|]; [|done].
  by cbn [mbind result_bind].
Qed.

Lemma _open_response_cases env self namespace objects pull_type ot moc coe :
  let N := default _DEFAULT_MAX_OBJECT_COUNT moc in
  _open_response env self namespace objects pull_type ot moc coe
  = (Ok (objects, "TRUE", ""), self)
  \/ exists ctx,
       _open_response env self namespace objects pull_type ot moc coe
       = (Ok (py_slice0 objects N, "FALSE", _create_contextid env),
          with_enumeration_contexts
            (<[_create_contextid env := ctx]> (enumeration_contexts self))
            self)
       /\ ctx_data ctx = py_del0 objects N
       /\ ctx_pull_type ctx = pull_type
       /\ ctx_namespace ctx = namespace.
Proof.
  intros N.
  destruct (_open_response_spec env self namespace objects pull_type ot moc
              coe) as [Hall Hpage].
  destruct (Z_le_gt_dec (Z.of_nat (length objects)) N) as [Hle|Hgt].
  - left. by apply Hall.
  - right. apply Hpage. fold N. lia.
Qed.

(** X1.  The pull protocol never writes to the repository: whatever an
    [Open...] request, a [Pull...] request or [CloseEnumeration] returns or
    raises, the datastore, the host and the pull switch of the provider are
    as before.  An [Open...] request that raises leaves the provider as a
    whole unchanged, so it leaves no enumeration context behind. *)
Theorem X1_pull_protocol_frame :
  (forall env self namespace op ps,
     let out := call_open env self namespace op ps in
     datastore (snd out) = datastore self
     /\ host (snd out) = host self
     /\ disable_pull_operations (snd out) = disable_pull_operations self
     /\ (forall e, fst out = Raise e -> snd out = self))
  /\ (forall self op EnumerationContext MaxObjectCount,
        let out := call_pull self op EnumerationContext MaxObjectCount in
        datastore (snd out) = datastore self
        /\ host (snd out) = host self
        /\ disable_pull_operations (snd out) = disable_pull_operations self)
  /\ (forall self EnumerationContext,
        let out := CloseEnumeration self EnumerationContext in
        datastore (snd out) = datastore self
        /\ host (snd out) = host self
        /\ disable_pull_operations (snd out) = disable_pull_operations self
        /\ (forall e, fst out = Raise e -> snd out = self)).
Proof.
  split; [|split].
  - intros env self namespace op ps out. subst out.
    pose proof (call_open_cases env self namespace op ps) as Hc.
    destruct (open_request _ _ _ _ _ _) as [all|e]; rewrite Hc; [|done].
    destruct (_open_response_cases env self namespace all (pull_type_of op)
                (open_OperationTimeout ps) (open_MaxObjectCount ps)
                (open_ContinueOnError ps)) as [->|(ctx & -> & _)]; done.
  - intros self op EnumerationContext MaxObjectCount out. subst out.
    rewrite call_pull_unfold.
    destruct (disable_pull_operations self) eqn:Hd; [done|].
    unfold _pull_response.
    destruct (enumeration_contexts self !! EnumerationContext) as [ctx|];
      [|done].
    destruct (validate_namespace self (ctx_namespace ctx)); [|done].
    destruct (negb _); [done|].
    by destruct (_ <=? _)%Z.
  - intros self EnumerationContext out. subst out. unfold CloseEnumeration.
    destruct (_pull_operations_disabled self); [|done].
    by destruct (enumeration_contexts self !! EnumerationContext).
Qed.

Lemma with_contexts_disable m self :
  disable_pull_operations (with_enumeration_contexts m self)
  = disable_pull_operations self.
Proof. done. Qed.

Lemma with_contexts_contexts m self :
  enumeration_contexts (with_enumeration_contexts m self) = m.
Proof. done. Qed.

Lemma with_contexts_validate m self namespace :
  validate_namespace (with_enumeration_contexts m self) namespace
  = validate_namespace self namespace.
Proof. done. Qed.

Lemma with_contexts_twice m m' self :
  with_enumeration_contexts m (with_enumeration_contexts m' self)
  = with_enumeration_contexts m self.
Proof. done. Qed.

Lemma call_open_paged env self namespace op ps page cid self1 :
  call_open env self namespace op ps = (Ok (page, "FALSE", cid), self1) ->
  exists all ctx,
    non_paged self namespace op = Ok all
    /\ disable_pull_operations self = false
    /\ validate_namespace self namespace = Ok tt
    /\ page = py_slice0 all (default _DEFAULT_MAX_OBJECT_COUNT
                               (open_MaxObjectCount ps))
    /\ cid = _create_contextid env
    /\ self1 = with_enumeration_contexts
                 (<[cid := ctx]> (enumeration_contexts self)) self
    /\ ctx_data ctx = py_del0 all (default _DEFAULT_MAX_OBJECT_COUNT
                                     (open_MaxObjectCount ps))
    /\ ctx_pull_type ctx = pull_type_of op
    /\ ctx_namespace ctx = namespace.
Proof.
  intros Hopen.
  pose proof (call_open_cases env self namespace op ps) as Hc.
  destruct (open_request _ _ _ _ _ _) as [all|e] eqn:Hreq;
    rewrite Hc in Hopen; [|done].
  apply open_request_Ok in Hreq as (Hen & Hns & _ & Hall).
  destruct (_open_response_cases env self namespace all (pull_type_of op)
              (open_OperationTimeout ps) (open_MaxObjectCount ps)
              (open_ContinueOnError ps)) as [Hr|(ctx & Hr & Hdata & Hty & Hn)];
    rewrite Hr in Hopen; [done|].
  injection Hopen as <- <- <-. by exists all, ctx.
Qed.

(** X2.  A session of two requests is complete.  When an [Open...] request
    answers with a first page and an open context, that page followed by
    the data the context holds is the result of the non-paged operation,
    in order; and a [Pull...] request of the matching pull type whose count
    covers what the context holds returns exactly that remainder with
    end-of-sequence set, and removes the context. *)
Theorem X2_Open_then_draining_Pull env self namespace op ps pop page cid
    self1 MaxObjectCount :
  call_open env self namespace op ps = (Ok (page, "FALSE", cid), self1) ->
  pull_type_name pop = pull_type_of op ->
  exists all ctx,
    non_paged self namespace op = Ok all
    /\ enumeration_contexts self1 !! cid = Some ctx
    /\ page ++ ctx_data ctx = all
    /\ let M := match MaxObjectCount with
                | Some n => if (n =? 0)%Z then 100%Z else n
                | None => 100%Z
                end in
       ((Z.of_nat (length (ctx_data ctx)) <= M)%Z ->
        call_pull self1 pop cid MaxObjectCount
        = (Ok (ctx_data ctx, "TRUE", ""),
           with_enumeration_contexts
             (delete cid (enumeration_contexts self)) self)).
Proof.
  intros (all & ctx & Hall & Hen & Hns & -> & Hcid & -> & Hdata & Hty & Hn)
    %call_open_paged Hpop.
  exists all, ctx. split; [done|].
  split; [cbn; by rewrite lookup_insert_eq|].
  split; [rewrite Hdata; apply py_slice0_del0|].
  intros M Hle. rewrite call_pull_unfold, with_contexts_disable, Hen.
  destruct (_pull_response_spec
              (with_enumeration_contexts
                 (<[cid := ctx]> (enumeration_contexts self)) self)
              (pull_type_name pop) cid MaxObjectCount ctx) as [Hdrain _].
  - by rewrite with_contexts_contexts, lookup_insert_eq.
  - by rewrite Hn.
  - by rewrite Hty.
  - rewrite Hdrain by exact Hle.
    by rewrite with_contexts_contexts, with_contexts_twice, delete_insert_eq.
Qed.

(** X3.  [PullInstances] cannot continue any session: every context that
    one of the six [Open...] requests creates has the pull type
    [PullInstancesWithPath] or [PullInstancePaths], so a [PullInstances]
    request on it raises [CIM_ERR_INVALID_ENUMERATION_CONTEXT] and leaves
    the context as it is. *)
Theorem X3_PullInstances_rejects_opened_contexts env self namespace op ps
    page cid self1 MaxObjectCount :
  call_open env self namespace op ps = (Ok (page, "FALSE", cid), self1) ->
  PullInstances self1 cid MaxObjectCount
  = (Raise (CIMError CIM_ERR_INVALID_ENUMERATION_CONTEXT), self1).
Proof.
  intros (all & ctx & Hall & Hen & Hns & -> & Hcid & -> & Hdata & Hty & Hn)
    %call_open_paged.
  unfold PullInstances, pull, _pull_operations_disabled.
  rewrite with_contexts_disable, Hen. unfold _pull_response.
  rewrite with_contexts_contexts, lookup_insert_eq, Hn,
    with_contexts_validate, Hns, Hty.
  by destruct op.
Qed.

Lemma call_pull_Ok self op cid moc r self1 :
  call_pull self op cid moc = (Ok r, self1) ->
  exists ctx,
    enumeration_contexts self !! cid = Some ctx
    /\ disable_pull_operations self = false
    /\ r = (ctx_data ctx, "TRUE", "")
    /\ self1 = with_enumeration_contexts
                 (delete cid (enumeration_contexts self)) self.
Proof.
  rewrite call_pull_unfold.
  destruct (disable_pull_operations self); [done|].
  unfold _pull_response.
  destruct (enumeration_contexts self !! cid) as [ctx|]; [|done].
  destruct (validate_namespace self (ctx_namespace ctx)); [|done].
  destruct (negb _); [done|].
  destruct (_ <=? _)%Z; [|done].
  intros [= <- <-]. by exists ctx.
Qed.

(** X4.  A [Pull...] request that returns at all returns the whole
    remainder with end-of-sequence set and an empty context id.  After such
    a pull, and after a [CloseEnumeration] that returns, the context is
    gone and the others are untouched: every further [Pull...] request and
    every further [CloseEnumeration] on that context id raises
    [CIM_ERR_INVALID_ENUMERATION_CONTEXT] and changes nothing. *)
Theorem X4_session_ends self cid self1 :
  CloseEnumeration self cid = (Ok tt, self1)
  \/ (exists op moc r, call_pull self op cid moc = (Ok r, self1)) ->
  (forall op moc r, call_pull self op cid moc = (Ok r, self1) ->
     exists ctx, enumeration_contexts self !! cid = Some ctx
                 /\ r = (ctx_data ctx, "TRUE", ""))
  /\ enumeration_contexts self1 = delete cid (enumeration_contexts self)
  /\ (forall cid', cid' <> cid ->
        enumeration_contexts self1 !! cid' = enumeration_contexts self !! cid')
  /\ (forall op moc,
        call_pull self1 op cid moc
        = (Raise (CIMError CIM_ERR_INVALID_ENUMERATION_CONTEXT), self1))
  /\ CloseEnumeration self1 cid
     = (Raise (CIMError CIM_ERR_INVALID_ENUMERATION_CONTEXT), self1).
Proof.
  intros Hend.
  assert (disable_pull_operations self = false
          /\ self1 = with_enumeration_contexts
                       (delete cid (enumeration_contexts self)) self)
    as [Hen ->].
  { destruct Hend as [Hclose|(op & moc & r & Hpull)].
    - unfold CloseEnumeration, _pull_operations_disabled in Hclose.
      destruct (disable_pull_operations self); [done|].
      destruct (enumeration_contexts self !! cid); [|done].
      by injection Hclose as <-.
    - by apply call_pull_Ok in Hpull as (ctx & _ & Hen & _ & ->). }
  split.
  { intros op moc r (ctx & Hctx & _ & -> & _)%call_pull_Ok. by exists ctx. }
  split; [done|]. split.
  { intros cid' Hne. by rewrite with_contexts_contexts, lookup_delete_ne. }
  split.
  - intros op moc. rewrite call_pull_unfold, with_contexts_disable, Hen.
    unfold _pull_response.
    by rewrite with_contexts_contexts, lookup_delete_eq.
  - unfold CloseEnumeration, _pull_operations_disabled.
    by rewrite with_contexts_disable, Hen, with_contexts_contexts,
      lookup_delete_eq.
Qed.

(** X5.  The checks that every [Open...] request makes before it reads the
    repository, in their order: pull operations disabled on the connection
    is [CIM_ERR_NOT_SUPPORTED]; then an unknown namespace is
    [CIM_ERR_INVALID_NAMESPACE]; then a [FilterQuery] without
    [FilterQueryLanguage] is [CIM_ERR_INVALID_PARAMETER]; then a
    [FilterQueryLanguage] other than [DMTF:FQL] is
    [CIM_ERR_QUERY_LANGUAGE_NOT_SUPPORTED]; then an [OperationTimeout] below
    0 or above 40 raises [ValueError] (the message of the
    [CIM_ERR_INVALID_PARAMETER] that the method sets out to raise cannot be
    formatted), and so no CIM error at all.  None of these requests changes
    the provider. *)
Theorem X5_Open_checks env self namespace op ps :
  let fql := open_FilterQueryLanguage ps in
  let fq := open_FilterQuery ps in
  let raises e := call_open env self namespace op ps = (Raise e, self) in
  (disable_pull_operations self = true ->
   raises (CIMError CIM_ERR_NOT_SUPPORTED))
  /\ (disable_pull_operations self = false ->
      (Datastore.lookup namespace (datastore self) = None ->
       raises (CIMError CIM_ERR_INVALID_NAMESPACE))
      /\ (is_Some (Datastore.lookup namespace (datastore self)) ->
          (PyStr.truthy fql = false -> PyStr.truthy fq = true ->
           raises (CIMError CIM_ERR_INVALID_PARAMETER))
          /\ (PyStr.truthy fql = true -> fql <> Some "DMTF:FQL" ->
              raises (CIMError CIM_ERR_QUERY_LANGUAGE_NOT_SUPPORTED))
          /\ (forall t,
                PyStr.truthy fql = false /\ PyStr.truthy fq = false
                \/ fql = Some "DMTF:FQL" ->
                open_OperationTimeout ps = Some t ->
                (t < 0)%Z \/ (40 < t)%Z ->
                raises ValueError
                /\ forall code,
                     call_open env self namespace op ps
                     <> (Raise (CIMError code), self)))).
Proof.
  intros fql fq raises. subst raises. cbv beta.
  pose proof (call_open_cases env self namespace op ps) as Hc.
  unfold open_request, _pull_operations_disabled in Hc.
  rewrite validate_namespace_lookup in Hc. fold fql fq in Hc.
  split.
  { intros Hd. by rewrite Hd in Hc. }
  intros Hd. rewrite Hd in Hc. cbn [mbind result_bind] in Hc. split.
  { intros Hl. by rewrite Hl in Hc. }
  intros [st Hl]. rewrite Hl in Hc. cbn [mbind result_bind] in Hc.
  unfold _validate_open_params in Hc. split; [|split].
  - intros Hfql Hfq. by rewrite Hfql, Hfq in Hc.
  - intros Hfql Hne. rewrite Hfql in Hc. cbn [negb andb] in Hc.
    by rewrite bool_decide_eq_false_2 in Hc.
  - intros t Hfilter Ht Hrange. rewrite Ht in Hc.
    assert ((negb (t =? 0) && ((t <? 0) || (OPEN_MAX_TIMEOUT <? t)))%Z = true)
      as Hbad.
    { unfold OPEN_MAX_TIMEOUT. apply andb_true_iff. split.
      - apply negb_true_iff, Z.eqb_neq. lia.
      - apply orb_true_iff. destruct Hrange; [left|right]; by apply Z.ltb_lt. }
    rewrite Hbad in Hc.
    assert (call_open env self namespace op ps = (Raise ValueError, self))
      as ->.
    { destruct Hfilter as [[Hfql Hfq]|Hfql].
      - by rewrite Hfql, Hfq in Hc.
      - rewrite Hfql in Hc. by cbn in Hc. }
    split; [done|]. by intros code [=].
Qed.

(** X6.  The requests that the provider does not implement never return:
    [ExecQuery] and [ModifyClass] raise [CIM_ERR_INVALID_NAMESPACE] for an
    unknown namespace and [CIM_ERR_NOT_SUPPORTED] otherwise.
    [OpenQueryInstances] always raises and never opens an enumeration
    context; when the checks of an [Open...] request pass, what it raises is
    the [CIM_ERR_NOT_SUPPORTED] of [ExecQuery]. *)
Theorem X6_unimplemented_requests :
  let code self namespace :=
    match Datastore.lookup namespace (datastore self) with
    | Some _ => CIM_ERR_NOT_SUPPORTED
    | None => CIM_ERR_INVALID_NAMESPACE
    end in
  (forall self namespace QueryLanguage Query,
     ExecQuery self namespace QueryLanguage Query
     = Raise (CIMError (code self namespace)))
  /\ (forall self namespace ModifiedClass,
        ModifyClass self namespace ModifiedClass
        = Raise (CIMError (code self namespace)))
  /\ (forall env self namespace fql fq rqrc ot coe moc,
        exists e,
          OpenQueryInstances env self namespace fql fq rqrc ot coe moc
          = (Raise e, self)
          /\ (disable_pull_operations self = false ->
              validate_namespace self namespace = Ok tt ->
              _validate_open_params fql fq ot = Ok tt ->
              e = CIMError CIM_ERR_NOT_SUPPORTED)).
Proof.
  intros code. subst code. cbv beta. split; [|split].
  - intros. unfold ExecQuery. rewrite validate_namespace_lookup.
    by destruct (Datastore.lookup _ _).
  - intros. unfold ModifyClass. rewrite validate_namespace_lookup.
    by destruct (Datastore.lookup _ _).
  - intros. unfold OpenQueryInstances, open_request, ExecQuery,
      _pull_operations_disabled.
    destruct (disable_pull_operations self).
    { by eexists. }
    cbn [mbind result_bind].
    destruct (validate_namespace self namespace) as [[]|e].
    2:{ by eexists. }
    cbn [mbind result_bind].
    destruct (_validate_open_params fql fq ot) as [[]|e]; by eexists.
Qed.

(** ** Qualifier declarations *)

Lemma validate_namespace_Ok self namespace :
  validate_namespace self namespace = Ok tt ->
  exists st, Datastore.lookup namespace (datastore self) = Some st.
Proof.
  rewrite validate_namespace_lookup.
  destruct (Datastore.lookup _ _) as [st|]; [by exists st|done].
Qed.

Lemma find_ext {A} (p q : A -> bool) (l : list A) :
  (forall x, p x = q x) -> List.find p l = List.find q l.
Proof.
  intros H. induction l as [|x l IH]; [done|]. cbn. by rewrite H, IH.
Qed.

Lemma get_nocase {V} k k' (d : NocaseDict.t V) :
  PyStr.lower k = PyStr.lower k' -> NocaseDict.get k d = NocaseDict.get k' d.
Proof.
  intros Hk. unfold NocaseDict.get. f_equal. apply find_ext. intros e.
  unfold NocaseDict.key_is, PyStr.eqb_nocase. by rewrite Hk.
Qed.

Lemma lookup_same_namespace a b ds :
  same_namespace a b -> Datastore.lookup a ds = Datastore.lookup b ds.
Proof. intros H. unfold Datastore.lookup. by apply get_nocase. Qed.

Lemma get_stores_same_namespace self a b :
  same_namespace a b -> get_stores self a = get_stores self b.
Proof.
  intros H. unfold get_stores. rewrite !validate_namespace_lookup.
  by rewrite (lookup_same_namespace a b).
Qed.

Lemma get_stores_cases self namespace :
  get_stores self namespace
  = match Datastore.lookup namespace (datastore self) with
    | Some st => Ok st
    | None => Raise (CIMError CIM_ERR_INVALID_NAMESPACE)
    end.
Proof.
  unfold get_stores. rewrite validate_namespace_lookup.
  by destruct (Datastore.lookup namespace (datastore self)).
Qed.

Lemma get_stores_with_datastore self ds namespace :
  get_stores (with_datastore ds self) namespace
  = match Datastore.lookup namespace ds with
    | Some st => Ok st
    | None => Raise (CIMError CIM_ERR_INVALID_NAMESPACE)
    end.
Proof. by rewrite get_stores_cases. Qed.

(** What a namespace holds after its stores have been written back. *)
Lemma get_stores_put self namespace namespace' st st0 :
  Datastore.lookup namespace (datastore self) = Some st0 ->
  get_stores
    (with_datastore (Datastore.put namespace st (datastore self)) self)
    namespace'
  = if bool_decide (same_namespace namespace' namespace) then Ok st
    else get_stores self namespace'.
Proof.
  intros Hl. rewrite get_stores_with_datastore, get_stores_cases.
  case_bool_decide as Hs.
  - rewrite (lookup_same_namespace _ _ _ Hs), lookup_put, Hl. done.
  - by rewrite lookup_put_ne.
Qed.

Section StoreUpdates.
Context {K V : Type} (key_eqb : K -> K -> bool).
Hypothesis key_eqb_trans_l :
  forall a b c, key_eqb a b = true -> key_eqb a c = key_eqb b c.
Hypothesis key_eqb_sym : forall a b, key_eqb a b = key_eqb b a.

Lemma get_key_ext k k' (s : ObjectStore.t K V) :
  key_eqb k k' = true ->
  ObjectStore.get key_eqb k s = ObjectStore.get key_eqb k' s.
Proof.
  intros Hk. unfold ObjectStore.get. do 2 f_equal. apply find_ext.
  intros e. unfold ObjectStore.matches.
  rewrite (key_eqb_sym (fst e) k), (key_eqb_sym (fst e) k').
  by apply key_eqb_trans_l.
Qed.

Lemma exists_key_ext k k' (s : ObjectStore.t K V) :
  key_eqb k k' = true ->
  ObjectStore.exists_ key_eqb k s = ObjectStore.exists_ key_eqb k' s.
Proof.
  intros Hk. unfold ObjectStore.exists_.
  induction s as [|e s IH]; [done|]. cbn [existsb]. rewrite IH. f_equal.
  unfold ObjectStore.matches.
  rewrite (key_eqb_sym (fst e) k), (key_eqb_sym (fst e) k').
  by apply key_eqb_trans_l.
Qed.

Lemma exists_false_get k (s : ObjectStore.t K V) :
  ObjectStore.exists_ key_eqb k s = false ->
  ObjectStore.get key_eqb k s = Raise KeyError.
Proof.
  unfold ObjectStore.exists_, ObjectStore.get.
  induction s as [|e s IH]; [done|]. cbn [existsb List.find].
  destruct (ObjectStore.matches key_eqb k e); [done|exact IH].
Qed.

Lemma get_Ok_exists k (s : ObjectStore.t K V) v :
  ObjectStore.get key_eqb k s = Ok v ->
  ObjectStore.exists_ key_eqb k s = true.
Proof.
  destruct (ObjectStore.exists_ key_eqb k s) eqn:Hex; [done|].
  by rewrite exists_false_get.
Qed.

(** After [create] the new key reads as the new value, and every other
    key as before. *)
Lemma get_create k v (s s' : ObjectStore.t K V) k' :
  ObjectStore.create key_eqb k v s = Ok s' ->
  ObjectStore.get key_eqb k' s'
  = if key_eqb k k' then Ok v else ObjectStore.get key_eqb k' s.
Proof.
  unfold ObjectStore.create.
  destruct (ObjectStore.exists_ key_eqb k s) eqn:Hex; [done|].
  intros [= <-]. destruct (key_eqb k k') eqn:Hk.
  - rewrite <- (get_key_ext k k' _ Hk).
    unfold ObjectStore.get, ObjectStore.exists_ in *.
    induction s as [|e s IH]; cbn [app List.find existsb] in *.
    + unfold ObjectStore.matches. cbn [fst].
      by rewrite (key_eqb_trans_l k k' k Hk), key_eqb_sym, Hk.
    + apply orb_false_iff in Hex as [-> Hex]. by apply IH.
  - unfold ObjectStore.get.
    induction s as [|e s IH]; cbn [app List.find existsb] in *.
    + unfold ObjectStore.matches. cbn [fst]. by rewrite Hk.
    + apply orb_false_iff in Hex as [He Hex].
      destruct (ObjectStore.matches key_eqb k' e); [done|by apply IH].
Qed.

(** After [update] the key reads as the new value, and every other key
    as before. *)
Lemma get_update k v (s s' : ObjectStore.t K V) k' :
  ObjectStore.update key_eqb k v s = Ok s' ->
  ObjectStore.get key_eqb k' s'
  = if key_eqb k k' then Ok v else ObjectStore.get key_eqb k' s.
Proof.
  unfold ObjectStore.update.
  destruct (ObjectStore.exists_ key_eqb k s) eqn:Hex; [|done].
  intros [= <-]. destruct (key_eqb k k') eqn:Hk.
  - rewrite <- (get_key_ext k k' _ Hk).
    unfold ObjectStore.get, ObjectStore.exists_ in *.
    induction s as [|e s IH]; [done|]. cbn [map List.find existsb] in *.
    destruct (ObjectStore.matches key_eqb k e) eqn:He.
    + unfold ObjectStore.matches in *. cbn [fst]. by rewrite He.
    + rewrite He. by apply IH.
  - unfold ObjectStore.get. clear Hex.
    induction s as [|e s IH]; [done|]. cbn [map List.find].
    destruct (ObjectStore.matches key_eqb k e) eqn:He.
    + unfold ObjectStore.matches in *. cbn [fst].
      rewrite (key_eqb_trans_l _ _ k' He), Hk. exact IH.
    + destruct (ObjectStore.matches key_eqb k' e); [done|exact IH].
Qed.

(** After [delete] the key is absent, and every other key reads as
    before. *)
Lemma get_delete k (s s' : ObjectStore.t K V) k' :
  ObjectStore.delete key_eqb k s = Ok s' ->
  ObjectStore.get key_eqb k' s'
  = if key_eqb k k' then Raise KeyError else ObjectStore.get key_eqb k' s.
Proof.
  unfold ObjectStore.delete.
  destruct (ObjectStore.exists_ key_eqb k s) eqn:Hex; [|done].
  intros [= <-]. clear Hex. unfold ObjectStore.get.
  induction s as [|e s IH]; [by destruct (key_eqb k k')|].
  cbn [List.filter List.find].
  destruct (ObjectStore.matches key_eqb k e) eqn:He; cbn [negb].
  - rewrite IH. unfold ObjectStore.matches in *.
    rewrite (key_eqb_trans_l _ _ k' He).
    by destruct (key_eqb k k').
  - cbn [List.find].
    destruct (ObjectStore.matches key_eqb k' e) eqn:He'; [|exact IH].
    unfold ObjectStore.matches in *.
    by rewrite (key_eqb_sym k k'), <- (key_eqb_trans_l _ _ k He'), He.
Qed.

Lemma exists_get_iff k (s : ObjectStore.t K V) :
  ObjectStore.exists_ key_eqb k s = true
  <-> exists v, ObjectStore.get key_eqb k s = Ok v.
Proof.
  split; [apply exists_get|]. intros [v Hv]. by eapply get_Ok_exists.
Qed.

End StoreUpdates.


Lemma eqb_nocase_trans_l a b c :
  PyStr.eqb_nocase a b = true -> PyStr.eqb_nocase a c = PyStr.eqb_nocase b c.
Proof.
  intros H%eqb_nocase_eq. unfold PyStr.eqb_nocase. by rewrite H.
Qed.

Lemma get_stores_put_qualifier_store self namespace qs st namespace' :
  Datastore.lookup namespace (datastore self) = Some st ->
  get_stores (put_qualifier_store namespace qs self) namespace'
  = if bool_decide (same_namespace namespace' namespace)
    then Ok (mkNamespaceStores (ns_classes st) (ns_instances st) qs)
    else get_stores self namespace'.
Proof.
  intros Hl. unfold put_qualifier_store. rewrite Hl.
  by apply get_stores_put with st.
Qed.

Lemma get_stores_put_instance_store self namespace insts st namespace' :
  Datastore.lookup namespace (datastore self) = Some st ->
  get_stores (put_instance_store namespace insts self) namespace'
  = if bool_decide (same_namespace namespace' namespace)
    then Ok (mkNamespaceStores (ns_classes st) insts (ns_qualifiers st))
    else get_stores self namespace'.
Proof.
  intros Hl. unfold put_instance_store. rewrite Hl.
  by apply get_stores_put with st.
Qed.

Lemma get_stores_put_class_store self namespace cs st namespace' :
  Datastore.lookup namespace (datastore self) = Some st ->
  get_stores (put_class_store namespace cs self) namespace'
  = if bool_decide (same_namespace namespace' namespace)
    then Ok (mkNamespaceStores cs (ns_instances st) (ns_qualifiers st))
    else get_stores self namespace'.
Proof.
  intros Hl. unfold put_class_store. rewrite Hl.
  by apply get_stores_put with st.
Qed.

Lemma get_stores_Ok self namespace st :
  get_stores self namespace = Ok st ->
  Datastore.lookup namespace (datastore self) = Some st.
Proof.
  rewrite get_stores_cases.
  destruct (Datastore.lookup _ _); [by intros [= ->]|done].
Qed.

(** What [SetQualifier] leaves behind in a namespace that exists. *)
Lemma SetQualifier_spec self namespace q st :
  Datastore.lookup namespace (datastore self) = Some st ->
  exists qs',
    SetQualifier self namespace q
    = (Ok tt, put_qualifier_store namespace qs' self)
    /\ (forall name,
          ObjectStore.get qualifier_key_eqb name qs'
          = if PyStr.eqb_nocase (qdecl_name q) name then Ok q
            else ObjectStore.get qualifier_key_eqb name (ns_qualifiers st))
    /\ (if ObjectStore.exists_ qualifier_key_eqb (qdecl_name q)
             (ns_qualifiers st)
        then length qs' = length (ns_qualifiers st)
        else qs' = ns_qualifiers st ++ [(qdecl_name q, q)]).
Proof.
  intros Hl. unfold SetQualifier, get_qualifier_store.
  rewrite (get_stores_lookup _ _ _ Hl). cbn [fmap result_fmap].
  destruct (ObjectStore.create qualifier_key_eqb (qdecl_name q) q
              (ns_qualifiers st)) as [qs'|e] eqn:Hcreate.
  - exists qs'. split; [done|]. split.
    + intros name.
      apply (get_create qualifier_key_eqb eqb_nocase_trans_l eqb_nocase_sym
               _ _ _ _ name Hcreate).
    + unfold ObjectStore.create in Hcreate.
      destruct (ObjectStore.exists_ _ _ _); [done|]. by injection Hcreate.
  - unfold ObjectStore.create in Hcreate.
    destruct (ObjectStore.exists_ qualifier_key_eqb (qdecl_name q)
                (ns_qualifiers st)) eqn:Hex; [|done].
    injection Hcreate as <-.
    destruct (ObjectStore.update qualifier_key_eqb (qdecl_name q) q
                (ns_qualifiers st)) as [qs'|e] eqn:Hupdate.
    + exists qs'. split; [done|]. split.
      * intros name.
        apply (get_update qualifier_key_eqb eqb_nocase_trans_l
                 eqb_nocase_sym _ _ _ _ name Hupdate).
      * unfold ObjectStore.update in Hupdate. rewrite Hex in Hupdate.
        injection Hupdate as <-. by rewrite length_map.
    + unfold ObjectStore.update in Hupdate. by rewrite Hex in Hupdate.
Qed.

(** X7.  [SetQualifier] in a namespace that exists always succeeds (it
    creates the declaration or replaces the stored one; the
    [CIM_ERR_FAILED] of its last handler cannot occur).  Afterwards
    [GetQualifier] returns the declaration under every casing of its name
    and what it returned before under every other name;
    [EnumerateQualifiers] lists a new declaration last and keeps its
    length when a stored one was replaced.  Classes, instances, the other
    namespaces and the enumeration contexts are untouched. *)
Theorem X7_SetQualifier self namespace q :
  validate_namespace self namespace = Ok tt ->
  exists self' old new,
    SetQualifier self namespace q = (Ok tt, self')
    /\ (forall namespace' name,
          same_namespace namespace' namespace ->
          GetQualifier self' namespace' name
          = if PyStr.eqb_nocase (qdecl_name q) name then Ok q
            else GetQualifier self namespace' name)
    /\ EnumerateQualifiers self namespace = Ok old
    /\ EnumerateQualifiers self' namespace = Ok new
    /\ match GetQualifier self namespace (qdecl_name q) with
       | Ok _ => length new = length old
       | Raise _ => new = old ++ [q]
       end
    /\ (forall namespace',
          ~ same_namespace namespace' namespace ->
          get_qualifier_store self' namespace'
          = get_qualifier_store self namespace')
    /\ (forall namespace',
          get_class_store self' namespace' = get_class_store self namespace'
          /\ get_instance_store self' namespace'
             = get_instance_store self namespace')
    /\ enumeration_contexts self' = enumeration_contexts self.
Proof.
  intros [st Hl]%validate_namespace_Ok.
  destruct (SetQualifier_spec self namespace q st Hl)
    as (qs' & Hset & Hget & Hlen).
  exists (put_qualifier_store namespace qs' self),
    (ObjectStore.iter_values (ns_qualifiers st)), (ObjectStore.iter_values qs').
  split; [done|].
  assert (forall namespace',
            get_stores (put_qualifier_store namespace qs' self) namespace'
            = if bool_decide (same_namespace namespace' namespace)
              then Ok (mkNamespaceStores (ns_classes st) (ns_instances st)
                         qs')
              else get_stores self namespace') as Hput
    by (intros; by apply get_stores_put_qualifier_store).
  split.
  { intros namespace' name Hsame.
    unfold GetQualifier, get_qualifier_store.
    rewrite Hput, bool_decide_eq_true_2 by done.
    rewrite (get_stores_same_namespace self _ _ Hsame),
      (get_stores_lookup _ _ _ Hl).
    cbn [fmap result_fmap mbind result_bind]. rewrite Hget.
    by destruct (PyStr.eqb_nocase (qdecl_name q) name). }
  split.
  { unfold EnumerateQualifiers, get_qualifier_store.
    by rewrite (get_stores_lookup _ _ _ Hl). }
  split.
  { unfold EnumerateQualifiers, get_qualifier_store.
    rewrite Hput, bool_decide_eq_true_2 by done. done. }
  split.
  { unfold GetQualifier, get_qualifier_store.
    rewrite (get_stores_lookup _ _ _ Hl).
    cbn [fmap result_fmap mbind result_bind].
    destruct (ObjectStore.exists_ qualifier_key_eqb (qdecl_name q)
                (ns_qualifiers st)) eqn:Hex.
    - destruct (exists_get _ _ _ Hex) as [v ->]. cbn [translate].
      unfold ObjectStore.iter_values. by rewrite !length_map.
    - rewrite (exists_false_get _ _ _ Hex). cbn [translate].
      rewrite bool_decide_eq_true_2 by done. rewrite Hlen.
      unfold ObjectStore.iter_values. by rewrite map_app. }
  split.
  { intros namespace' Hne. unfold get_qualifier_store.
    by rewrite Hput, bool_decide_eq_false_2. }
  split; [|unfold put_qualifier_store; by rewrite Hl].
  intros namespace'. unfold get_class_store, get_instance_store.
  rewrite Hput. case_bool_decide as Hs; [|done].
  by rewrite (get_stores_same_namespace self _ _ Hs),
    (get_stores_lookup _ _ _ Hl).
Qed.

(** X8.  [DeleteQualifier] fails exactly as [GetQualifier] does on the same
    arguments ([CIM_ERR_INVALID_NAMESPACE], [CIM_ERR_NOT_FOUND]) and then
    changes nothing.  When the declaration is stored, it is deleted:
    afterwards [GetQualifier] raises [CIM_ERR_NOT_FOUND] under every casing
    of the name and returns what it returned before under every other
    name; classes, instances, the other namespaces and the enumeration
    contexts are untouched. *)
Theorem X8_DeleteQualifier self namespace name :
  match GetQualifier self namespace name with
  | Raise e => DeleteQualifier self namespace name = (Raise e, self)
  | Ok _ =>
      exists self',
        DeleteQualifier self namespace name = (Ok tt, self')
        /\ (forall namespace' name',
              same_namespace namespace' namespace ->
              GetQualifier self' namespace' name'
              = if PyStr.eqb_nocase name name'
                then Raise (CIMError CIM_ERR_NOT_FOUND)
                else GetQualifier self namespace' name')
        /\ (forall namespace',
              ~ same_namespace namespace' namespace ->
              get_qualifier_store self' namespace'
              = get_qualifier_store self namespace')
        /\ (forall namespace',
              get_class_store self' namespace'
              = get_class_store self namespace'
              /\ get_instance_store self' namespace'
                 = get_instance_store self namespace')
        /\ enumeration_contexts self' = enumeration_contexts self
  end.
Proof.
  unfold GetQualifier, DeleteQualifier, get_qualifier_store.
  rewrite get_stores_cases.
  destruct (Datastore.lookup namespace (datastore self)) as [st|] eqn:Hl;
    [|done].
  cbn [fmap result_fmap mbind result_bind].
  destruct (ObjectStore.exists_ qualifier_key_eqb name (ns_qualifiers st))
    eqn:Hex.
  2:{ rewrite (exists_false_get _ _ _ Hex). cbn [translate].
      by rewrite bool_decide_eq_true_2. }
  destruct (exists_get _ _ _ Hex) as [v ->]. cbn [translate].
  destruct (ObjectStore.delete qualifier_key_eqb name (ns_qualifiers st))
    as [qs'|e] eqn:Hdel.
  2:{ unfold ObjectStore.delete in Hdel. by rewrite Hex in Hdel. }
  exists (put_qualifier_store namespace qs' self). split; [done|].
  assert (forall namespace',
            get_stores (put_qualifier_store namespace qs' self) namespace'
            = if bool_decide (same_namespace namespace' namespace)
              then Ok (mkNamespaceStores (ns_classes st) (ns_instances st)
                         qs')
              else get_stores self namespace') as Hput
    by (intros; by apply get_stores_put_qualifier_store).
  split.
  { intros namespace' name' Hsame.
    rewrite Hput, bool_decide_eq_true_2 by done.
    rewrite (get_stores_same_namespace self _ _ Hsame),
      (get_stores_lookup _ _ _ Hl).
    cbn [fmap result_fmap mbind result_bind ns_qualifiers].
    rewrite (get_delete qualifier_key_eqb eqb_nocase_trans_l eqb_nocase_sym
               _ _ _ name' Hdel).
    unfold qualifier_key_eqb at 1.
    destruct (PyStr.eqb_nocase name name'); [|done]. cbn [translate].
    by rewrite bool_decide_eq_true_2. }
  split.
  { intros namespace' Hne. by rewrite Hput, bool_decide_eq_false_2. }
  split; [|unfold put_qualifier_store; by rewrite Hl].
  intros namespace'. unfold get_class_store, get_instance_store.
  rewrite Hput. case_bool_decide as Hs; [|done].
  by rewrite (get_stores_same_namespace self _ _ Hs),
    (get_stores_lookup _ _ _ Hl).
Qed.

(** ** Class responders *)

Lemma keys_map_values {V W} (f : V -> W) (d : NocaseDict.t V) :
  NocaseDict.keys (NocaseDict.map_values f d) = NocaseDict.keys d.
Proof.
  unfold NocaseDict.keys, NocaseDict.map_values. rewrite map_map.
  by apply map_ext.
Qed.

Lemma keys_filter_keys {V} (p : string -> bool) (d : NocaseDict.t V) :
  NocaseDict.keys (NocaseDict.filter_keys p d)
  = List.filter p (NocaseDict.keys d).
Proof.
  unfold NocaseDict.keys, NocaseDict.filter_keys.
  induction d as [|e d IH]; [done|]. cbn [List.filter map].
  destruct (p (fst e)); cbn [map]; by rewrite IH.
Qed.

Lemma values_map_values {V W} (f : V -> W) (d : NocaseDict.t V) :
  NocaseDict.values (NocaseDict.map_values f d) = map f (NocaseDict.values d).
Proof.
  unfold NocaseDict.values, NocaseDict.map_values. by rewrite !map_map.
Qed.

(** The class that [_get_class] shapes, and what the shaping does to its
    name and to the names of its properties. *)
Lemma _get_class_cases self namespace classname lo iq ico pl :
  match _get_class self namespace classname lo iq ico pl with
  | Raise e =>
      Datastore.lookup namespace (datastore self) = None
      /\ e = CIMError CIM_ERR_INVALID_NAMESPACE
      \/ (exists st,
            Datastore.lookup namespace (datastore self) = Some st
            /\ ObjectStore.exists_ class_key_eqb classname (ns_classes st)
               = false)
         /\ e = CIMError CIM_ERR_NOT_FOUND
  | Ok cc =>
      exists st cls,
        Datastore.lookup namespace (datastore self) = Some st
        /\ ObjectStore.get class_key_eqb classname (ns_classes st) = Ok cls
        /\ cls_classname cc = cls_classname cls
        /\ cls_superclass cc = cls_superclass cls
        /\ NocaseDict.keys (cls_properties cc)
           = List.filter
               (fun name =>
                  match pl with
                  | Some pl => str_in (PyStr.lower name) (map PyStr.lower pl)
                  | None => true
                  end)
               (NocaseDict.keys
                  (List.filter
                     (fun e => negb (truthy_flag lo
                                     && truthy_flag (prop_propagated (snd e))))
                     (cls_properties cls)))
  end.
Proof.
  unfold _get_class, get_class_store. rewrite get_stores_cases.
  destruct (Datastore.lookup namespace (datastore self)) as [st|] eqn:Hl.
  2:{ left. done. }
  cbn [fmap result_fmap mbind result_bind].
  destruct (ObjectStore.exists_ class_key_eqb classname (ns_classes st))
    eqn:Hex.
  2:{ rewrite (exists_false_get _ _ _ Hex). cbn [translate mbind result_bind].
      rewrite bool_decide_eq_true_2 by done. right. split; [|done].
      by exists st. }
  destruct (exists_get _ _ _ Hex) as [cls Hcls]. rewrite Hcls.
  cbn [translate mbind result_bind]. exists st, cls.
  split; [done|]. split; [done|].
  assert (forall (c : CIMClass),
            cls_classname (if truthy_flag ico then c else _remove_classorigin c)
            = cls_classname c
            /\ cls_superclass
                 (if truthy_flag ico then c else _remove_classorigin c)
               = cls_superclass c
            /\ NocaseDict.keys
                 (cls_properties
                    (if truthy_flag ico then c else _remove_classorigin c))
               = NocaseDict.keys (cls_properties c)) as Hico.
  { intros c. destruct (truthy_flag ico); [done|].
    split; [done|]. split; [done|].
    exact (keys_map_values (prop_with_class_origin None) (cls_properties c)). }
  assert (forall (c : CIMClass),
            cls_classname (if truthy_flag iq then c else _remove_qualifiers c)
            = cls_classname c
            /\ cls_superclass
                 (if truthy_flag iq then c else _remove_qualifiers c)
               = cls_superclass c
            /\ NocaseDict.keys
                 (cls_properties
                    (if truthy_flag iq then c else _remove_qualifiers c))
               = NocaseDict.keys (cls_properties c)) as Hiq.
  { intros c. destruct (truthy_flag iq); [done|].
    split; [done|]. split; [done|].
    exact (keys_map_values (prop_with_qualifiers NocaseDict.empty)
             (cls_properties c)). }
  assert (forall (c : CIMClass),
            cls_classname (_filter_properties c pl) = cls_classname c
            /\ cls_superclass (_filter_properties c pl) = cls_superclass c
            /\ NocaseDict.keys (cls_properties (_filter_properties c pl))
               = List.filter
                   (fun name =>
                      match pl with
                      | Some pl =>
                          str_in (PyStr.lower name) (map PyStr.lower pl)
                      | None => true
                      end)
                   (NocaseDict.keys (cls_properties c))) as Hpl.
  { intros c. destruct pl as [pl|].
    - split; [done|]. split; [done|].
      exact (keys_filter_keys _ (cls_properties c)).
    - split; [done|]. split; [done|].
      by rewrite filter_all. }
  match goal with
  | |- cls_classname ?x = _ /\ _ =>
      match x with
      | (if _ then ?y else _) =>
          destruct (Hico y) as (-> & -> & ->);
          match y with
          | (if _ then ?z else _) =>
              destruct (Hiq z) as (-> & -> & ->);
              match z with
              | _filter_properties ?w _ =>
                  destruct (Hpl w) as (-> & -> & ->)
              end
          end
      end
  end.
  destruct (truthy_flag lo); cbn [cls_classname cls_superclass cls_properties
                                  andb].
  - done.
  - by rewrite (filter_all (fun _ => negb false)).
Qed.

Lemma forallb_map_true {A B} (f : A -> B) (p : B -> bool) (l : list A) :
  (forall x, p (f x) = true) -> forallb p (map f l) = true.
Proof.
  intros H. induction l as [|x l IH]; [done|]. cbn. by rewrite H, IH.
Qed.

Lemma forallb_map {A B} (f : A -> B) (p : B -> bool) (l : list A) :
  forallb p (map f l) = forallb (fun x => p (f x)) l.
Proof. induction l as [|x l IH]; [done|]. cbn. by rewrite IH. Qed.

Lemma _remove_qualifiers_none (c : CIMClass) :
  carries_no_qualifier (_remove_qualifiers c) = true.
Proof.
  unfold carries_no_qualifier.
  change (cls_qualifiers (_remove_qualifiers c)) with (@nil (string * CIMValue)).
  change (cls_properties (_remove_qualifiers c))
    with (NocaseDict.map_values (prop_with_qualifiers NocaseDict.empty)
            (cls_properties c)).
  change (cls_methods (_remove_qualifiers c))
    with (NocaseDict.map_values
            (fun m =>
               mkCIMMethod (meth_name m) (meth_return_type m)
                 (NocaseDict.map_values
                    (fun p => mkCIMParameter (param_name p) (param_type p)
                                NocaseDict.empty)
                    (meth_parameters m))
                 NocaseDict.empty (meth_class_origin m) (meth_propagated m))
            (cls_methods c)).
  rewrite !values_map_values. cbn [is_empty_dict andb].
  rewrite forallb_map_true by done. cbn [andb].
  apply forallb_map_true. intros m. cbn [meth_qualifiers meth_parameters].
  rewrite values_map_values. by apply forallb_map_true.
Qed.

Lemma _remove_classorigin_keeps_qualifiers (c : CIMClass) :
  carries_no_qualifier (_remove_classorigin c) = carries_no_qualifier c.
Proof.
  unfold carries_no_qualifier.
  change (cls_qualifiers (_remove_classorigin c)) with (cls_qualifiers c).
  change (cls_properties (_remove_classorigin c))
    with (NocaseDict.map_values (prop_with_class_origin None)
            (cls_properties c)).
  change (cls_methods (_remove_classorigin c))
    with (NocaseDict.map_values
            (fun m =>
               mkCIMMethod (meth_name m) (meth_return_type m)
                 (meth_parameters m) (meth_qualifiers m) None
                 (meth_propagated m))
            (cls_methods c)).
  by rewrite !values_map_values, !forallb_map.
Qed.

Lemma _remove_classorigin_none (c : CIMClass) :
  carries_no_class_origin (_remove_classorigin c) = true.
Proof.
  unfold carries_no_class_origin.
  change (cls_properties (_remove_classorigin c))
    with (NocaseDict.map_values (prop_with_class_origin None)
            (cls_properties c)).
  change (cls_methods (_remove_classorigin c))
    with (NocaseDict.map_values
            (fun m =>
               mkCIMMethod (meth_name m) (meth_return_type m)
                 (meth_parameters m) (meth_qualifiers m) None
                 (meth_propagated m))
            (cls_methods c)).
  rewrite !values_map_values, !forallb_map_true; done.
Qed.

Lemma Ok_inj {A} (a b : A) : Ok a = Ok b -> a = b.
Proof. by intros [= ->]. Qed.

Lemma _get_class_stripped self namespace classname lo iq ico pl cc :
  _get_class self namespace classname lo iq ico pl = Ok cc ->
  (truthy_flag iq = false -> carries_no_qualifier cc = true)
  /\ (truthy_flag ico = false -> carries_no_class_origin cc = true).
Proof.
  unfold _get_class.
  destruct (get_class_store self namespace) as [cs|]; [|done].
  cbn [mbind result_bind].
  destruct (ObjectStore.get class_key_eqb classname cs) as [cls|e];
    cbn [translate mbind result_bind]; [|by destruct (bool_decide _)].
  intros Hcc%Ok_inj. subst cc.
  destruct (truthy_flag iq), (truthy_flag ico);
    (split; [intros Hq|intros Ho]); try discriminate.
  - apply _remove_classorigin_none.
  - apply _remove_qualifiers_none.
  - rewrite _remove_classorigin_keeps_qualifiers.
    apply _remove_qualifiers_none.
  - apply _remove_classorigin_none.
Qed.

Lemma GetClass_get_class self namespace ClassName lo iq ico pl :
  GetClass self namespace ClassName lo iq ico pl
  = _get_class self namespace ClassName lo iq ico pl.
Proof.
  unfold GetClass, _get_class, get_class_store.
  rewrite validate_namespace_lookup, get_stores_cases.
  by destruct (Datastore.lookup namespace (datastore self)).
Qed.

(** X9.  [GetClass] raises [CIM_ERR_INVALID_NAMESPACE] for an unknown
    namespace and [CIM_ERR_NOT_FOUND] for a class that is not stored under
    any casing of the name.  Otherwise it returns a copy of the stored
    class under its stored name and superclass.  The names of its
    properties are those of the stored class, in their stored order,
    without the propagated ones when [LocalOnly] is true, and restricted to
    the names that [PropertyList], when given, lists under some casing (so
    none for an empty list).  Unless [IncludeQualifiers] is true the copy
    carries no qualifier on the class, its properties, methods and
    parameters; unless [IncludeClassOrigin] is true no property or method
    names its class of origin.  A flag that is not given counts as
    false. *)
Theorem X9_GetClass self namespace ClassName lo iq ico pl :
  match GetClass self namespace ClassName lo iq ico pl with
  | Raise e =>
      Datastore.lookup namespace (datastore self) = None
      /\ e = CIMError CIM_ERR_INVALID_NAMESPACE
      \/ (exists st,
            Datastore.lookup namespace (datastore self) = Some st
            /\ ObjectStore.exists_ class_key_eqb ClassName (ns_classes st)
               = false)
         /\ e = CIMError CIM_ERR_NOT_FOUND
  | Ok cc =>
      exists st cls,
        Datastore.lookup namespace (datastore self) = Some st
        /\ ObjectStore.get class_key_eqb ClassName (ns_classes st) = Ok cls
        /\ cls_classname cc = cls_classname cls
        /\ cls_superclass cc = cls_superclass cls
        /\ NocaseDict.keys (cls_properties cc)
           = List.filter
               (fun name =>
                  match pl with
                  | Some pl => str_in (PyStr.lower name) (map PyStr.lower pl)
                  | None => true
                  end)
               (NocaseDict.keys
                  (List.filter
                     (fun e => negb (truthy_flag lo
                                     && truthy_flag (prop_propagated (snd e))))
                     (cls_properties cls)))
        /\ (truthy_flag iq = false -> carries_no_qualifier cc = true)
        /\ (truthy_flag ico = false -> carries_no_class_origin cc = true)
  end.
Proof.
  rewrite GetClass_get_class.
  pose proof (_get_class_cases self namespace ClassName lo iq ico pl) as Hc.
  pose proof (_get_class_stripped self namespace ClassName lo iq ico pl) as Hs.
  destruct (_get_class self namespace ClassName lo iq ico pl) as [cc|e];
    [|done].
  destruct Hc as (st & cls & Hl & Hget & Hn & Hsup & Hkeys).
  destruct (Hs cc eq_refl) as [Hq Ho].
  by exists st, cls.
Qed.

Lemma lookup_elem namespace ds st :
  Datastore.lookup namespace ds = Some st -> exists k, (k, st) ∈ ds.
Proof.
  unfold Datastore.lookup, NocaseDict.get.
  destruct (List.find _ ds) as [[k st']|] eqn:Hf; [|done].
  intros [= <-]. apply find_some in Hf as [Hin _].
  exists k. by apply list_elem_of_In.
Qed.

Lemma repository_ok_lookup self namespace st :
  repository_ok self ->
  Datastore.lookup namespace (datastore self) = Some st -> stores_ok st.
Proof.
  intros Hok [k Hin]%lookup_elem. unfold repository_ok in Hok.
  rewrite Forall_forall in Hok. exact (Hok _ Hin).
Qed.

Lemma get_class_store_Ok self namespace cs :
  get_class_store self namespace = Ok cs ->
  exists st, Datastore.lookup namespace (datastore self) = Some st
             /\ ns_classes st = cs.
Proof.
  unfold get_class_store. rewrite get_stores_cases.
  destruct (Datastore.lookup _ _) as [st|]; [|done].
  intros [= <-]. by exists st.
Qed.

Lemma get_instance_store_Ok self namespace insts :
  get_instance_store self namespace = Ok insts ->
  exists st, Datastore.lookup namespace (datastore self) = Some st
             /\ ns_instances st = insts.
Proof.
  unfold get_instance_store. rewrite get_stores_cases.
  destruct (Datastore.lookup _ _) as [st|]; [|done].
  intros [= <-]. by exists st.
Qed.

(** Every name that a subclass walk returns is the name of a stored
    class. *)
Lemma walk_names_stored depth cn cs di l x :
  _get_subclass_names depth cn cs di = Ok l -> x ∈ l ->
  exists c, c ∈ ObjectStore.iter_values cs /\ cls_classname c = x.
Proof.
  revert cn l x. induction depth as [|depth IH]; intros cn l x; [done|].
  cbn [_get_subclass_names].
  assert (forall y, y ∈ next_level cn cs ->
            exists c, c ∈ ObjectStore.iter_values cs /\ cls_classname c = y)
    as Hlevel.
  { intros y Hy. unfold next_level in Hy.
    destruct cn as [cn|];
      apply list_elem_of_fmap in Hy as (c & -> & Hc);
      apply list_elem_of_In, filter_In in Hc as [Hc _];
      exists c; split; try done; by apply list_elem_of_In. }
  destruct (truthy_flag di).
  - destruct (mapM _ (next_level cn cs)) as [subs|] eqn:Hsubs; [|done].
    cbn [mbind result_bind]. intros [= <-] [Hx|Hx]%elem_of_app.
    + by apply Hlevel.
    + apply elem_of_concat in Hx as (k & Hx & Hk).
      apply mapM_Ok in Hsubs.
      apply list_elem_of_lookup in Hk as [i Hi].
      destruct (Forall2_lookup_r _ _ _ _ _ Hsubs Hi) as (ci & Hci & Hw).
      by eapply IH.
  - intros [= <-]. apply Hlevel.
Qed.

Lemma get_stored_class cs c :
  class_store_ok cs = true -> c ∈ ObjectStore.iter_values cs ->
  ObjectStore.get class_key_eqb (cls_classname c) cs = Ok c.
Proof.
  intros Hok Hc.
  assert (ObjectStore.exists_ class_key_eqb (cls_classname c) cs = true)
    as Hex.
  { apply exists_elem. unfold ObjectStore.iter_values in Hc.
    apply list_elem_of_fmap in Hc as (e & -> & He). exists e.
    split; [done|]. rewrite (stored_under_name cs Hok e He).
    apply eqb_nocase_refl. }
  destruct (exists_get _ _ _ Hex) as [c' Hget]. rewrite Hget. f_equal.
  unfold ObjectStore.get in Hget.
  destruct (List.find _ cs) as [e|] eqn:Hf; [|done].
  injection Hget as <-. apply find_some in Hf as [Hin Hm].
  apply list_elem_of_In in Hin.
  apply (class_by_name cs Hok); try done.
  - unfold ObjectStore.iter_values. apply list_elem_of_fmap. by exists e.
  - unfold ObjectStore.matches, class_key_eqb in Hm.
    apply eqb_nocase_eq in Hm.
    by rewrite <- (stored_under_name cs Hok e Hin).
Qed.

Lemma _get_class_stored self namespace st c lo iq ico pl :
  Datastore.lookup namespace (datastore self) = Some st ->
  class_store_ok (ns_classes st) = true ->
  c ∈ ObjectStore.iter_values (ns_classes st) ->
  exists cc,
    _get_class self namespace (cls_classname c) lo iq ico pl = Ok cc
    /\ cls_classname cc = cls_classname c.
Proof.
  intros Hl Hok Hc.
  pose proof (_get_class_cases self namespace (cls_classname c) lo iq ico pl)
    as Hcases.
  pose proof (get_stored_class _ _ Hok Hc) as Hget.
  destruct (_get_class _ _ _ _ _ _ _) as [cc|e].
  - destruct Hcases as (st' & cls & Hl' & Hget' & Hn & _).
    exists cc. split; [done|]. rewrite Hn. congruence.
  - destruct Hcases as [[Hl' _]|[(st' & Hl' & Hex) _]]; [congruence|].
    assert (st' = st) as -> by congruence.
    by rewrite (get_Ok_exists _ _ _ _ Hget) in Hex.
Qed.

Lemma mapM_ext_result {A B} (f g : A -> result B) (l : list A) :
  (forall x, f x = g x) -> mapM f l = mapM g l.
Proof.
  intros H. induction l as [|x l IH]; [done|]. cbn. by rewrite H, IH.
Qed.

(** C7.  Without [DeepInheritance] ([None]), [EnumerateInstances] does what
    it does for [True], and [EnumerateClasses] and [EnumerateClassNames] do
    what they do for [False].  So [EnumerateClassNames] returns only the
    direct subclasses of the named class, or only the top-level classes when
    no class is named; [EnumerateClasses] returns, in the same order, the
    copies that [_get_class] shapes of exactly those classes, under their
    names; and [EnumerateInstances] returns the stored instances of the
    named class and of all its direct and indirect subclasses. *)
Theorem C7_default_DeepInheritance :
  (forall self namespace ClassName lo iq ico pl,
     EnumerateInstances self namespace ClassName lo None iq ico pl
     = EnumerateInstances self namespace ClassName lo (Some true) iq ico pl)
  /\ (forall self namespace ClassName lo iq ico,
        EnumerateClasses self namespace ClassName None lo iq ico
        = EnumerateClasses self namespace ClassName (Some false) lo iq ico)
  /\ (forall self namespace ClassName,
        EnumerateClassNames self namespace ClassName None
        = EnumerateClassNames self namespace ClassName (Some false))
  /\ (forall self namespace st ClassName,
        Datastore.lookup namespace (datastore self) = Some st ->
        0 < recursion_limit ->
        check_ClassName ClassName (ns_classes st) = Ok tt ->
        EnumerateClassNames self namespace ClassName None
        = Ok (map cls_classname
                (List.filter
                   (match ClassName with
                    | Some cn => is_direct_subclass cn
                    | None => is_root_class
                    end)
                   (ObjectStore.iter_values (ns_classes st)))))
  /\ (forall self namespace st ClassName lo iq ico,
        Datastore.lookup namespace (datastore self) = Some st ->
        0 < recursion_limit ->
        check_ClassName ClassName (ns_classes st) = Ok tt ->
        class_store_ok (ns_classes st) = true ->
        let level :=
          List.filter
            (match ClassName with
             | Some cn => is_direct_subclass cn
             | None => is_root_class
             end)
            (ObjectStore.iter_values (ns_classes st)) in
        exists classes,
          EnumerateClasses self namespace ClassName None lo iq ico
          = Ok classes
          /\ map cls_classname classes = map cls_classname level
          /\ Forall2
               (fun c cc =>
                  _get_class self namespace (cls_classname c) lo iq ico None
                  = Ok cc)
               level classes)
  /\ (forall self namespace st ClassName lo iq ico pl h,
        Datastore.lookup namespace (datastore self) = Some st ->
        let cs := ns_classes st in
        ObjectStore.exists_ class_key_eqb ClassName cs = true ->
        class_store_ok cs = true ->
        forallb (fun e => bool_decide (inst_path (snd e) = Some (fst e)))
          (ns_instances st) = true ->
        heights_decrease h cs = true ->
        h (PyStr.lower ClassName) < recursion_limit ->
        exists subclasses insts,
          _get_subclass_names recursion_limit (Some ClassName) cs (Some true)
          = Ok subclasses
          /\ (forall c, c ∈ ObjectStore.iter_values cs ->
                        cls_classname c ∈ subclasses
                        <-> descends cs ClassName c)
          /\ EnumerateInstances self namespace ClassName lo None iq ico pl
             = Ok insts
          /\ Forall2
               (fun e inst =>
                  _get_instance self namespace (fst e) (ns_instances st) pl
                    None ico iq = Ok inst)
               (List.filter
                  (fun e => in_names (path_classname (fst e))
                              (subclasses ++ [ClassName]))
                  (ns_instances st))
               insts).
Proof.
  split; [done|]. split.
  { intros. unfold EnumerateClasses.
    destruct (validate_namespace self namespace); [|done].
    destruct (get_class_store self namespace) as [cs|]; [|done].
    cbn [mbind result_bind].
    destruct (check_ClassName ClassName cs); [|done].
    cbn [mbind result_bind]. by rewrite !subclass_names_shallow. }
  split.
  { intros. unfold EnumerateClassNames.
    destruct (validate_namespace self namespace); [|done].
    destruct (get_class_store self namespace) as [cs|]; [|done].
    cbn [mbind result_bind].
    destruct (check_ClassName ClassName cs); [|done].
    cbn [mbind result_bind]. by rewrite !subclass_names_shallow. }
  split; [|split].
  - intros self namespace st ClassName Hl Hrl Hcheck.
    unfold EnumerateClassNames, get_class_store.
    rewrite (get_stores_lookup _ _ _ Hl).
    assert (validate_namespace self namespace = Ok tt) as ->.
    { unfold validate_namespace, Datastore.validate_namespace.
      by rewrite Hl. }
    cbn [mbind result_bind fmap result_fmap]. rewrite Hcheck.
    cbn [mbind result_bind]. rewrite subclass_names_shallow by done.
    destruct recursion_limit; [lia|]. by destruct ClassName.
  - intros self namespace st ClassName lo iq ico Hl Hrl Hcheck Hcs level.
    unfold EnumerateClasses, get_class_store.
    rewrite (get_stores_lookup _ _ _ Hl).
    assert (validate_namespace self namespace = Ok tt) as ->.
    { unfold validate_namespace, Datastore.validate_namespace.
      by rewrite Hl. }
    cbn [mbind result_bind fmap result_fmap]. rewrite Hcheck.
    cbn [mbind result_bind]. rewrite subclass_names_shallow by done.
    assert (match recursion_limit with
            | 0 => Raise RecursionError
            | S _ => Ok (next_level ClassName (ns_classes st))
            end = Ok (map cls_classname level)) as ->.
    { destruct recursion_limit; [lia|]. by destruct ClassName. }
    cbn [mbind result_bind].
    assert (forall c, c ∈ level ->
                      c ∈ ObjectStore.iter_values (ns_classes st)) as Hsub.
    { intros c Hc. apply list_elem_of_In, filter_In in Hc as [Hc _].
      by apply list_elem_of_In. }
    clearbody level. induction level as [|c level IH].
    { exists []. by repeat split. }
    destruct IH as (classes & Hrest & Hnames & Hall).
    { intros c' Hc'. apply Hsub. by right. }
    destruct (_get_class_stored self namespace st c lo iq ico None Hl Hcs)
      as (cc & Hcc & Hn); [apply Hsub; by left|].
    exists (cc :: classes). cbn [map mapM]. rewrite Hcc, Hrest.
    cbn [mbind result_bind mret result_ret]. split; [done|].
    split; [by rewrite Hn, Hnames|]. by constructor.
  - intros self namespace st ClassName lo iq ico pl h Hl cs Hex Hcs Hpaths
      Hh Hlimit.
    destruct (walk_terminates cs h Hh _ _ Hlimit) as [subs Hwalk].
    destruct (subclass_list_for_enums_spec ClassName namespace cs subs
                Hex Hwalk) as (clns & Hclns & Hc).
    destruct (comprehension_instances
                (fun p => NocaseDict.contains (path_classname p) clns)
                (fun p => _get_instance self namespace p (ns_instances st)
                            pl None ico iq)
                (ns_instances st) Hpaths) as (insts & Hcomp & Hall).
    { intros e He. by apply _get_instance_stored. }
    exists subs, insts. split; [done|]. split; [|split].
    + intros c Hin. split.
      * intros Hx.
        destruct (walk_elements _ _ _ _ _ Hwalk Hx) as (c' & E & Hd).
        assert (c' = c) as <-; [|done].
        apply (class_by_name cs Hcs); try done.
        { by eapply descends_stored. }
        by rewrite E.
      * intros Hd. by eapply walk_complete.
    + unfold EnumerateInstances, get_instance_store, get_class_store,
        _get_class, get_class_store.
      rewrite (get_stores_lookup _ _ _ Hl).
      cbn [mbind result_bind fmap result_fmap]. fold cs.
      destruct (exists_get class_key_eqb _ _ Hex) as [cl ->].
      cbn [translate mbind result_bind DEFAULT_DEEP_INHERITANCE negb].
      rewrite Hclns. cbn [mbind result_bind]. exact Hcomp.
    + erewrite filter_ext; [exact Hall|]. intros e. cbn beta. by rewrite Hc.
Qed.

(** X10.  [EnumerateClasses] is [EnumerateClassNames] followed by one
    [GetClass] per name, without a property list.  On a well-formed
    repository these lookups cannot fail and return each class under the
    name that was enumerated: the two enumerations raise the same errors,
    and the names of the classes that [EnumerateClasses] returns are the
    names that [EnumerateClassNames] returns, in the same order. *)
Theorem X10_EnumerateClasses_by_name self namespace ClassName di lo iq ico :
  repository_ok self ->
  EnumerateClasses self namespace ClassName di lo iq ico
  = (names ← EnumerateClassNames self namespace ClassName di;
     mapM (fun cln => GetClass self namespace cln lo iq ico None) names)
  /\ map cls_classname
       <$> EnumerateClasses self namespace ClassName di lo iq ico
     = EnumerateClassNames self namespace ClassName di.
Proof.
  intros Hok. unfold EnumerateClasses, EnumerateClassNames.
  destruct (validate_namespace self namespace) as [[]|]; [|done].
  cbn [mbind result_bind].
  destruct (get_class_store self namespace) as [cs|] eqn:Hcs; [|done].
  cbn [mbind result_bind].
  destruct (check_ClassName ClassName cs) as [[]|]; [|done].
  cbn [mbind result_bind].
  destruct (_get_subclass_names recursion_limit ClassName cs di)
    as [clns|] eqn:Hwalk; [|done].
  cbn [mbind result_bind]. split.
  { apply mapM_ext_result. intros cln. by rewrite GetClass_get_class. }
  apply get_class_store_Ok in Hcs as (st & Hl & <-).
  destruct (repository_ok_lookup _ _ _ Hok Hl) as (Hcsok & _).
  assert (forall x, x ∈ clns ->
            exists c, c ∈ ObjectStore.iter_values (ns_classes st)
                      /\ cls_classname c = x) as Hstored
    by (intros x Hx; by eapply walk_names_stored).
  clear Hwalk. induction clns as [|x clns IH]; [done|].
  destruct (Hstored x) as (c & Hc & <-); [by left|].
  destruct (_get_class_stored self namespace st c lo iq ico None Hl Hcsok Hc)
    as (cc & Hcc & Hn).
  cbn [mapM]. rewrite Hcc. cbn [mbind result_bind].
  destruct (mapM _ clns) as [classes|] eqn:Hrest.
  - cbn [mbind result_bind mret result_ret fmap result_fmap map].
    rewrite Hn. f_equal. f_equal.
    assert (map cls_classname <$> Ok classes = Ok clns) as Hr.
    { apply IH. intros y Hy. apply Hstored. by right. }
    by injection Hr.
  - exfalso.
    assert (map cls_classname <$> @Raise (list CIMClass) e = Ok clns) as Hr.
    { apply IH. intros y Hy. apply Hstored. by right. }
    done.
Qed.

(** ** The two walks over the class hierarchy *)

Lemma superclass_walk_nocase steps a b cs :
  PyStr.lower a = PyStr.lower b ->
  superclass_walk steps a cs = superclass_walk steps b cs.
Proof.
  intros Hab. destruct steps as [|steps]; [done|]. cbn [superclass_walk].
  by rewrite (get_key_ext class_key_eqb eqb_nocase_trans_l eqb_nocase_sym a b)
    by (by apply eqb_nocase_eq).
Qed.

Lemma stored_parent cs c sup :
  class_store_ok cs = true -> superclasses_stored cs = true ->
  c ∈ ObjectStore.iter_values cs ->
  cls_superclass c = Some sup -> PyStr.truthy (Some sup) = true ->
  exists p, p ∈ ObjectStore.iter_values cs
            /\ PyStr.lower (cls_classname p) = PyStr.lower sup.
Proof.
  intros Hok Hsup Hc Hs Ht. unfold superclasses_stored in Hsup.
  rewrite forallb_forall in Hsup. unfold ObjectStore.iter_values in Hc.
  apply list_elem_of_fmap in Hc as (e & -> & He).
  specialize (Hsup e (proj1 (list_elem_of_In _ _) He)).
  rewrite Hs, Ht in Hsup.
  apply exists_elem in Hsup as (e' & He' & Hk). exists (snd e'). split.
  - unfold ObjectStore.iter_values. apply list_elem_of_fmap. by exists e'.
  - rewrite <- (stored_under_name cs Hok e' He'). by apply eqb_nocase_eq.
Qed.

Lemma descends_of_root cs dn c :
  (forall sup, cls_superclass c = Some sup -> PyStr.truthy (Some sup) = false) ->
  ~ descends cs dn c.
Proof.
  intros Hroot Hd.
  assert (exists cn, is_direct_subclass cn c = true) as [cn Hcn]
    by (destruct Hd; by eexists).
  apply is_direct_subclass_spec in Hcn as (sup & Hs & Ht & _).
  by rewrite (Hroot sup Hs) in Ht.
Qed.

Lemma descends_through_parent cs c p sup d :
  class_store_ok cs = true ->
  c ∈ ObjectStore.iter_values cs -> p ∈ ObjectStore.iter_values cs ->
  d ∈ ObjectStore.iter_values cs ->
  cls_superclass c = Some sup -> PyStr.truthy (Some sup) = true ->
  PyStr.lower (cls_classname p) = PyStr.lower sup ->
  descends cs (cls_classname d) c
  <-> d = p \/ descends cs (cls_classname d) p.
Proof.
  intros Hok Hc Hp Hd Hs Ht Hpn.
  assert (is_direct_subclass (cls_classname p) c = true) as Hchild.
  { apply is_direct_subclass_spec. by exists sup. }
  split.
  - intros Hdesc. inversion Hdesc as [c' _ Hdir|d' c' Hd' _ Hdir]; subst.
    + left. apply (class_by_name cs Hok); try done.
      apply is_direct_subclass_spec in Hdir as (sup' & Hs' & _ & Hn).
      congruence.
    + right. assert (d' = p) as ->; [|done].
      apply (class_by_name cs Hok); try done.
      { by eapply descends_stored. }
      apply is_direct_subclass_spec in Hdir as (sup' & Hs' & _ & Hn).
      congruence.
  - intros [->|Hdesc].
    + by apply descends_child.
    + by eapply descends_step.
Qed.

Lemma superclass_walk_spec cs h H :
  class_store_ok cs = true -> superclasses_stored cs = true ->
  heights_decrease h cs = true ->
  (forall e, e ∈ ObjectStore.iter_values cs ->
             h (PyStr.lower (cls_classname e)) <= H) ->
  forall steps c,
    c ∈ ObjectStore.iter_values cs ->
    H - h (PyStr.lower (cls_classname c)) < steps ->
    exists names,
      superclass_walk steps (cls_classname c) cs = Some (Ok names)
      /\ (forall sup, cls_superclass c = Some sup ->
                      PyStr.truthy (Some sup) = true ->
                      head names = Some sup)
      /\ forall d, d ∈ ObjectStore.iter_values cs ->
                   in_names (cls_classname d) names = true
                   <-> descends cs (cls_classname d) c.
Proof.
  intros Hok Hsup Hh HH steps.
  induction steps as [|steps IH]; intros c Hc Hsteps; [lia|].
  cbn [superclass_walk]. rewrite (get_stored_class _ _ Hok Hc).
  destruct (cls_superclass c) as [sup|] eqn:Hs.
  2:{ exists []. split; [done|]. split; [done|]. intros d Hd. split; [done|].
      intros Hdesc. exfalso. revert Hdesc. apply descends_of_root.
      intros sup. by rewrite Hs. }
  destruct (PyStr.truthy (Some sup)) eqn:Ht.
  2:{ exists []. split; [done|]. split; [intros ? [= <-]; congruence|].
      intros d Hd. split; [done|].
      intros Hdesc. exfalso. revert Hdesc. apply descends_of_root.
      intros sup'. rewrite Hs. by intros [= <-]. }
  destruct (stored_parent cs c sup Hok Hsup Hc Hs Ht) as (p & Hp & Hpn).
  assert (h (PyStr.lower (cls_classname c)) < h (PyStr.lower sup)) as Hlt.
  { apply (child_height cs h Hh); [done|].
    apply is_direct_subclass_spec. by exists sup. }
  destruct (IH p Hp) as (names & Hwalk & _ & Hnames).
  { specialize (HH p Hp). rewrite Hpn in *. lia. }
  rewrite <- (superclass_walk_nocase steps _ _ cs Hpn), Hwalk.
  cbn [mbind option_bind result_bind]. exists (sup :: names).
  split; [done|]. split; [by intros ? [= <-]|].
  intros d Hd.
  rewrite (descends_through_parent cs c p sup d Hok Hc Hp Hd Hs Ht Hpn).
  unfold in_names. cbn [existsb]. rewrite orb_true_iff.
  fold (in_names (cls_classname d) names). rewrite (Hnames d Hd).
  split; (intros [Heq|Hdesc]; [left|by right]).
  - apply eqb_nocase_eq in Heq. apply (class_by_name cs Hok); try done.
    congruence.
  - subst d. apply eqb_nocase_eq. done.
Qed.

Lemma in_names_rev x names : in_names x (rev names) = in_names x names.
Proof.
  unfold in_names. apply eq_true_iff_eq.
  rewrite !existsb_exists. split; intros (y & Hy & Hxy); exists y;
    (split; [|done]); by apply in_rev in Hy || apply in_rev.
Qed.

(** X11.  On a well-formed class store whose hierarchy has no cycle, the
    two walks agree.  [_get_superclass_names] for a stored class returns,
    from the top of the hierarchy down to the direct superclass, the names
    of exactly the classes that the class descends from; and a stored
    class [d] is named in that list if and only if the class is named in
    the deep [_get_subclass_names] of [d]. *)
Theorem X11_superclass_and_subclass_walks cs h H steps c d :
  class_store_ok cs = true -> superclasses_stored cs = true ->
  heights_decrease h cs = true ->
  (forall e, e ∈ ObjectStore.iter_values cs ->
             h (PyStr.lower (cls_classname e)) <= H) ->
  H < steps -> H < recursion_limit ->
  c ∈ ObjectStore.iter_values cs -> d ∈ ObjectStore.iter_values cs ->
  cls_classname c <> "" ->
  exists sups subs,
    _get_superclass_names steps (Some (cls_classname c)) cs = Some (Ok sups)
    /\ _get_subclass_names recursion_limit (Some (cls_classname d)) cs
         (Some true) = Ok subs
    /\ (forall sup, cls_superclass c = Some sup ->
                    PyStr.truthy (Some sup) = true -> last sups = Some sup)
    /\ (in_names (cls_classname d) sups = true
        <-> descends cs (cls_classname d) c)
    /\ (in_names (cls_classname d) sups = true
        <-> in_names (cls_classname c) subs = true).
Proof.
  intros Hok Hsup Hh HH Hsteps Hlimit Hc Hd Hname.
  destruct (superclass_walk_spec cs h H Hok Hsup Hh HH steps c Hc)
    as (names & Hwalk & Hhead & Hnames); [lia|].
  destruct (walk_terminates cs h Hh recursion_limit (cls_classname d))
    as [subs Hsubs].
  { specialize (HH d Hd). lia. }
  exists (rev names), subs. split.
  { unfold _get_superclass_names.
    assert (PyStr.truthy (Some (cls_classname c)) = true) as ->.
    { cbn. apply negb_true_iff, String.eqb_neq. done. }
    rewrite Hwalk. done. }
  split; [done|]. split.
  { intros sup Hs Ht. specialize (Hhead sup Hs Ht).
    destruct names as [|n names]; [done|]. injection Hhead as ->.
    cbn [rev]. apply last_snoc. }
  rewrite in_names_rev. split; [by apply Hnames|].
  rewrite (Hnames d Hd). split.
  - intros Hdesc. apply in_names_spec. exists (cls_classname c).
    split; [|done]. by eapply walk_complete.
  - intros (y & Hy & Hcy)%in_names_spec.
    destruct (walk_elements _ _ _ _ _ Hsubs Hy) as (c' & <- & Hdesc).
    assert (c' = c) as ->; [|done].
    apply (class_by_name cs Hok); try done. by eapply descends_stored.
Qed.

(** ** CreateClass *)

Lemma _get_class_ext self self' namespace namespace' classname classname'
    cs cs' lo iq ico pl :
  get_class_store self namespace = Ok cs ->
  get_class_store self' namespace' = Ok cs' ->
  ObjectStore.get class_key_eqb classname cs
  = ObjectStore.get class_key_eqb classname' cs' ->
  _get_class self namespace classname lo iq ico pl
  = _get_class self' namespace' classname' lo iq ico pl.
Proof.
  intros Hcs Hcs' Hget. unfold _get_class. rewrite Hcs, Hcs'.
  cbn [mbind result_bind]. by rewrite Hget.
Qed.

(** X12.  [CreateClass] never overwrites a class: when [GetClass] finds a
    class under some casing of the new class's name, [CreateClass] raises
    [CIM_ERR_ALREADY_EXISTS] and changes nothing, before the new class is
    resolved; in an unknown namespace it raises
    [CIM_ERR_INVALID_NAMESPACE].  When it returns, the class as resolved
    has been added: [GetClass] with qualifiers and class origins returns
    it, every class that [GetClass] found before is found unchanged, and
    instances and qualifier declarations are untouched. *)
Theorem X12_CreateClass self namespace NewClass :
  (forall name lo iq ico pl cc,
     PyStr.lower name = PyStr.lower (cls_classname NewClass) ->
     GetClass self namespace name lo iq ico pl = Ok cc ->
     CreateClass self namespace NewClass
     = (Raise (CIMError CIM_ERR_ALREADY_EXISTS), self))
  /\ (Datastore.lookup namespace (datastore self) = None ->
      CreateClass self namespace NewClass
      = (Raise (CIMError CIM_ERR_INVALID_NAMESPACE), self))
  /\ (forall self',
        CreateClass self namespace NewClass = (Ok tt, self') ->
        exists st new_class,
          Datastore.lookup namespace (datastore self) = Some st
          /\ _resolve_class self NewClass namespace (ns_qualifiers st)
             = Ok new_class
          /\ GetClass self' namespace (cls_classname new_class) None
               (Some true) (Some true) None = Ok new_class
          /\ (forall name lo iq ico pl cc,
                GetClass self namespace name lo iq ico pl = Ok cc ->
                GetClass self' namespace name lo iq ico pl = Ok cc)
          /\ get_instance_store self' namespace
             = get_instance_store self namespace
          /\ get_qualifier_store self' namespace
             = get_qualifier_store self namespace
          /\ enumeration_contexts self' = enumeration_contexts self).
Proof.
  unfold CreateClass. rewrite validate_namespace_lookup.
  unfold get_class_store, get_qualifier_store. rewrite get_stores_cases.
  destruct (Datastore.lookup namespace (datastore self)) as [st|] eqn:Hl.
  2:{ split; [|done]. intros name lo iq ico pl cc _.
      rewrite GetClass_get_class.
      pose proof (_get_class_cases self namespace name lo iq ico pl) as Hc.
      destruct (_get_class _ _ _ _ _ _ _); [|done].
      destruct Hc as (st & cls & Hl' & _). congruence. }
  cbn [fmap result_fmap]. split; [|split; [done|]].
  - intros name lo iq ico pl cc Hname. rewrite GetClass_get_class.
    pose proof (_get_class_cases self namespace name lo iq ico pl) as Hc.
    destruct (_get_class _ _ _ _ _ _ _); [|done].
    destruct Hc as (st' & cls & Hl' & Hget & _).
    assert (st' = st) as -> by congruence.
    apply get_Ok_exists in Hget.
    rewrite (exists_key_ext class_key_eqb eqb_nocase_trans_l eqb_nocase_sym
               name (cls_classname NewClass)) in Hget
      by (by apply eqb_nocase_eq).
    by rewrite Hget.
  - intros self'.
    destruct (ObjectStore.exists_ class_key_eqb (cls_classname NewClass)
                (ns_classes st)); [done|].
    destruct (_resolve_class self NewClass namespace (ns_qualifiers st))
      as [new_class|] eqn:Hres; [|done].
    destruct (ObjectStore.create class_key_eqb (cls_classname new_class)
                new_class (ns_classes st)) as [cs'|] eqn:Hcreate; [|done].
    intros [= <-]. exists st, new_class. split; [done|]. split; [done|].
    assert (ObjectStore.get class_key_eqb (cls_classname new_class) cs'
            = Ok new_class) as Hnew.
    { rewrite (get_create class_key_eqb eqb_nocase_trans_l eqb_nocase_sym
                 _ _ _ _ (cls_classname new_class) Hcreate).
      change (class_key_eqb (cls_classname new_class)
                (cls_classname new_class))
        with (PyStr.eqb_nocase (cls_classname new_class)
                (cls_classname new_class)).
      by rewrite eqb_nocase_refl. }
    assert (forall namespace',
              get_stores (put_class_store namespace cs' self) namespace'
              = if bool_decide (same_namespace namespace' namespace)
                then Ok (mkNamespaceStores cs' (ns_instances st)
                           (ns_qualifiers st))
                else get_stores self namespace') as Hput
      by (intros; by apply get_stores_put_class_store).
    assert (get_class_store (put_class_store namespace cs' self) namespace
            = Ok cs') as Hcs'.
    { unfold get_class_store. by rewrite Hput, bool_decide_eq_true_2. }
    split.
    { rewrite GetClass_get_class. unfold _get_class. rewrite Hcs'.
      cbn [mbind result_bind]. rewrite Hnew. cbn [translate mbind result_bind].
      by destruct new_class. }
    split.
    { intros name lo iq ico pl cc. rewrite !GetClass_get_class.
      intros Hcc. rewrite <- Hcc. symmetry.
      apply (_get_class_ext _ _ _ _ _ _ (ns_classes st) cs'); try done.
      { unfold get_class_store. by rewrite (get_stores_lookup _ _ _ Hl). }
      rewrite (get_create class_key_eqb eqb_nocase_trans_l eqb_nocase_sym
                 _ _ _ _ name Hcreate).
      destruct (class_key_eqb (cls_classname new_class) name) eqn:Hk; [|done].
      exfalso.
      pose proof (_get_class_cases self namespace name lo iq ico pl) as Hc.
      rewrite Hcc in Hc. destruct Hc as (st' & cls & Hl' & Hget & _).
      assert (st' = st) as -> by congruence.
      apply get_Ok_exists in Hget.
      rewrite <- (exists_key_ext class_key_eqb eqb_nocase_trans_l
                    eqb_nocase_sym _ _ _ Hk) in Hget.
      unfold ObjectStore.create in Hcreate. by rewrite Hget in Hcreate. }
    split.
    { unfold get_instance_store.
      by rewrite Hput, bool_decide_eq_true_2, (get_stores_lookup _ _ _ Hl). }
    split.
    { by rewrite Hput, bool_decide_eq_true_2. }
    unfold put_class_store. by rewrite Hl.
Qed.

(** ** Error codes *)

Lemma get_class_store_None self namespace :
  Datastore.lookup namespace (datastore self) = None ->
  get_class_store self namespace = Raise (CIMError CIM_ERR_INVALID_NAMESPACE).
Proof. intros H. unfold get_class_store. by rewrite get_stores_None. Qed.

Lemma get_instance_store_None self namespace :
  Datastore.lookup namespace (datastore self) = None ->
  get_instance_store self namespace
  = Raise (CIMError CIM_ERR_INVALID_NAMESPACE).
Proof. intros H. unfold get_instance_store. by rewrite get_stores_None. Qed.

Lemma get_qualifier_store_None self namespace :
  Datastore.lookup namespace (datastore self) = None ->
  get_qualifier_store self namespace
  = Raise (CIMError CIM_ERR_INVALID_NAMESPACE).
Proof. intros H. unfold get_qualifier_store. by rewrite get_stores_None. Qed.

Lemma validate_namespace_None self namespace :
  Datastore.lookup namespace (datastore self) = None ->
  validate_namespace self namespace
  = Raise (CIMError CIM_ERR_INVALID_NAMESPACE).
Proof. intros H. by rewrite validate_namespace_lookup, H. Qed.

(** X13.  Every repository request that names a namespace which is not in
    the datastore raises [CIM_ERR_INVALID_NAMESPACE], whatever its other
    arguments are, and the requests that write leave the provider
    unchanged. *)
Theorem X13_unknown_namespace self namespace :
  Datastore.lookup namespace (datastore self) = None ->
  (forall cn di lo iq ico,
     EnumerateClasses self namespace cn di lo iq ico
     = Raise (CIMError CIM_ERR_INVALID_NAMESPACE))
  /\ (forall cn di,
        EnumerateClassNames self namespace cn di
        = Raise (CIMError CIM_ERR_INVALID_NAMESPACE))
  /\ (forall cn lo iq ico pl,
        GetClass self namespace cn lo iq ico pl
        = Raise (CIMError CIM_ERR_INVALID_NAMESPACE))
  /\ (forall c,
        CreateClass self namespace c
        = (Raise (CIMError CIM_ERR_INVALID_NAMESPACE), self))
  /\ (forall c,
        ModifyClass self namespace c
        = Raise (CIMError CIM_ERR_INVALID_NAMESPACE))
  /\ (forall cn,
        DeleteClass self namespace cn
        = (Raise (CIMError CIM_ERR_INVALID_NAMESPACE), self))
  /\ EnumerateQualifiers self namespace
     = Raise (CIMError CIM_ERR_INVALID_NAMESPACE)
  /\ (forall name,
        GetQualifier self namespace name
        = Raise (CIMError CIM_ERR_INVALID_NAMESPACE))
  /\ (forall q,
        SetQualifier self namespace q
        = (Raise (CIMError CIM_ERR_INVALID_NAMESPACE), self))
  /\ (forall name,
        DeleteQualifier self namespace name
        = (Raise (CIMError CIM_ERR_INVALID_NAMESPACE), self))
  /\ (forall inst,
        CreateInstance self namespace inst
        = (Raise (CIMError CIM_ERR_INVALID_NAMESPACE), self))
  /\ (forall inst iq pl,
        ModifyInstance self namespace inst iq pl
        = (Raise (CIMError CIM_ERR_INVALID_NAMESPACE), self))
  /\ (forall iname lo iq ico pl,
        GetInstance self namespace iname lo iq ico pl
        = Raise (CIMError CIM_ERR_INVALID_NAMESPACE))
  /\ (forall iname,
        DeleteInstance self namespace iname
        = (Raise (CIMError CIM_ERR_INVALID_NAMESPACE), self))
  /\ (forall cn lo di iq ico pl,
        EnumerateInstances self namespace cn lo di iq ico pl
        = Raise (CIMError CIM_ERR_INVALID_NAMESPACE))
  /\ (forall cn,
        EnumerateInstanceNames self namespace cn
        = Raise (CIMError CIM_ERR_INVALID_NAMESPACE))
  /\ (forall ql q,
        ExecQuery self namespace ql q
        = Raise (CIMError CIM_ERR_INVALID_NAMESPACE)).
Proof.
  intros Hl.
  pose proof (validate_namespace_None _ _ Hl) as Hv.
  pose proof (get_class_store_None _ _ Hl) as Hc.
  pose proof (get_instance_store_None _ _ Hl) as Hi.
  pose proof (get_qualifier_store_None _ _ Hl) as Hq.
  repeat split; intros;
    unfold EnumerateClasses, EnumerateClassNames, GetClass, CreateClass,
      ModifyClass, DeleteClass, EnumerateQualifiers, GetQualifier,
      SetQualifier, DeleteQualifier, CreateInstance, CreateInstance_prepare,
      ModifyInstance, GetInstance, DeleteInstance, EnumerateInstances,
      EnumerateInstanceNames, ExecQuery;
    rewrite ?Hv, ?Hc, ?Hi, ?Hq; try done.
  - by destruct (negb _).
  - by destruct (negb _).
Qed.

Lemma request_path_classname namespace iname :
  path_classname (request_path namespace iname) = path_classname iname.
Proof. unfold request_path. by destruct (path_namespace iname). Qed.

Lemma request_path_namespace namespace iname :
  path_namespace iname = None /\ PyStr.strip "/"%char namespace = namespace
  \/ path_namespace iname = Some namespace ->
  path_namespace (request_path namespace iname) = Some namespace.
Proof.
  unfold request_path.
  destruct (path_namespace iname) eqn:E; intros [[? Hs]|?]; simplify_eq;
    [done|].
  cbn. by rewrite Hs.
Qed.

(** A request passes the namespace test of [GetInstance] and
    [DeleteInstance] when its path carries the namespace of the request,
    character for character, or carries none and the namespace of the
    request has no leading or trailing slash. *)
Lemma request_path_namespace_iff namespace iname :
  path_namespace (request_path namespace iname) = Some namespace
  <-> path_namespace iname = None
      /\ PyStr.strip "/"%char namespace = namespace
      \/ path_namespace iname = Some namespace.
Proof.
  split; [|apply request_path_namespace].
  unfold request_path. destruct (path_namespace iname) eqn:E.
  - rewrite E. by right.
  - cbn. intros [= Hs]. by left.
Qed.

Lemma _get_class_missing self namespace st classname lo iq ico pl :
  Datastore.lookup namespace (datastore self) = Some st ->
  ObjectStore.exists_ class_key_eqb classname (ns_classes st) = false ->
  _get_class self namespace classname lo iq ico pl
  = Raise (CIMError CIM_ERR_NOT_FOUND).
Proof.
  intros Hl Hex. unfold _get_class, get_class_store.
  rewrite (get_stores_lookup _ _ _ Hl).
  cbn [fmap result_fmap mbind result_bind].
  rewrite (exists_false_get _ _ _ Hex). cbn [translate].
  by rewrite bool_decide_eq_true_2.
Qed.

(** X14.  What the requests raise for a class that is not stored in an
    existing namespace.  [GetClass], [DeleteClass] and
    [EnumerateInstances] raise [CIM_ERR_NOT_FOUND]; [EnumerateClasses] and
    [EnumerateClassNames] (for a non-empty class name),
    [EnumerateInstanceNames], [CreateInstance] and [ModifyInstance] raise
    [CIM_ERR_INVALID_CLASS], and so do [GetInstance] and [DeleteInstance]
    for a request that passes their namespace test, which comes first: a
    path that carries the namespace of the request, or a path without
    namespace when the namespace of the request is written without
    leading or trailing slash.  None of them changes the provider. *)
Theorem X14_missing_class self namespace st ClassName :
  Datastore.lookup namespace (datastore self) = Some st ->
  ObjectStore.exists_ class_key_eqb ClassName (ns_classes st) = false ->
  (forall lo iq ico pl,
     GetClass self namespace ClassName lo iq ico pl
     = Raise (CIMError CIM_ERR_NOT_FOUND))
  /\ DeleteClass self namespace ClassName
     = (Raise (CIMError CIM_ERR_NOT_FOUND), self)
  /\ (forall lo di iq ico pl,
        EnumerateInstances self namespace ClassName lo di iq ico pl
        = Raise (CIMError CIM_ERR_NOT_FOUND))
  /\ (ClassName <> "" ->
      forall di lo iq ico,
        EnumerateClasses self namespace (Some ClassName) di lo iq ico
        = Raise (CIMError CIM_ERR_INVALID_CLASS))
  /\ (ClassName <> "" ->
      forall di,
        EnumerateClassNames self namespace (Some ClassName) di
        = Raise (CIMError CIM_ERR_INVALID_CLASS))
  /\ EnumerateInstanceNames self namespace ClassName
     = Raise (CIMError CIM_ERR_INVALID_CLASS)
  /\ (forall iname lo iq ico pl,
        path_classname iname = ClassName ->
        path_namespace iname = None
        /\ PyStr.strip "/"%char namespace = namespace
        \/ path_namespace iname = Some namespace ->
        GetInstance self namespace iname lo iq ico pl
        = Raise (CIMError CIM_ERR_INVALID_CLASS))
  /\ (forall iname,
        path_classname iname = ClassName ->
        path_namespace iname = None
        /\ PyStr.strip "/"%char namespace = namespace
        \/ path_namespace iname = Some namespace ->
        DeleteInstance self namespace iname
        = (Raise (CIMError CIM_ERR_INVALID_CLASS), self))
  /\ (forall inst,
        inst_classname inst = ClassName ->
        CreateInstance self namespace inst
        = (Raise (CIMError CIM_ERR_INVALID_CLASS), self))
  /\ (forall inst path iq pl,
        inst_classname inst = ClassName ->
        inst_path inst = Some path ->
        PyStr.eqb_nocase ClassName (path_classname path) = true ->
        pl <> Some [] ->
        ModifyInstance self namespace inst iq pl
        = (Raise (CIMError CIM_ERR_INVALID_CLASS), self)).
Proof.
  intros Hl Hex.
  pose proof (get_stores_lookup _ _ _ Hl) as Hst.
  assert (forall lo iq ico pl,
            _get_class self namespace ClassName lo iq ico pl
            = Raise (CIMError CIM_ERR_NOT_FOUND)) as Hclass
    by (intros; by eapply _get_class_missing).
  assert (validate_namespace self namespace = Ok tt) as Hv
    by (by rewrite validate_namespace_lookup, Hl).
  split. { intros. by rewrite GetClass_get_class. }
  split.
  { unfold DeleteClass, get_class_store, get_instance_store.
    rewrite Hst. cbn [fmap result_fmap]. by rewrite Hex. }
  split.
  { intros. unfold EnumerateInstances, get_class_store, get_instance_store.
    rewrite Hst. cbn [fmap result_fmap mbind result_bind].
    by rewrite Hclass. }
  assert (ClassName <> "" ->
          check_ClassName (Some ClassName) (ns_classes st)
          = Raise (CIMError CIM_ERR_INVALID_CLASS)) as Hcheck.
  { intros Hne. unfold check_ClassName. rewrite Hex. cbn [PyStr.truthy].
    apply String.eqb_neq in Hne. by rewrite Hne. }
  split.
  { intros Hne di lo iq ico. unfold EnumerateClasses, get_class_store.
    rewrite Hv, Hst. cbn [fmap result_fmap mbind result_bind].
    by rewrite Hcheck. }
  split.
  { intros Hne di. unfold EnumerateClassNames, get_class_store.
    rewrite Hv, Hst. cbn [fmap result_fmap mbind result_bind].
    by rewrite Hcheck. }
  split.
  { unfold EnumerateInstanceNames, get_class_store, get_instance_store,
      _get_subclass_list_for_enums.
    rewrite Hst. cbn [fmap result_fmap mbind result_bind]. by rewrite Hex. }
  assert (forall iname, path_classname iname = ClassName ->
            _class_exists self namespace
              (path_classname (request_path namespace iname)) = Ok false)
    as Hce.
  { intros iname <-. rewrite request_path_classname.
    unfold _class_exists, get_class_store. rewrite Hst.
    cbn [fmap result_fmap mbind result_bind]. by rewrite Hex. }
  split.
  { intros iname lo iq ico pl Hcn Hns. unfold GetInstance.
    rewrite (request_path_namespace _ _ Hns), bool_decide_eq_true_2 by done.
    cbn [negb]. unfold get_instance_store. rewrite Hst.
    cbn [fmap result_fmap mbind result_bind]. by rewrite (Hce _ Hcn). }
  split.
  { intros iname Hcn Hns. unfold DeleteInstance.
    rewrite (request_path_namespace _ _ Hns), bool_decide_eq_true_2 by done.
    cbn [negb]. unfold get_instance_store. rewrite Hst.
    cbn [fmap result_fmap]. by rewrite (Hce _ Hcn). }
  split.
  { intros inst <-. unfold CreateInstance, CreateInstance_prepare,
      get_instance_store.
    rewrite Hst. cbn [fmap result_fmap mbind result_bind].
    rewrite Hclass. cbn [translate].
    by rewrite bool_decide_eq_true_2. }
  intros inst path iq pl <- Hpath Hsame Hpl.
  unfold ModifyInstance, get_instance_store. rewrite Hst.
  cbn [fmap result_fmap]. unfold path_of. rewrite Hpath.
  cbn [from_option mbind result_bind]. rewrite Hsame. cbn [negb].
  rewrite Hclass. cbn [translate mbind result_bind].
  rewrite bool_decide_eq_true_2 by done.
  destruct pl as [[|]|]; done.
Qed.

(** ** Instance paths as keys *)

Lemma get_Some_elem {V} k (d : NocaseDict.t V) v :
  NocaseDict.get k d = Some v ->
  exists e, e ∈ d /\ PyStr.lower (fst e) = PyStr.lower k /\ snd e = v.
Proof.
  unfold NocaseDict.get.
  destruct (List.find _ d) as [e|] eqn:Hf; [|done].
  intros [= <-]. apply find_some in Hf as [Hin Hk].
  exists e. split; [by apply list_elem_of_In|]. split; [|done].
  by apply eqb_nocase_eq.
Qed.

(** Keybindings are equal when they read the same under every name. *)
Lemma keybindings_eqb_spec a b :
  keybindings_eqb a b = true
  <-> forall k, NocaseDict.get k a = NocaseDict.get k b.
Proof.
  unfold keybindings_eqb. rewrite andb_true_iff, !forallb_forall. split.
  - intros [Ha Hb] k.
    destruct (NocaseDict.get k a) as [v|] eqn:Hka.
    + destruct (get_Some_elem _ _ _ Hka) as (e & He & Hk & _).
      specialize (Ha e (proj1 (list_elem_of_In _ _) He)).
      apply bool_decide_eq_true in Ha.
      by rewrite <- Hka, <- (get_nocase _ _ a Hk), <- (get_nocase _ _ b Hk).
    + destruct (NocaseDict.get k b) as [v|] eqn:Hkb; [|done].
      destruct (get_Some_elem _ _ _ Hkb) as (e & He & Hk & _).
      specialize (Hb e (proj1 (list_elem_of_In _ _) He)).
      apply bool_decide_eq_true in Hb.
      by rewrite <- Hka, <- Hkb, <- (get_nocase _ _ a Hk),
        <- (get_nocase _ _ b Hk).
  - intros H. split; intros e _; by apply bool_decide_eq_true.
Qed.

Lemma path_eqb_spec a b :
  path_eqb a b = true
  <-> PyStr.lower (path_classname a) = PyStr.lower (path_classname b)
      /\ forall k, NocaseDict.get k (path_keybindings a)
                   = NocaseDict.get k (path_keybindings b).
Proof.
  unfold path_eqb.
  by rewrite andb_true_iff, eqb_nocase_eq, keybindings_eqb_spec.
Qed.

Lemma path_eqb_sym a b : path_eqb a b = path_eqb b a.
Proof.
  apply eq_true_iff_eq. rewrite !path_eqb_spec.
  split; intros [Hc Hk]; split; try done; intros k; by rewrite Hk.
Qed.

Lemma path_eqb_trans_l a b c :
  path_eqb a b = true -> path_eqb a c = path_eqb b c.
Proof.
  intros [Hc Hk]%path_eqb_spec. apply eq_true_iff_eq. rewrite !path_eqb_spec.
  split; intros [Hc' Hk']; (split; [congruence|]); intros k;
    by rewrite <- Hk' || rewrite <- Hk.
Qed.

(** [path_eqb] does not look at the namespace or at the host of a path. *)
Lemma path_eqb_with_namespace ns a b :
  path_eqb (path_with_namespace ns a) b = path_eqb a b.
Proof. done. Qed.

(** ** Reading instances *)

Lemma _find_instance_get iname
    (s : ObjectStore.t CIMInstanceName CIMInstance) copy_inst :
  _find_instance iname s copy_inst
  = match ObjectStore.get path_eqb iname s with
    | Ok inst => Ok (Some inst)
    | Raise _ => Ok None
    end.
Proof.
  unfold _find_instance.
  destruct (ObjectStore.exists_ path_eqb iname s) eqn:Hex.
  - by destruct (exists_get _ _ _ Hex) as [inst ->].
  - by rewrite (exists_false_get _ _ _ Hex).
Qed.

Lemma get_map_values {V W} (f : V -> W) k (d : NocaseDict.t V) :
  NocaseDict.get k (NocaseDict.map_values f d) = f <$> NocaseDict.get k d.
Proof.
  unfold NocaseDict.get, NocaseDict.map_values.
  induction d as [|e d IH]; [done|]. cbn [map List.find].
  unfold NocaseDict.key_is at 1 3. cbn [fst].
  by destruct (PyStr.eqb_nocase (fst e) k).
Qed.

Lemma get_filter_keys {V} (p : string -> bool) k (d : NocaseDict.t V) :
  (forall k', PyStr.lower k' = PyStr.lower k -> p k' = p k) ->
  NocaseDict.get k (NocaseDict.filter_keys p d)
  = if p k then NocaseDict.get k d else None.
Proof.
  intros Hp. unfold NocaseDict.get, NocaseDict.filter_keys.
  induction d as [|e d IH]; [by destruct (p k)|]. cbn [List.filter List.find].
  destruct (NocaseDict.key_is k e) eqn:Hk.
  - unfold NocaseDict.key_is in Hk. apply eqb_nocase_eq in Hk.
    rewrite (Hp _ Hk).
    destruct (p k) eqn:Hpk; [|exact IH].
    cbn [List.find]. unfold NocaseDict.key_is.
    by rewrite (proj2 (eqb_nocase_eq _ _) Hk).
  - destruct (p (fst e)); [|exact IH]. cbn [List.find]. by rewrite Hk.
Qed.

Lemma listed_nocase pl k k' :
  PyStr.lower k' = PyStr.lower k -> listed pl k' = listed pl k.
Proof. intros H. unfold listed. destruct pl; [|done]. by rewrite H. Qed.

(** What the shaping of [_get_instance] does to an instance when
    [LocalOnly] is not set. *)
Lemma shaped_instance (inst : CIMInstance) pl iq ico :
  let r :=
    let r := _filter_properties inst pl in
    let r := if truthy_flag iq then r else _remove_qualifiers r in
    if truthy_flag ico then r else _remove_classorigin r in
  inst_path r = inst_path inst
  /\ inst_classname r = inst_classname inst
  /\ forall n, Instance.getitem n r
               = if listed pl n then Instance.getitem n inst
                 else Raise KeyError.
Proof.
  cbv zeta.
  assert (forall (i : CIMInstance),
            inst_path (_remove_classorigin i) = inst_path i
            /\ inst_classname (_remove_classorigin i) = inst_classname i
            /\ forall n, Instance.getitem n (_remove_classorigin i)
                         = Instance.getitem n i) as Ho.
  { intros i. split; [done|]. split; [done|]. intros n.
    unfold Instance.getitem.
    change (inst_properties (_remove_classorigin i))
      with (NocaseDict.map_values (prop_with_class_origin None)
              (inst_properties i)).
    rewrite get_map_values. by destruct (NocaseDict.get n _). }
  assert (forall (i : CIMInstance),
            inst_path (_remove_qualifiers i) = inst_path i
            /\ inst_classname (_remove_qualifiers i) = inst_classname i
            /\ forall n, Instance.getitem n (_remove_qualifiers i)
                         = Instance.getitem n i) as Hq.
  { intros i. split; [done|]. split; [done|]. intros n.
    unfold Instance.getitem.
    change (inst_properties (_remove_qualifiers i))
      with (NocaseDict.map_values (prop_with_qualifiers NocaseDict.empty)
              (inst_properties i)).
    rewrite get_map_values. by destruct (NocaseDict.get n _). }
  assert (inst_path (_filter_properties inst pl) = inst_path inst
          /\ inst_classname (_filter_properties inst pl) = inst_classname inst
          /\ forall n, Instance.getitem n (_filter_properties inst pl)
                       = if listed pl n then Instance.getitem n inst
                         else Raise KeyError) as (Hp1 & Hp2 & Hp3).
  { destruct pl as [pl|]; [|done]. split; [done|]. split; [done|].
    intros n. unfold Instance.getitem.
    change (inst_properties (_filter_properties inst (Some pl)))
      with (NocaseDict.filter_keys (listed (Some pl)) (inst_properties inst)).
    rewrite get_filter_keys by (intros; by apply listed_nocase).
    by destruct (listed (Some pl) n). }
  destruct (truthy_flag iq), (truthy_flag ico);
    repeat match goal with
           | |- context [_remove_classorigin ?i] =>
               destruct (Ho i) as (-> & -> & Hg); setoid_rewrite Hg; clear Hg
           | |- context [_remove_qualifiers ?i] =>
               destruct (Hq i) as (-> & -> & Hg); setoid_rewrite Hg; clear Hg
           end;
    by rewrite Hp1, Hp2.
Qed.

Lemma _get_instance_spec self namespace iname
    (s : ObjectStore.t CIMInstanceName CIMInstance) pl lo ico iq :
  match ObjectStore.get path_eqb iname s with
  | Raise _ =>
      _get_instance self namespace iname s pl lo ico iq
      = Raise (CIMError CIM_ERR_NOT_FOUND)
  | Ok inst =>
      truthy_flag lo = false ->
      exists r,
        _get_instance self namespace iname s pl lo ico iq = Ok r
        /\ inst_path r = inst_path inst
        /\ inst_classname r = inst_classname inst
        /\ forall n, Instance.getitem n r
                     = if listed pl n then Instance.getitem n inst
                       else Raise KeyError
  end.
Proof.
  unfold _get_instance. rewrite _find_instance_get.
  destruct (ObjectStore.get path_eqb iname s) as [inst|]; [|done].
  intros ->. cbn [from_option mbind result_bind].
  eexists. split; [done|]. apply shaped_instance.
Qed.

Lemma get_stored_instance (s : ObjectStore.t CIMInstanceName CIMInstance) e :
  keys_unique path_eqb s = true -> e ∈ s ->
  ObjectStore.get path_eqb (fst e) s = Ok (snd e).
Proof.
  intros Hu He.
  assert (ObjectStore.exists_ path_eqb (fst e) s = true) as Hex.
  { apply exists_elem. exists e. split; [done|apply path_eqb_refl]. }
  destruct (exists_get _ _ _ Hex) as [v Hget]. rewrite Hget. f_equal.
  unfold ObjectStore.get in Hget.
  destruct (List.find _ s) as [e'|] eqn:Hf; [|done].
  injection Hget as <-. apply find_some in Hf as [Hin Hm].
  apply list_elem_of_In in Hin. f_equal.
  by apply (keys_unique_elem path_eqb s).
Qed.

(** X15.  [GetInstance], check by check.  A path without namespace gets
    the namespace of the request, stripped of its leading and trailing
    slashes.  A request whose path then carries a namespace other than,
    character for character, the namespace of the request raises
    [CIM_ERR_INVALID_NAMESPACE]: so does a path that names another
    spelling of an existing namespace, and so does every path without
    namespace when the namespace of the request is written with a leading
    or trailing slash.  Then a class that is not stored is
    [CIM_ERR_INVALID_CLASS], and a request whose class name and
    keybindings no stored path has is [CIM_ERR_NOT_FOUND].  For an instance
    that is stored under the path of the request, in a store that holds no
    path twice, the call without [LocalOnly] returns a copy of the stored
    instance with its path and class name, in which a property reads as
    stored when [PropertyList] lets its name through under some casing,
    and is absent otherwise. *)
Theorem X15_GetInstance self namespace InstanceName lo iq ico pl :
  let iname := request_path namespace InstanceName in
  (path_namespace iname <> Some namespace ->
   GetInstance self namespace InstanceName lo iq ico pl
   = Raise (CIMError CIM_ERR_INVALID_NAMESPACE))
  /\ (path_namespace InstanceName = None ->
      PyStr.strip "/"%char namespace <> namespace ->
      GetInstance self namespace InstanceName lo iq ico pl
      = Raise (CIMError CIM_ERR_INVALID_NAMESPACE))
  /\ (path_namespace iname = Some namespace ->
      forall st,
        Datastore.lookup namespace (datastore self) = Some st ->
        (ObjectStore.exists_ class_key_eqb (path_classname InstanceName)
           (ns_classes st) = false ->
         GetInstance self namespace InstanceName lo iq ico pl
         = Raise (CIMError CIM_ERR_INVALID_CLASS))
        /\ (ObjectStore.exists_ class_key_eqb (path_classname InstanceName)
              (ns_classes st) = true ->
            (ObjectStore.exists_ path_eqb iname (ns_instances st) = false ->
             GetInstance self namespace InstanceName lo iq ico pl
             = Raise (CIMError CIM_ERR_NOT_FOUND))
            /\ (forall inst,
                  (iname, inst) ∈ ns_instances st ->
                  keys_unique path_eqb (ns_instances st) = true ->
                  truthy_flag lo = false ->
                  exists r,
                    GetInstance self namespace InstanceName lo iq ico pl
                    = Ok r
                    /\ inst_path r = inst_path inst
                    /\ inst_classname r = inst_classname inst
                    /\ forall n,
                         Instance.getitem n r
                         = if listed pl n then Instance.getitem n inst
                           else Raise KeyError))).
Proof.
  intros iname. subst iname. unfold GetInstance.
  assert (path_namespace (request_path namespace InstanceName)
          <> Some namespace ->
          (if negb (bool_decide
                      (path_namespace (request_path namespace InstanceName)
                       = Some namespace))
           then Raise (CIMError CIM_ERR_INVALID_NAMESPACE)
           else
             instance_store ← get_instance_store self namespace;
             class_exists ←
               _class_exists self namespace
                 (path_classname (request_path namespace InstanceName));
             if negb class_exists
             then Raise (CIMError CIM_ERR_INVALID_CLASS)
             else
               _get_instance self namespace
                 (request_path namespace InstanceName) instance_store pl lo
                 ico iq)
          = Raise (CIMError CIM_ERR_INVALID_NAMESPACE)) as Hbad.
  { intros Hne. by rewrite bool_decide_eq_false_2. }
  split; [exact Hbad|]. split.
  { intros Hnone Hstrip. apply Hbad.
    rewrite request_path_namespace_iff. intros [[_ Hs]|Hs]; [done|].
    by rewrite Hnone in Hs. }
  intros Hns st Hl. rewrite bool_decide_eq_true_2 by done. cbn [negb].
  unfold get_instance_store, _class_exists, get_class_store.
  rewrite (get_stores_lookup _ _ _ Hl).
  cbn [fmap result_fmap mbind result_bind].
  rewrite !request_path_classname.
  split.
  { by intros ->. }
  intros ->. cbn [negb].
  pose proof (_get_instance_spec self namespace
                (request_path namespace InstanceName) (ns_instances st) pl lo
                ico iq) as Hspec.
  split.
  - intros Hex. by rewrite (exists_false_get _ _ _ Hex) in Hspec.
  - intros inst Hin Hu.
    pose proof (get_stored_instance _ _ Hu Hin) as Hget.
    cbn [fst snd] in Hget. by rewrite Hget in Hspec.
Qed.

(** X16.  [EnumerateInstances] and [EnumerateInstanceNames] enumerate the
    same instances.  For a class that is stored in a namespace whose
    instances are stored once, under their own path, the paths of the
    instances that [EnumerateInstances] returns are the paths that
    [EnumerateInstanceNames] returns, in the same order, whatever
    [LocalOnly], [DeepInheritance], [IncludeQualifiers],
    [IncludeClassOrigin] and [PropertyList] are; and one of them raises
    only if the other does. *)
Theorem X16_EnumerateInstances_paths self namespace st ClassName lo di iq
    ico pl :
  Datastore.lookup namespace (datastore self) = Some st ->
  instance_store_ok (ns_instances st) = true ->
  ObjectStore.exists_ class_key_eqb ClassName (ns_classes st) = true ->
  map inst_path
    <$> EnumerateInstances self namespace ClassName lo di iq ico pl
  = map Some <$> EnumerateInstanceNames self namespace ClassName.
Proof.
  intros Hl Hok Hex.
  apply andb_true_iff in Hok as [Hu Hpaths].
  unfold EnumerateInstances, EnumerateInstanceNames, get_instance_store,
    get_class_store.
  rewrite (get_stores_lookup _ _ _ Hl).
  cbn [fmap result_fmap mbind result_bind].
  pose proof (_get_class_cases self namespace ClassName lo None None None)
    as Hclass.
  destruct (_get_class self namespace ClassName lo None None None)
    as [cl|e].
  2:{ destruct Hclass as [[Hl' _]|[(st' & Hl' & Hex') _]]; [congruence|].
      assert (st' = st) as -> by congruence. congruence. }
  clear Hclass. cbn [mbind result_bind].
  destruct (_get_subclass_list_for_enums ClassName namespace (ns_classes st))
    as [clns|]; [|done].
  cbn [mbind result_bind].
  set (pl' := if negb _ then _ else pl).
  rewrite (comprehension_paths
             (fun p => NocaseDict.contains (path_classname p) clns)
             (ns_instances st) Hpaths).
  destruct (comprehension_instances
              (fun p => NocaseDict.contains (path_classname p) clns)
              (fun p => _get_instance self namespace p (ns_instances st) pl'
                          None ico iq)
              (ns_instances st) Hpaths) as (insts & -> & Hall).
  { intros e He. by apply _get_instance_stored. }
  cbn [fmap result_fmap]. f_equal.
  assert (forall e, e ∈ List.filter
                          (fun e => NocaseDict.contains
                                      (path_classname (fst e)) clns)
                          (ns_instances st) -> e ∈ ns_instances st) as Hsub.
  { intros e He. apply list_elem_of_In, filter_In in He as [He _].
    by apply list_elem_of_In. }
  induction Hall as [|e r es rs Hr _ IH]; [done|]. cbn [map].
  rewrite IH by (intros e' He'; apply Hsub; by right). f_equal.
  assert (e ∈ ns_instances st) as He by (apply Hsub; by left).
  pose proof (_get_instance_spec self namespace (fst e) (ns_instances st) pl'
                None ico iq) as Hspec.
  rewrite (get_stored_instance _ _ Hu He) in Hspec.
  destruct (Hspec eq_refl) as (r' & Hr' & Hp & _).
  assert (r' = r) as -> by congruence. rewrite Hp.
  rewrite forallb_forall in Hpaths.
  specialize (Hpaths e (proj1 (list_elem_of_In _ _) He)).
  by apply bool_decide_eq_true in Hpaths.
Qed.

(** ** CreateInstance *)

Lemma put_instance_store_datastore self namespace insts st :
  Datastore.lookup namespace (datastore self) = Some st ->
  datastore (put_instance_store namespace insts self)
  = Datastore.put namespace
      (mkNamespaceStores (ns_classes st) insts (ns_qualifiers st))
      (datastore self).
Proof. intros Hl. unfold put_instance_store. by rewrite Hl. Qed.


Lemma put_instance_store_frame self namespace insts :
  enumeration_contexts (put_instance_store namespace insts self)
  = enumeration_contexts self
  /\ host (put_instance_store namespace insts self) = host self
  /\ disable_pull_operations (put_instance_store namespace insts self)
     = disable_pull_operations self.
Proof.
  unfold put_instance_store. by destruct (Datastore.lookup _ _).
Qed.


(** The state that a successful [CreateInstance] leaves behind. *)
Lemma CreateInstance_Ok self namespace NewInstance path self' :
  CreateInstance self namespace NewInstance = (Ok path, self') ->
  exists st new_namespace new_instance,
    Datastore.lookup namespace (datastore self) = Some st
    /\ CreateInstance_prepare self namespace NewInstance
       = Ok (new_namespace, new_instance, path, ns_instances st)
    /\ ObjectStore.exists_ path_eqb path (ns_instances st) = false
    /\ (forall n, new_namespace = Some n ->
                  NocaseDict.contains (Datastore.normalize n) (datastore self)
                  = false)
    /\ datastore self'
       = Datastore.put namespace
           (mkNamespaceStores (ns_classes st)
              (ns_instances st ++ [(path, new_instance)]) (ns_qualifiers st))
           (datastore self
            ++ match new_namespace with
               | Some n =>
                   [(Datastore.normalize n, mkNamespaceStores [] [] [])]
               | None => []
               end)
    /\ enumeration_contexts self' = enumeration_contexts self
    /\ host self' = host self
    /\ disable_pull_operations self' = disable_pull_operations self.
Proof.
  unfold CreateInstance.
  destruct (CreateInstance_prepare self namespace NewInstance)
    as [[[[new_namespace new_instance] path'] instance_store]|e] eqn:Hprep;
    [|done].
  assert (exists st, Datastore.lookup namespace (datastore self) = Some st
                     /\ ns_instances st = instance_store
                     /\ ObjectStore.exists_ path_eqb path' instance_store
                        = false) as (st & Hl & <- & Hex).
  { unfold CreateInstance_prepare in Hprep.
    destruct (get_instance_store self namespace) as [s|] eqn:Hs; [|done].
    apply get_instance_store_Ok in Hs as (st & Hl & Hs).
    exists st. split; [done|]. cbn [mbind result_bind] in Hprep.
    destruct (translate _ _ _) as [tc|]; [|done].
    cbn [mbind result_bind] in Hprep.
    destruct (match ns_classname_of _ with Some _ => _ | None => _ end)
      as [[nn i1]|]; [|done].
    cbn [mbind result_bind] in Hprep.
    destruct (check_key_props_present tc i1); [|done].
    cbn [mbind result_bind] in Hprep.
    destruct (for_each _ _ _) as [i2|]; [|done].
    cbn [mbind result_bind] in Hprep.
    destruct (from_instance _ _ _) as [p0|]; [|done].
    cbn [mbind result_bind] in Hprep.
    destruct (ObjectStore.exists_ path_eqb _ s) eqn:Hex; [done|].
    injection Hprep as <- <- <- <-. done. }
  destruct new_namespace as [n|].
  - destruct (add_namespace n self) as [[[]|e] self1] eqn:Hadd; [|done].
    apply add_namespace_Ok in Hadd as [Habsent ->].
    unfold ObjectStore.create. rewrite Hex. intros [= <- <-].
    exists st, (Some n), new_instance. split; [done|]. split; [done|].
    split; [done|]. split; [by intros ? [= <-]|].
    split.
    { rewrite (put_instance_store_datastore _ _ _ st); [done|].
      by apply lookup_app. }
    exact (put_instance_store_frame (with_datastore _ self) _ _).
  - unfold ObjectStore.create. rewrite Hex. intros [= <- <-].
    exists st, None, new_instance. split; [done|]. split; [done|].
    split; [done|]. split; [done|].
    split.
    { rewrite (put_instance_store_datastore _ _ _ st) by done.
      by rewrite app_nil_r. }
    apply put_instance_store_frame.
Qed.

Lemma for_each_invariant {A S} (P : S -> Prop) (body : A -> S -> result S)
    (l : list A) (s s' : S) :
  (forall a s s', a ∈ l -> body a s = Ok s' -> P s -> P s') ->
  for_each body l s = Ok s' -> P s -> P s'.
Proof.
  revert s. induction l as [|a l IH]; intros s Hbody; cbn [for_each].
  - by intros [= <-].
  - destruct (body a s) as [s1|] eqn:Ha; [|done]. cbn [mbind result_bind].
    intros Hrest Hs. apply (IH s1); try done.
    + intros a' t t' Ha'. apply Hbody. by right.
    + eapply Hbody; [by left|done|done].
Qed.

Lemma foldl_invariant {A S} (P : S -> Prop) (f : S -> A -> S) (l : list A)
    (s : S) :
  (forall a s, a ∈ l -> P s -> P (f s a)) -> P s -> P (foldl f s l).
Proof.
  revert s. induction l as [|a l IH]; intros s Hf Hs; [done|]. cbn [foldl].
  apply IH.
  - intros a' t Ha'. apply Hf. by right.
  - apply Hf; [by left|done].
Qed.

Lemma set_value_Ok name v inst inst' :
  Instance.set_value name v inst = Ok inst' ->
  exists ty, inst' = Instance.set_property name
                        (mkCIMProperty name v ty false None NocaseDict.empty
                           None None) inst.
Proof.
  unfold Instance.set_value. destruct (cimtype v) as [ty|]; [|done].
  intros [= <-]. by exists ty.
Qed.

Lemma contains_set_property k name p inst :
  Instance.contains k (Instance.set_property name p inst)
  = PyStr.eqb_nocase k name || Instance.contains k inst.
Proof. unfold Instance.contains. cbn. apply contains_set. Qed.

Lemma contains_map_entries {V} (g : string * V -> string * V) k
    (d : NocaseDict.t V) :
  (forall e, fst (g e) = fst e) ->
  NocaseDict.contains k (map g d) = NocaseDict.contains k d.
Proof.
  intros Hg. unfold NocaseDict.contains.
  induction d as [|e d IH]; [done|]. cbn [map existsb]. rewrite IH. f_equal.
  unfold NocaseDict.key_is. by rewrite Hg.
Qed.

Lemma conform_property_Ok target_class name inst inst' :
  conform_property target_class name inst = Ok inst' ->
  inst_classname inst' = inst_classname inst
  /\ inst_path inst' = inst_path inst
  /\ forall k, Instance.contains k inst' = Instance.contains k inst.
Proof.
  unfold conform_property.
  destruct (NocaseDict.get name (cls_properties target_class)) as [cprop|];
    [|done].
  destruct (NocaseDict.get name (inst_properties inst)) as [iprop|]; [|done].
  cbn [from_option mbind result_bind].
  destruct (_ || _); [done|].
  destruct (negb _); intros [= <-]; [|done].
  split; [done|]. split; [done|]. intros k. unfold Instance.contains.
  cbn [inst_properties Instance.with_properties].
  apply contains_map_entries. intros e. by destruct (NocaseDict.key_is _ e).
Qed.

Lemma fill_defaults_spec target_class inst :
  inst_classname (fill_defaults target_class inst) = inst_classname inst
  /\ inst_path (fill_defaults target_class inst) = inst_path inst
  /\ (forall k, Instance.contains k inst = true ->
                Instance.contains k (fill_defaults target_class inst) = true)
  /\ (forall k, k ∈ NocaseDict.keys (cls_properties target_class) ->
                Instance.contains k (fill_defaults target_class inst) = true).
Proof.
  unfold fill_defaults.
  set (f := fun (i : CIMInstance) (e : string * CIMProperty) =>
              if negb (Instance.contains (fst e) i)
              then Instance.set_property (fst e) (snd e) i else i).
  assert (forall i e, inst_classname (f i e) = inst_classname i
                      /\ inst_path (f i e) = inst_path i
                      /\ (forall k, Instance.contains k i = true ->
                                    Instance.contains k (f i e) = true)
                      /\ Instance.contains (fst e) (f i e) = true) as Hf.
  { intros i e. unfold f.
    destruct (Instance.contains (fst e) i) eqn:Hc; cbn [negb]; [done|].
    split; [done|]. split; [done|]. split.
    - intros k Hk. rewrite contains_set_property, Hk. apply orb_true_r.
    - by rewrite contains_set_property, eqb_nocase_refl. }
  generalize (cls_properties target_class). intros props.
  revert inst. induction props as [|e props IH]; intros inst.
  { split; [done|]. split; [done|]. split; [done|].
    by intros k Hk%elem_of_nil. }
  cbn [foldl]. destruct (IH (f inst e)) as (Hc & Hp & Hmono & Hall).
  destruct (Hf inst e) as (Hc' & Hp' & Hmono' & He).
  split; [congruence|]. split; [congruence|]. split; [by auto|].
  intros k Hk. unfold NocaseDict.keys in Hk. cbn [map] in Hk.
  apply elem_of_cons in Hk as [->|Hk]; [by apply Hmono|by apply Hall].
Qed.

Lemma namespace_creation_Ok nsc inst n inst' :
  namespace_creation nsc inst = Ok (n, inst') ->
  inst_classname inst' = inst_classname inst
  /\ inst_path inst' = inst_path inst.
Proof.
  unfold namespace_creation.
  destruct (translate _ _ _) as [name|]; [|done].
  cbn [mbind result_bind].
  destruct (strip_value name) as [nn|]; [|done]. cbn [mbind result_bind].
  repeat match goal with
         | |- context [Instance.set_value ?k ?v ?i] =>
             let Hs := fresh "Hs" in
             destruct (Instance.set_value k v i) as [?|] eqn:Hs; [|done];
             apply set_value_Ok in Hs as [? ->]; cbn [mbind result_bind]
         end.
  by intros [= <- <-].
Qed.

(** What [CreateInstance] has established about the instance it is about
    to store. *)
Lemma from_instance_Ok class_ inst namespace path :
  from_instance class_ inst namespace = Ok path ->
  path_classname path = cls_classname class_
  /\ path_namespace path = Some (PyStr.strip "/"%char namespace)
  /\ path_host path = None
  /\ List.existsb (fun e => bool_decide (snd e = VNull))
       (path_keybindings path) = false.
Proof.
  unfold from_instance.
  destruct (List.existsb _ _) eqn:Hnull; [done|]. by intros [= <-].
Qed.

Lemma CreateInstance_prepare_Ok self namespace NewInstance nn ni path s :
  CreateInstance_prepare self namespace NewInstance = Ok (nn, ni, path, s) ->
  exists target_class,
    _get_class self namespace (inst_classname NewInstance) (Some false)
      (Some true) (Some true) None = Ok target_class
    /\ inst_path ni = Some path
    /\ path_namespace path = Some (PyStr.strip "/"%char namespace)
    /\ path_host path = None
    /\ List.existsb (fun e => bool_decide (snd e = VNull))
         (path_keybindings path) = false
    /\ path_classname path = cls_classname target_class
    /\ inst_classname ni = inst_classname NewInstance
    /\ (forall k, k ∈ NocaseDict.keys (cls_properties target_class) ->
                  Instance.contains k ni = true).
Proof.
  unfold CreateInstance_prepare.
  destruct (get_instance_store self namespace) as [s0|]; [|done].
  cbn [mbind result_bind].
  destruct (_get_class self namespace (inst_classname NewInstance)
              (Some false) (Some true) (Some true) None) as [tc|] eqn:Hclass;
    cbn [translate mbind result_bind]; [|by destruct (bool_decide _)].
  destruct (match ns_classname_of _ with Some _ => _ | None => _ end)
    as [[nn' i1]|] eqn:Hcreation; [|done].
  cbn [mbind result_bind].
  assert (inst_classname i1 = inst_classname NewInstance) as Hc1.
  { destruct (ns_classname_of _) as [nsc|]; [|by injection Hcreation as _ <-].
    destruct (PyStr.truthy _); [|by injection Hcreation as _ <-].
    destruct (namespace_creation nsc NewInstance) as [[n i]|] eqn:Hn;
      [|done].
    cbn [mbind result_bind] in Hcreation. injection Hcreation as _ <-.
    by apply namespace_creation_Ok in Hn as [? _]. }
  destruct (check_key_props_present tc i1); [|done].
  cbn [mbind result_bind].
  destruct (for_each (conform_property tc) (Instance.names i1) i1)
    as [i2|] eqn:Hconform; [|done].
  cbn [mbind result_bind].
  destruct (from_instance tc (fill_defaults tc i2) namespace) as [p0|]
    eqn:Hfrom; [|done].
  cbn [mbind result_bind].
  destruct (ObjectStore.exists_ path_eqb _ s0); [done|].
  intros [= <- <- <- <-]. exists tc. split; [done|].
  apply from_instance_Ok in Hfrom as (Hpc & Hpn & Hph & Hpk).
  split; [done|]. split; [done|]. split; [done|]. split; [done|].
  split; [done|].
  destruct (fill_defaults_spec tc i2) as (Hc & _ & _ & Hall).
  split; [|exact Hall].
  cbn [inst_classname Instance.with_path]. rewrite Hc, <- Hc1.
  apply (for_each_invariant
           (fun i => inst_classname i = inst_classname i1)
           (conform_property tc) (Instance.names i1) i1 i2); try done.
  intros pname t t' _ Ht Hcn. apply conform_property_Ok in Ht as [-> _]. done.
Qed.

Lemma CreateInstance_prepare_again self self' namespace NewInstance nn ni
    path s s' :
  CreateInstance_prepare self namespace NewInstance = Ok (nn, ni, path, s) ->
  get_instance_store self' namespace = Ok s' ->
  _get_class self' namespace (inst_classname NewInstance) (Some false)
    (Some true) (Some true) None
  = _get_class self namespace (inst_classname NewInstance) (Some false)
      (Some true) (Some true) None ->
  CreateInstance_prepare self' namespace NewInstance
  = if ObjectStore.exists_ path_eqb path s'
    then Raise (CIMError CIM_ERR_ALREADY_EXISTS)
    else Ok (nn, ni, path, s').
Proof.
  unfold CreateInstance_prepare. intros Hprep -> ->.
  destruct (get_instance_store self namespace) as [s0|]; [|done].
  cbn [mbind result_bind] in *.
  destruct (translate _ _ _) as [tc|]; [|done].
  cbn [mbind result_bind] in *.
  destruct (match ns_classname_of _ with Some _ => _ | None => _ end)
    as [[nn' i1]|]; [|done].
  cbn [mbind result_bind] in *.
  destruct (check_key_props_present tc i1); [|done].
  cbn [mbind result_bind] in *.
  destruct (for_each (conform_property tc) (Instance.names i1) i1)
    as [i2|]; [|done].
  cbn [mbind result_bind] in *.
  destruct (from_instance tc (fill_defaults tc i2) namespace) as [p0|];
    [|done].
  cbn [mbind result_bind] in *.
  destruct (ObjectStore.exists_ path_eqb _ s0); [done|].
  by injection Hprep as <- <- <- <-.
Qed.

Lemma get_Ok_elem {K V} (key_eqb : K -> K -> bool) k
    (s : ObjectStore.t K V) v :
  ObjectStore.get key_eqb k s = Ok v ->
  exists e, e ∈ s /\ key_eqb (fst e) k = true /\ snd e = v.
Proof.
  unfold ObjectStore.get.
  destruct (List.find _ s) as [e|] eqn:Hf; [|done].
  intros [= <-]. apply find_some in Hf as [Hin Hm]. exists e.
  split; [by apply list_elem_of_In|done].
Qed.

Lemma _get_class_name_stored self namespace st classname lo iq ico pl tc :
  Datastore.lookup namespace (datastore self) = Some st ->
  class_store_ok (ns_classes st) = true ->
  _get_class self namespace classname lo iq ico pl = Ok tc ->
  ObjectStore.exists_ class_key_eqb (cls_classname tc) (ns_classes st) = true
  /\ PyStr.lower (cls_classname tc) = PyStr.lower classname.
Proof.
  intros Hl Hok Htc.
  pose proof (_get_class_cases self namespace classname lo iq ico pl) as Hc.
  rewrite Htc in Hc. destruct Hc as (st' & cls & Hl' & Hget & -> & _).
  assert (st' = st) as -> by congruence.
  apply get_Ok_elem in Hget as (e & He & Hk & <-).
  rewrite <- (stored_under_name _ Hok e He). split.
  - apply exists_elem. exists e. split; [done|]. apply eqb_nocase_refl.
  - by apply eqb_nocase_eq.
Qed.

Lemma get_stores_datastore self self' namespace :
  datastore self' = datastore self ->
  get_stores self' namespace = get_stores self namespace.
Proof. intros H. by rewrite !get_stores_cases, H. Qed.

(** ** Stripped names *)

Lemma reverse_involutive s : PyStr.reverse (PyStr.reverse s) = s.
Proof.
  unfold PyStr.reverse.
  by rewrite list_ascii_of_string_of_list_ascii, rev_involutive,
    string_of_list_ascii_of_string.
Qed.

Lemma lstrip_length ch s :
  String.length (PyStr.lstrip ch s) <= String.length s.
Proof.
  induction s as [|c s IH]; [done|]. cbn [PyStr.lstrip].
  destruct (Ascii.eqb c ch); cbn [String.length]; lia.
Qed.

(** A string is left as it is exactly when it does not start with the
    character. *)
Lemma lstrip_fixed ch s :
  PyStr.lstrip ch s = s
  <-> match s with
      | String c _ => Ascii.eqb c ch = false
      | EmptyString => True
      end.
Proof.
  destruct s as [|c s]; [done|]. cbn [PyStr.lstrip].
  destruct (Ascii.eqb c ch); [|done]. split; [|done].
  intros E. pose proof (lstrip_length ch s) as Hlen. rewrite E in Hlen.
  cbn [String.length] in Hlen. lia.
Qed.

Lemma lstrip_idemp ch s :
  PyStr.lstrip ch (PyStr.lstrip ch s) = PyStr.lstrip ch s.
Proof.
  induction s as [|c s IH]; [done|]. cbn [PyStr.lstrip].
  destruct (Ascii.eqb c ch) eqn:E; [done|]. cbn [PyStr.lstrip]. by rewrite E.
Qed.

Lemma lstrip_decompose ch s :
  exists k,
    list_ascii_of_string s
    = repeat ch k ++ list_ascii_of_string (PyStr.lstrip ch s).
Proof.
  induction s as [|c s [k IH]]; [by exists 0|]. cbn [PyStr.lstrip].
  destruct (Ascii.eqb c ch) eqn:E; [|by exists 0].
  apply Ascii.eqb_eq in E as ->. exists (S k). cbn. by rewrite IH.
Qed.

Lemma lstrip_reverse_fixed ch t :
  PyStr.lstrip ch t = t ->
  PyStr.lstrip ch (PyStr.reverse (PyStr.lstrip ch (PyStr.reverse t)))
  = PyStr.reverse (PyStr.lstrip ch (PyStr.reverse t)).
Proof.
  intros Ht. apply lstrip_fixed in Ht. apply lstrip_fixed.
  destruct (lstrip_decompose ch (PyStr.reverse t)) as [k Hk].
  set (u := PyStr.lstrip ch (PyStr.reverse t)) in *.
  unfold PyStr.reverse in Hk at 1.
  rewrite list_ascii_of_string_of_list_ascii in Hk.
  assert (list_ascii_of_string t
          = rev (list_ascii_of_string u) ++ repeat ch k) as Hl.
  { rewrite <- (rev_involutive (list_ascii_of_string t)), Hk, rev_app_distr.
    by rewrite rev_repeat. }
  unfold PyStr.reverse.
  destruct (rev (list_ascii_of_string u)) as [|x r]; [done|].
  cbn [string_of_list_ascii].
  destruct t as [|c t]; [done|]. cbn in Hl. by injection Hl as ->.
Qed.

Lemma strip_idemp ch s : PyStr.strip ch (PyStr.strip ch s) = PyStr.strip ch s.
Proof.
  unfold PyStr.strip.
  rewrite (lstrip_reverse_fixed ch (PyStr.lstrip ch s))
    by apply lstrip_idemp.
  by rewrite reverse_involutive, lstrip_idemp.
Qed.

Lemma lookup_strip namespace ds :
  Datastore.lookup (PyStr.strip "/"%char namespace) ds
  = Datastore.lookup namespace ds.
Proof. unfold Datastore.lookup, Datastore.normalize. by rewrite strip_idemp. Qed.

(** X17.  After [CreateInstance] has returned a path on a well-formed
    repository, the instance is stored under that path.  The path carries
    the namespace of the request without its leading and trailing slashes,
    no host, the stored name of the class and no NULL key value.
    [GetInstance] for the path in the namespace that the path names, with
    qualifiers and class origins, returns the stored instance, which has
    the class name of the new instance and every property of the class;
    but when the namespace of the request was written with a leading or
    trailing slash, [GetInstance] for the path in the namespace as it was
    written raises [CIM_ERR_INVALID_NAMESPACE].  A second [CreateInstance]
    of the same instance raises [CIM_ERR_ALREADY_EXISTS] and changes
    nothing. *)
Theorem X17_CreateInstance_then_GetInstance self namespace NewInstance path
    self' :
  repository_ok self ->
  CreateInstance self namespace NewInstance = (Ok path, self') ->
  exists stored target_class,
    GetInstance self' (PyStr.strip "/"%char namespace) path None (Some true)
      (Some true) None = Ok stored
    /\ (PyStr.strip "/"%char namespace <> namespace ->
        GetInstance self' namespace path None (Some true) (Some true) None
        = Raise (CIMError CIM_ERR_INVALID_NAMESPACE))
    /\ inst_path stored = Some path
    /\ path_namespace path = Some (PyStr.strip "/"%char namespace)
    /\ path_host path = None
    /\ List.existsb (fun e => bool_decide (snd e = VNull))
         (path_keybindings path) = false
    /\ inst_classname stored = inst_classname NewInstance
    /\ GetClass self namespace (inst_classname NewInstance) (Some false)
         (Some true) (Some true) None = Ok target_class
    /\ path_classname path = cls_classname target_class
    /\ (forall k, k ∈ NocaseDict.keys (cls_properties target_class) ->
                  Instance.contains k stored = true)
    /\ CreateInstance self' namespace NewInstance
       = (Raise (CIMError CIM_ERR_ALREADY_EXISTS), self').
Proof.
  intros Hok Hcreate.
  destruct (CreateInstance_Ok _ _ _ _ _ Hcreate)
    as (st & nn & ni & Hl & Hprep & Hex & _ & Hds & _).
  destruct (CreateInstance_prepare_Ok _ _ _ _ _ _ _ Hprep)
    as (tc & Htc & Hpath & Hns & Hhost & Hkeys & Hcn & Hclass & Hall).
  destruct (repository_ok_lookup _ _ _ Hok Hl) as (Hcs & _).
  destruct (_get_class_name_stored _ _ _ _ _ _ _ _ _ Hl Hcs Htc)
    as [Hstored _].
  set (s' := ns_instances st ++ [(path, ni)]).
  assert (get_stores self' namespace
          = Ok (mkNamespaceStores (ns_classes st) s' (ns_qualifiers st)))
    as Hst'.
  { rewrite get_stores_cases, Hds, lookup_put.
    by rewrite (lookup_app _ _ _ _ Hl). }
  assert (get_stores self' (PyStr.strip "/"%char namespace)
          = Ok (mkNamespaceStores (ns_classes st) s' (ns_qualifiers st)))
    as Hst''.
  { rewrite <- Hst'. by rewrite !get_stores_cases, lookup_strip. }
  assert (ObjectStore.get path_eqb path s' = Ok ni) as Hget.
  { rewrite (get_create path_eqb path_eqb_trans_l path_eqb_sym path ni
               (ns_instances st) s' path).
    - by rewrite path_eqb_refl.
    - unfold ObjectStore.create. by rewrite Hex. }
  exists ni, tc. split.
  { unfold GetInstance, request_path. rewrite Hns.
    rewrite bool_decide_eq_true_2 by done. cbn [negb].
    unfold get_instance_store, _class_exists, get_class_store.
    rewrite Hst''. cbn [fmap result_fmap mbind result_bind ns_classes].
    rewrite <- Hcn in Hstored. rewrite Hstored. cbn [negb].
    unfold _get_instance. rewrite _find_instance_get.
    cbn [ns_instances]. rewrite Hget. done. }
  split.
  { intros Hne. unfold GetInstance, request_path. rewrite Hns.
    rewrite bool_decide_eq_false_2; [done|].
    rewrite Hns. intros [= E]. by apply Hne. }
  split; [done|]. split; [done|]. split; [done|]. split; [done|].
  split; [done|].
  split; [by rewrite GetClass_get_class|]. split; [done|]. split; [done|].
  unfold CreateInstance.
  rewrite (CreateInstance_prepare_again self self' namespace NewInstance nn
             ni path (ns_instances st) s' Hprep).
  - assert (ObjectStore.exists_ path_eqb path s' = true) as ->; [|done].
    by eapply get_Ok_exists.
  - unfold get_instance_store. by rewrite Hst'.
  - apply (_get_class_ext _ _ _ _ _ _ (ns_classes st) (ns_classes st));
      try done; unfold get_class_store.
    + by rewrite Hst'.
    + by rewrite (get_stores_lookup _ _ _ Hl).
Qed.

(** ** DeleteInstance *)

Lemma _get_instance_ext self self' namespace iname
    (s s' : ObjectStore.t CIMInstanceName CIMInstance) pl lo ico iq :
  ObjectStore.get path_eqb iname s = ObjectStore.get path_eqb iname s' ->
  _get_class self namespace (path_classname iname) lo None None None
  = _get_class self' namespace (path_classname iname) lo None None None ->
  _get_instance self namespace iname s pl lo ico iq
  = _get_instance self' namespace iname s' pl lo ico iq.
Proof.
  intros Hget Hclass. unfold _get_instance.
  by rewrite !_find_instance_get, Hget, Hclass.
Qed.

Lemma request_path_eqb namespace iname :
  path_eqb (request_path namespace iname) iname = true.
Proof.
  unfold request_path. destruct (path_namespace iname).
  - apply path_eqb_refl.
  - rewrite path_eqb_with_namespace. apply path_eqb_refl.
Qed.

Lemma get_instance_store_cases self namespace :
  get_instance_store self namespace
  = match Datastore.lookup namespace (datastore self) with
    | Some st => Ok (ns_instances st)
    | None => Raise (CIMError CIM_ERR_INVALID_NAMESPACE)
    end.
Proof.
  unfold get_instance_store. rewrite get_stores_cases.
  by destruct (Datastore.lookup _ _).
Qed.

Lemma get_class_store_cases self namespace :
  get_class_store self namespace
  = match Datastore.lookup namespace (datastore self) with
    | Some st => Ok (ns_classes st)
    | None => Raise (CIMError CIM_ERR_INVALID_NAMESPACE)
    end.
Proof.
  unfold get_class_store. rewrite get_stores_cases.
  by destruct (Datastore.lookup _ _).
Qed.

Lemma _class_exists_cases self namespace classname :
  _class_exists self namespace classname
  = match Datastore.lookup namespace (datastore self) with
    | Some st =>
        Ok (ObjectStore.exists_ class_key_eqb classname (ns_classes st))
    | None => Raise (CIMError CIM_ERR_INVALID_NAMESPACE)
    end.
Proof.
  unfold _class_exists. rewrite get_class_store_cases.
  by destruct (Datastore.lookup _ _).
Qed.

Lemma path_eqb_request namespace a b :
  path_eqb (request_path namespace a) (request_path namespace b)
  = path_eqb a b.
Proof.
  unfold request_path.
  by destruct (path_namespace a), (path_namespace b).
Qed.

(** X18.  [DeleteInstance] of an instance whose class is not a
    namespace-creation class fails exactly as [GetInstance] does on the
    same path ([CIM_ERR_INVALID_NAMESPACE], [CIM_ERR_INVALID_CLASS],
    [CIM_ERR_NOT_FOUND]) and then changes nothing.  When the instance is
    stored it is deleted: afterwards [GetInstance] raises
    [CIM_ERR_NOT_FOUND] for every path that equals the deleted one, and
    returns what it returned before for every other path of the
    namespace; classes, qualifier declarations, the other namespaces and
    the enumeration contexts are untouched. *)
Theorem X18_DeleteInstance self namespace InstanceName :
  ns_classname_of (path_classname InstanceName) = None ->
  match GetInstance self namespace InstanceName None None None None with
  | Raise e => DeleteInstance self namespace InstanceName = (Raise e, self)
  | Ok _ =>
      exists self',
        DeleteInstance self namespace InstanceName = (Ok tt, self')
        /\ (forall iname lo iq ico pl,
              path_namespace (request_path namespace iname)
              = Some namespace ->
              GetInstance self' namespace iname lo iq ico pl
              = if path_eqb InstanceName iname
                then Raise (CIMError CIM_ERR_NOT_FOUND)
                else GetInstance self namespace iname lo iq ico pl)
        /\ (forall namespace',
              get_class_store self' namespace'
              = get_class_store self namespace'
              /\ get_qualifier_store self' namespace'
                 = get_qualifier_store self namespace')
        /\ (forall namespace',
              ~ same_namespace namespace' namespace ->
              get_instance_store self' namespace'
              = get_instance_store self namespace')
        /\ enumeration_contexts self' = enumeration_contexts self
  end.
Proof.
  intros Hnons. unfold GetInstance, DeleteInstance.
  set (iname0 := request_path namespace InstanceName).
  destruct (negb (bool_decide (path_namespace iname0 = Some namespace)));
    [done|].
  rewrite get_instance_store_cases, _class_exists_cases.
  destruct (Datastore.lookup namespace (datastore self)) as [st|] eqn:Hl;
    [|done].
  cbn [mbind result_bind].
  destruct (ObjectStore.exists_ class_key_eqb (path_classname iname0)
              (ns_classes st)) eqn:Hclass; [|done].
  cbn [negb].
  pose proof (_get_instance_spec self namespace iname0 (ns_instances st) None
                None None None) as Hspec.
  destruct (ObjectStore.exists_ path_eqb iname0 (ns_instances st)) eqn:Hex.
  2:{ rewrite (exists_false_get _ _ _ Hex) in Hspec. by rewrite Hspec. }
  destruct (exists_get _ _ _ Hex) as [inst Hget]. rewrite Hget in Hspec.
  destruct (Hspec eq_refl) as (r & -> & _). cbn [negb].
  unfold iname0 at 1. rewrite request_path_classname, Hnons.
  cbn [PyStr.truthy].
  destruct (ObjectStore.delete path_eqb iname0 (ns_instances st))
    as [s'|] eqn:Hdel.
  2:{ unfold ObjectStore.delete in Hdel. by rewrite Hex in Hdel. }
  exists (put_instance_store namespace s' self). split; [done|].
  assert (forall namespace',
            get_stores (put_instance_store namespace s' self) namespace'
            = if bool_decide (same_namespace namespace' namespace)
              then Ok (mkNamespaceStores (ns_classes st) s' (ns_qualifiers st))
              else get_stores self namespace') as Hput
    by (intros; by apply get_stores_put_instance_store).
  split.
  { intros iname lo iq ico pl Hns.
    rewrite Hns, bool_decide_eq_true_2 by done. cbn [negb].
    rewrite !get_instance_store_cases, !_class_exists_cases, Hl.
    assert (Datastore.lookup namespace
              (datastore (put_instance_store namespace s' self))
            = Some (mkNamespaceStores (ns_classes st) s' (ns_qualifiers st)))
      as ->.
    { apply get_stores_Ok. by rewrite Hput, bool_decide_eq_true_2. }
    cbn [mbind result_bind ns_classes ns_instances].
    set (iname1 := request_path namespace iname).
    assert (path_eqb InstanceName iname = path_eqb iname0 iname1) as ->
      by (symmetry; apply path_eqb_request).
    pose proof (get_delete path_eqb path_eqb_trans_l path_eqb_sym _ _ _
                  iname1 Hdel) as Hget'.
    destruct (path_eqb iname0 iname1) eqn:Hsame.
    - assert (ObjectStore.exists_ class_key_eqb (path_classname iname1)
                (ns_classes st) = true) as ->.
      { rewrite <- Hclass. symmetry.
        apply (exists_key_ext class_key_eqb eqb_nocase_trans_l
                 eqb_nocase_sym).
        by apply andb_true_iff in Hsame as [? _]. }
      cbn [negb].
      pose proof (_get_instance_spec (put_instance_store namespace s' self)
                    namespace iname1 s' pl lo ico iq) as Hs.
      by rewrite Hget' in Hs.
    - destruct (ObjectStore.exists_ class_key_eqb (path_classname iname1)
                  (ns_classes st)); [|done].
      cbn [negb]. symmetry. apply _get_instance_ext; [done|].
      apply (_get_class_ext _ _ _ _ _ _ (ns_classes st) (ns_classes st));
        try done; unfold get_class_store.
      + by rewrite (get_stores_lookup _ _ _ Hl).
      + by rewrite Hput, bool_decide_eq_true_2. }
  split.
  { intros namespace'. unfold get_class_store, get_qualifier_store.
    rewrite Hput. case_bool_decide as Hs; [|done].
    by rewrite (get_stores_same_namespace self _ _ Hs),
      (get_stores_lookup _ _ _ Hl). }
  split.
  { intros namespace' Hne. unfold get_instance_store.
    by rewrite Hput, bool_decide_eq_false_2. }
  apply put_instance_store_frame.
Qed.

(** ** Well-formedness is kept *)

Section KeysUnique.
Context {K V : Type} (key_eqb : K -> K -> bool).
Hypothesis key_eqb_sym : forall a b, key_eqb a b = key_eqb b a.

Lemma exists_false_elem k (s : ObjectStore.t K V) :
  ObjectStore.exists_ key_eqb k s = false
  <-> forall e, e ∈ s -> key_eqb (fst e) k = false.
Proof.
  split.
  - intros Hex e He. destruct (key_eqb (fst e) k) eqn:Hk; [|done].
    rewrite <- Hex. symmetry. apply exists_elem. by exists e.
  - intros Hall. destruct (ObjectStore.exists_ key_eqb k s) eqn:Hex; [|done].
    apply exists_elem in Hex as (e & He & Hk). by rewrite (Hall e He) in Hk.
Qed.

Lemma keys_unique_snoc (s : ObjectStore.t K V) k v :
  keys_unique key_eqb s = true ->
  ObjectStore.exists_ key_eqb k s = false ->
  keys_unique key_eqb (s ++ [(k, v)]) = true.
Proof.
  intros Hu Hex. rewrite exists_false_elem in Hex.
  induction s as [|e s IH]; [done|]. cbn [app keys_unique] in *.
  apply andb_true_iff in Hu as [Hall Hu]. apply andb_true_iff. split.
  - rewrite forallb_app. apply andb_true_iff. split; [done|].
    cbn [forallb fst]. rewrite andb_true_r.
    rewrite (key_eqb_sym k (fst e)), (Hex e) by by left. done.
  - apply IH; [done|]. intros e' He'. apply Hex. by right.
Qed.

Lemma keys_unique_map (g : K * V -> K * V) (s : ObjectStore.t K V) :
  (forall e, fst (g e) = fst e) ->
  keys_unique key_eqb (map g s) = keys_unique key_eqb s.
Proof.
  intros Hg. induction s as [|e s IH]; [done|]. cbn [map keys_unique].
  rewrite IH, forallb_map, Hg. f_equal.
  clear IH. induction s as [|e' s IH]; [done|]. cbn [forallb].
  by rewrite IH, Hg.
Qed.

End KeysUnique.

Lemma forallb_snoc {A} (p : A -> bool) (l : list A) (x : A) :
  forallb p (l ++ [x]) = forallb p l && p x.
Proof. rewrite forallb_app. cbn. by rewrite andb_true_r. Qed.

Lemma stores_ok_add_instance st path inst :
  stores_ok st ->
  ObjectStore.exists_ path_eqb path (ns_instances st) = false ->
  inst_path inst = Some path ->
  ObjectStore.exists_ class_key_eqb (path_classname path) (ns_classes st)
  = true ->
  stores_ok (mkNamespaceStores (ns_classes st)
               (ns_instances st ++ [(path, inst)]) (ns_qualifiers st)).
Proof.
  intros (Hcs & His & Hsup & Hic) Hex Hpath Hclass.
  apply andb_true_iff in His as [Hu Hp].
  unfold stores_ok, instance_store_ok, instance_classes_stored in *.
  cbn [ns_classes ns_instances].
  split; [done|]. split; [|split; [done|]].
  - apply andb_true_iff. split.
    + by apply (keys_unique_snoc path_eqb path_eqb_sym).
    + rewrite forallb_snoc, Hp. cbn [fst snd andb].
      by apply bool_decide_eq_true.
  - by rewrite forallb_snoc, Hic.
Qed.

Lemma stores_ok_filter_instances st p :
  stores_ok st ->
  stores_ok (mkNamespaceStores (ns_classes st)
               (List.filter p (ns_instances st)) (ns_qualifiers st)).
Proof.
  intros (Hcs & His & Hsup & Hic).
  unfold stores_ok. cbn [ns_classes ns_instances].
  split; [done|]. split; [by apply instance_store_ok_filter|].
  split; [done|]. by apply forallb_filter_sub.
Qed.

Lemma stores_ok_empty : stores_ok (mkNamespaceStores [] [] []).
Proof. done. Qed.

Lemma repository_ok_datastore self self' :
  datastore self' = datastore self -> repository_ok self -> repository_ok self'.
Proof. unfold repository_ok. by intros ->. Qed.

Lemma Forall_put (P : NamespaceStores -> Prop) namespace st ds :
  Forall (fun e => P (snd e)) ds -> P st ->
  Forall (fun e => P (snd e)) (Datastore.put namespace st ds).
Proof.
  intros Hds Hst. unfold Datastore.put. apply Forall_map.
  eapply Forall_impl; [exact Hds|]. intros e He. cbn beta.
  by destruct (NocaseDict.key_is _ e).
Qed.

Lemma CreateInstance_prepare_absent self namespace NewInstance nn ni path s :
  CreateInstance_prepare self namespace NewInstance = Ok (nn, ni, path, s) ->
  ObjectStore.exists_ path_eqb path s = false.
Proof.
  unfold CreateInstance_prepare.
  destruct (get_instance_store self namespace); [|done].
  cbn [mbind result_bind].
  destruct (translate _ _ _); [|done]. cbn [mbind result_bind].
  destruct (match ns_classname_of _ with Some _ => _ | None => _ end)
    as [[? ?]|]; [|done].
  cbn [mbind result_bind].
  destruct (check_key_props_present _ _); [|done].
  cbn [mbind result_bind].
  destruct (for_each _ _ _); [|done]. cbn [mbind result_bind].
  destruct (from_instance _ _ _); [|done]. cbn [mbind result_bind].
  destruct (ObjectStore.exists_ path_eqb _ _) eqn:Hex; [done|].
  by intros [= <- <- <- <-].
Qed.

Lemma CreateInstance_Raise self namespace NewInstance e self' :
  CreateInstance self namespace NewInstance = (Raise e, self') -> self' = self.
Proof.
  unfold CreateInstance.
  destruct (CreateInstance_prepare self namespace NewInstance)
    as [[[[nn ni] path] s]|] eqn:Hprep; [|by intros [= _ <-]].
  apply CreateInstance_prepare_absent in Hprep as Hex.
  destruct nn as [n|].
  - destruct (add_namespace n self) as [[[]|e'] self1] eqn:Hadd.
    + unfold ObjectStore.create. by rewrite Hex.
    + intros [= _ <-]. by apply add_namespace_Raise in Hadd.
  - unfold ObjectStore.create. by rewrite Hex.
Qed.

Lemma get_remove {V} k k' (d : NocaseDict.t V) :
  NocaseDict.get k' (NocaseDict.remove k d)
  = if PyStr.eqb_nocase k k' then None else NocaseDict.get k' d.
Proof.
  unfold NocaseDict.get, NocaseDict.remove.
  induction d as [|e d IH]; [by destruct (PyStr.eqb_nocase k k')|].
  cbn [List.filter List.find].
  destruct (NocaseDict.key_is k e) eqn:He; cbn [negb].
  - rewrite IH. unfold NocaseDict.key_is in *.
    rewrite <- (eqb_nocase_trans_l _ _ k' He).
    by destruct (PyStr.eqb_nocase (fst e) k').
  - cbn [List.find].
    destruct (NocaseDict.key_is k' e) eqn:He'; [|exact IH].
    unfold NocaseDict.key_is in *.
    by rewrite (eqb_nocase_sym k k'), <- (eqb_nocase_trans_l _ _ k He'), He.
Qed.

Lemma catalog_unique_put namespace st ds :
  keys_unique PyStr.eqb_nocase (Datastore.put namespace st ds)
  = keys_unique PyStr.eqb_nocase ds.
Proof.
  unfold Datastore.put. apply keys_unique_map.
  intros e. by destruct (NocaseDict.key_is _ e).
Qed.

Lemma catalog_unique_add k st (ds : Datastore.t) :
  keys_unique PyStr.eqb_nocase ds = true ->
  NocaseDict.contains k ds = false ->
  keys_unique PyStr.eqb_nocase (ds ++ [(k, st)]) = true.
Proof.
  intros Hu Hc. by apply (keys_unique_snoc PyStr.eqb_nocase eqb_nocase_sym).
Qed.

(** X19.  [CreateInstance] keeps the repository well-formed: whether it
    returns or raises, every namespace still stores its classes and
    instances once, under their own name and path, and no class or
    instance refers to a class that is not stored; and the names of the
    namespaces are still distinct.  When it raises, the provider is
    unchanged. *)
Theorem X19_CreateInstance_keeps_well_formed self namespace NewInstance :
  repository_ok self ->
  let out := CreateInstance self namespace NewInstance in
  repository_ok (snd out)
  /\ (keys_unique PyStr.eqb_nocase (datastore self) = true ->
      keys_unique PyStr.eqb_nocase (datastore (snd out)) = true)
  /\ (forall e, fst out = Raise e -> snd out = self).
Proof.
  intros Hok out. subst out.
  destruct (CreateInstance self namespace NewInstance) as [[path|e] self']
    eqn:Hcreate; cbn [fst snd].
  2:{ apply CreateInstance_Raise in Hcreate as ->. done. }
  split; [|split; [|done]].
  - destruct (CreateInstance_Ok _ _ _ _ _ Hcreate)
      as (st & nn & ni & Hl & Hprep & Hex & _ & Hds & _).
    destruct (CreateInstance_prepare_Ok _ _ _ _ _ _ _ Hprep)
      as (tc & Htc & Hpath & Hns & _ & _ & Hcn & _).
    pose proof (repository_ok_lookup _ _ _ Hok Hl) as Hst.
    destruct (_get_class_name_stored _ _ _ _ _ _ _ _ _ Hl (proj1 Hst) Htc)
      as [Hstored _].
    unfold repository_ok. rewrite Hds. apply Forall_put.
    + apply Forall_app. split; [exact Hok|].
      destruct nn; [|done]. by repeat constructor.
    + apply stores_ok_add_instance; try done. by rewrite Hcn.
  - intros Hu.
    destruct (CreateInstance_Ok _ _ _ _ _ Hcreate)
      as (st & nn & ni & Hl & _ & _ & Habsent & Hds & _).
    rewrite Hds, catalog_unique_put. destruct nn as [n|].
    + apply catalog_unique_add; [done|]. by apply Habsent.
    + by rewrite app_nil_r.
Qed.

Lemma remove_namespace_cases namespace self :
  match Datastore.lookup namespace (datastore self) with
  | None =>
      remove_namespace namespace self
      = (Raise (CIMError CIM_ERR_NOT_FOUND), self)
  | Some st =>
      if Datastore.is_empty st
      then remove_namespace namespace self
           = (Ok tt,
              with_datastore
                (NocaseDict.remove (Datastore.normalize namespace)
                   (datastore self)) self)
      else remove_namespace namespace self
           = (Raise (CIMError CIM_ERR_NAMESPACE_NOT_EMPTY), self)
  end.
Proof.
  unfold remove_namespace, Datastore.remove_namespace.
  destruct (Datastore.lookup namespace (datastore self)) as [st|]; [|done].
  cbn [from_option mbind result_bind]. by destruct (Datastore.is_empty st).
Qed.

(** Every outcome of [DeleteInstance]: nothing has changed, or the
    instance has been deleted, after the namespace that it names has been
    removed if its class is a namespace-creation class. *)
Lemma DeleteInstance_cases self namespace InstanceName :
  let iname := request_path namespace InstanceName in
  (exists e, DeleteInstance self namespace InstanceName = (Raise e, self))
  \/ exists st ds1,
       Datastore.lookup namespace (datastore self) = Some st
       /\ ObjectStore.exists_ path_eqb iname (ns_instances st) = true
       /\ ObjectStore.exists_ class_key_eqb (path_classname iname)
            (ns_classes st) = true
       /\ (ns_classname_of (path_classname iname) = None
           /\ ds1 = datastore self
           \/ exists n stn,
                is_Some (ns_classname_of (path_classname iname))
                /\ NocaseDict.get "Name" (path_keybindings iname)
                   = Some (VString n)
                /\ Datastore.lookup n (datastore self) = Some stn
                /\ Datastore.is_empty stn = true
                /\ ds1 = NocaseDict.remove (Datastore.normalize n)
                           (datastore self))
       /\ DeleteInstance self namespace InstanceName
          = (Ok tt,
             put_instance_store namespace
               (List.filter
                  (fun e => negb (ObjectStore.matches path_eqb iname e))
                  (ns_instances st))
               (with_datastore ds1 self)).
Proof.
  intros iname. unfold DeleteInstance. fold iname.
  destruct (negb (bool_decide _)); [left; by eexists|].
  rewrite get_instance_store_cases, _class_exists_cases.
  destruct (Datastore.lookup namespace (datastore self)) as [st|] eqn:Hl;
    [|left; by eexists].
  destruct (ObjectStore.exists_ class_key_eqb (path_classname iname)
              (ns_classes st)) eqn:Hclass; cbn [negb];
    [|left; by eexists].
  destruct (ObjectStore.exists_ path_eqb iname (ns_instances st)) eqn:Hex;
    cbn [negb]; [|left; by eexists].
  unfold ObjectStore.delete. rewrite Hex.
  destruct (ns_classname_of (path_classname iname)) as [nsc|] eqn:Hnsc.
  2:{ right. exists st, (datastore self). cbn [PyStr.truthy].
      repeat (split; [done|]). split; [by left|]. by destruct self. }
  rewrite (ns_classname_of_truthy _ _ Hnsc).
  destruct (NocaseDict.get "Name" (path_keybindings iname)) as [[|n| |]|]
    eqn:Hname; cbn [remove_namespace_named]; try (left; by eexists).
  pose proof (remove_namespace_cases n self) as Hrm.
  destruct (Datastore.lookup n (datastore self)) as [stn|] eqn:Hn.
  2:{ rewrite Hrm. left. by eexists. }
  destruct (Datastore.is_empty stn) eqn:Hempty; rewrite Hrm.
  2:{ left. by eexists. }
  right. eexists st, _. repeat (split; [done|]). split; [|done].
  right. exists n, stn. split; [by eexists|done].
Qed.

Lemma Forall_list_filter {A} (P : A -> Prop) (p : A -> bool) (l : list A) :
  Forall P l -> Forall P (List.filter p l).
Proof.
  rewrite !Forall_forall. intros H x Hx.
  apply list_elem_of_In, filter_In in Hx as [Hx _].
  by apply H, list_elem_of_In.
Qed.

Lemma is_empty_instances st :
  Datastore.is_empty st = true -> ns_instances st = [].
Proof.
  unfold Datastore.is_empty.
  by destruct (ns_classes st), (ns_instances st), (ns_qualifiers st).
Qed.

(** X20.  [DeleteInstance] keeps the repository well-formed, whether it
    returns or raises, and keeps the names of the namespaces distinct.
    When it raises, also for a namespace that cannot be removed, the
    provider is unchanged: neither the instance nor the namespace has been
    deleted. *)
Theorem X20_DeleteInstance_keeps_well_formed self namespace InstanceName :
  repository_ok self ->
  let out := DeleteInstance self namespace InstanceName in
  repository_ok (snd out)
  /\ (keys_unique PyStr.eqb_nocase (datastore self) = true ->
      keys_unique PyStr.eqb_nocase (datastore (snd out)) = true)
  /\ (forall e, fst out = Raise e -> snd out = self).
Proof.
  intros Hok out. subst out.
  destruct (DeleteInstance_cases self namespace InstanceName)
    as [[e ->]|(st & ds1 & Hl & Hex & Hclass & Hds1 & ->)]; [done|].
  cbn [fst snd]. split; [|split; [|done]].
  - pose proof (repository_ok_lookup _ _ _ Hok Hl) as Hst.
    assert (Forall (fun e => stores_ok (snd e)) ds1
            /\ Datastore.lookup namespace ds1 = Some st) as [Hok1 Hl1].
    { destruct Hds1 as [[_ ->]|(n & stn & _ & _ & Hn & Hempty & ->)];
        [done|].
      split.
      - unfold NocaseDict.remove. by apply Forall_list_filter.
      - unfold Datastore.lookup. rewrite get_remove.
        destruct (PyStr.eqb_nocase _ _) eqn:Hsame; [|done]. exfalso.
        apply eqb_nocase_eq in Hsame.
        rewrite (lookup_same_namespace n namespace) in Hn by done.
        assert (stn = st) as -> by congruence.
        apply is_empty_instances in Hempty. by rewrite Hempty in Hex. }
    unfold repository_ok, put_instance_store.
    cbn [datastore with_datastore]. rewrite Hl1.
    cbn [datastore with_datastore]. apply Forall_put; [done|].
    by apply stores_ok_filter_instances.
  - intros Hu. unfold put_instance_store. cbn [datastore with_datastore].
    assert (keys_unique PyStr.eqb_nocase ds1 = true) as Hu1.
    { destruct Hds1 as [[_ ->]|(n & stn & _ & _ & _ & _ & ->)]; [done|].
      by apply keys_unique_filter. }
    destruct (Datastore.lookup namespace ds1); [|done].
    cbn [datastore with_datastore]. by rewrite catalog_unique_put.
Qed.

(** X21.  [DeleteInstance] of a stored instance of a namespace-creation
    class ([PG_Namespace] or [CIM_Namespace] under any casing) first
    removes the namespace that the [Name] keybinding of the path names.
    Without that keybinding the call raises [KeyError]; for a namespace
    that does not exist it raises [CIM_ERR_NOT_FOUND]; for one that still
    holds a class, an instance or a qualifier declaration it raises
    [CIM_ERR_NAMESPACE_NOT_EMPTY], which is always so for the namespace
    that holds the instance itself.  In each of these cases nothing is
    deleted.  Otherwise the namespace is removed and then the instance is
    deleted; the other namespaces are untouched. *)
Theorem X21_DeleteInstance_of_namespace self namespace InstanceName st :
  Datastore.lookup namespace (datastore self) = Some st ->
  path_namespace (request_path namespace InstanceName) = Some namespace ->
  ObjectStore.exists_ class_key_eqb (path_classname InstanceName)
    (ns_classes st) = true ->
  ObjectStore.exists_ path_eqb InstanceName (ns_instances st) = true ->
  is_Some (ns_classname_of (path_classname InstanceName)) ->
  (NocaseDict.get "Name" (path_keybindings InstanceName) = None ->
   DeleteInstance self namespace InstanceName = (Raise KeyError, self))
  /\ forall n,
       NocaseDict.get "Name" (path_keybindings InstanceName)
       = Some (VString n) ->
       (Datastore.lookup n (datastore self) = None ->
        DeleteInstance self namespace InstanceName
        = (Raise (CIMError CIM_ERR_NOT_FOUND), self))
       /\ (forall stn,
             Datastore.lookup n (datastore self) = Some stn ->
             Datastore.is_empty stn = false ->
             DeleteInstance self namespace InstanceName
             = (Raise (CIMError CIM_ERR_NAMESPACE_NOT_EMPTY), self))
       /\ (same_namespace n namespace ->
           DeleteInstance self namespace InstanceName
           = (Raise (CIMError CIM_ERR_NAMESPACE_NOT_EMPTY), self))
       /\ (forall stn,
             Datastore.lookup n (datastore self) = Some stn ->
             Datastore.is_empty stn = true ->
             exists self',
               DeleteInstance self namespace InstanceName = (Ok tt, self')
               /\ validate_namespace self' n
                  = Raise (CIMError CIM_ERR_INVALID_NAMESPACE)
               /\ get_stores self' namespace
                  = Ok (mkNamespaceStores (ns_classes st)
                          (List.filter
                             (fun e => negb (path_eqb (fst e) InstanceName))
                             (ns_instances st))
                          (ns_qualifiers st))
               /\ forall namespace',
                    ~ same_namespace namespace' n ->
                    ~ same_namespace namespace' namespace ->
                    get_stores self' namespace' = get_stores self namespace').
Proof.
  intros Hl Hns Hclass Hex [nsc Hnsc].
  set (iname := request_path namespace InstanceName) in *.
  assert (path_keybindings iname = path_keybindings InstanceName) as Hkb.
  { unfold iname, request_path. by destruct (path_namespace InstanceName). }
  assert (ObjectStore.exists_ path_eqb iname (ns_instances st) = true)
    as Hex'.
  { rewrite <- Hex.
    apply (exists_key_ext path_eqb path_eqb_trans_l path_eqb_sym).
    apply request_path_eqb. }
  assert (forall r self1,
            (let (removed, self1) :=
               match NocaseDict.get "Name" (path_keybindings InstanceName)
               with
               | Some name => remove_namespace_named name self
               | None => (Raise KeyError, self)
               end in
             match removed with
             | Ok _ =>
                 match ObjectStore.delete path_eqb iname (ns_instances st)
                 with
                 | Ok instance_store' =>
                     (Ok tt,
                      put_instance_store namespace instance_store' self1)
                 | Raise e => (Raise e, self1)
                 end
             | Raise e => (Raise e, self1)
             end) = (r, self1) ->
            DeleteInstance self namespace InstanceName = (r, self1))
    as Hdelete.
  { intros r self1 <-. unfold DeleteInstance. fold iname.
    rewrite Hns, bool_decide_eq_true_2 by done. cbn [negb].
    rewrite get_instance_store_cases, _class_exists_cases, Hl.
    unfold iname at 1 3. rewrite !request_path_classname. fold iname.
    rewrite Hclass, Hex', Hnsc, (ns_classname_of_truthy _ _ Hnsc), Hkb.
    done. }
  split.
  { intros Hname. apply Hdelete. by rewrite Hname. }
  intros n Hname.
  pose proof (remove_namespace_cases n self) as Hrm.
  assert (forall stn, Datastore.lookup n (datastore self) = Some stn ->
            Datastore.is_empty stn = false ->
            DeleteInstance self namespace InstanceName
            = (Raise (CIMError CIM_ERR_NAMESPACE_NOT_EMPTY), self))
    as Hnonempty.
  { intros stn Hn Hempty. apply Hdelete.
    rewrite Hname. cbn [remove_namespace_named].
    rewrite Hn, Hempty in Hrm. by rewrite Hrm. }
  split.
  { intros Hn. apply Hdelete. rewrite Hname. cbn [remove_namespace_named].
    rewrite Hn in Hrm. by rewrite Hrm. }
  split; [exact Hnonempty|]. split.
  { intros Hsame. apply (Hnonempty st).
    - by rewrite (lookup_same_namespace n namespace).
    - destruct (Datastore.is_empty st) eqn:Hempty; [|done].
      apply is_empty_instances in Hempty. by rewrite Hempty in Hex. }
  intros stn Hn Hempty.
  assert (~ same_namespace namespace n) as Hdiff.
  { intros Hsame.
    rewrite <- (lookup_same_namespace namespace n) in Hn by done.
    assert (stn = st) as -> by congruence.
    apply is_empty_instances in Hempty. by rewrite Hempty in Hex. }
  set (ds1 := NocaseDict.remove (Datastore.normalize n) (datastore self)).
  assert (forall namespace',
            Datastore.lookup namespace' ds1
            = if bool_decide (same_namespace namespace' n) then None
              else Datastore.lookup namespace' (datastore self)) as Hds1.
  { intros namespace'. unfold ds1, Datastore.lookup. rewrite get_remove.
    case_bool_decide as Hs.
    - rewrite (proj2 (eqb_nocase_eq _ _)); [done|]. symmetry. exact Hs.
    - destruct (PyStr.eqb_nocase _ _) eqn:E; [|done].
      apply eqb_nocase_eq in E. exfalso. apply Hs. symmetry. exact E. }
  set (s' := List.filter
               (fun e => negb (ObjectStore.matches path_eqb iname e))
               (ns_instances st)).
  exists (put_instance_store namespace s' (with_datastore ds1 self)).
  split.
  { apply Hdelete. rewrite Hname. cbn [remove_namespace_named].
    rewrite Hn, Hempty in Hrm. rewrite Hrm.
    unfold ObjectStore.delete. by rewrite Hex'. }
  assert (Datastore.lookup namespace (datastore (with_datastore ds1 self))
          = Some st) as Hl1.
  { cbn [datastore with_datastore].
    by rewrite Hds1, bool_decide_eq_false_2. }
  assert (forall namespace',
            get_stores
              (put_instance_store namespace s' (with_datastore ds1 self))
              namespace'
            = if bool_decide (same_namespace namespace' namespace)
              then Ok (mkNamespaceStores (ns_classes st) s' (ns_qualifiers st))
              else get_stores (with_datastore ds1 self) namespace') as Hput
    by (intros; by apply get_stores_put_instance_store).
  split.
  { rewrite validate_namespace_lookup.
    assert (get_stores
              (put_instance_store namespace s' (with_datastore ds1 self)) n
            = Raise (CIMError CIM_ERR_INVALID_NAMESPACE)) as Hgone.
    { rewrite Hput, bool_decide_eq_false_2.
      - rewrite get_stores_with_datastore, Hds1.
        by rewrite bool_decide_eq_true_2.
      - intros Hs. apply Hdiff. symmetry. exact Hs. }
    rewrite get_stores_cases in Hgone.
    by destruct (Datastore.lookup n
                   (datastore (put_instance_store namespace s'
                                 (with_datastore ds1 self)))). }
  split.
  { rewrite Hput, bool_decide_eq_true_2 by done. do 2 f_equal.
    unfold s'. apply filter_ext. intros e. unfold ObjectStore.matches.
    f_equal. rewrite (path_eqb_sym (fst e) iname),
      (path_eqb_sym (fst e) InstanceName).
    apply path_eqb_trans_l, request_path_eqb. }
  intros namespace' Hn' Hns'.
  rewrite Hput, bool_decide_eq_false_2 by done.
  rewrite get_stores_with_datastore, Hds1, bool_decide_eq_false_2 by done.
  by rewrite get_stores_cases.
Qed.

(** ** ModifyInstance *)

Lemma Instance_update_frame props inst :
  inst_path (Instance.update props inst) = inst_path inst
  /\ inst_classname (Instance.update props inst) = inst_classname inst.
Proof.
  unfold Instance.update.
  apply (foldl_invariant
           (fun i => inst_path i = inst_path inst
                     /\ inst_classname i = inst_classname inst)); [|done].
  by intros e i _ [? ?].
Qed.

(** Every outcome of [ModifyInstance]: nothing has changed, or the stored
    instance has been replaced, under its path, by an instance with the
    same path and class name. *)
Lemma ModifyInstance_cases self namespace ModifiedInstance iq pl :
  (exists r, ModifyInstance self namespace ModifiedInstance iq pl = (r, self))
  \/ exists st path orig new,
       Datastore.lookup namespace (datastore self) = Some st
       /\ inst_path ModifiedInstance = Some path
       /\ ObjectStore.get path_eqb path (ns_instances st) = Ok orig
       /\ inst_path new = inst_path orig
       /\ inst_classname new = inst_classname orig
       /\ ModifyInstance self namespace ModifiedInstance iq pl
          = (Ok tt,
             put_instance_store namespace
               (map (fun e => if ObjectStore.matches path_eqb path e
                              then (fst e, new) else e)
                  (ns_instances st))
               self).
Proof.
  unfold ModifyInstance. rewrite get_instance_store_cases.
  destruct (Datastore.lookup namespace (datastore self)) as [st|] eqn:Hl;
    [|left; by eexists].
  assert (forall (prepared : result (CIMInstanceName * CIMInstance)),
            (forall mpath new, prepared = Ok (mpath, new) ->
               exists path orig,
                 inst_path ModifiedInstance = Some path
                 /\ path_eqb mpath path = true
                 /\ ObjectStore.get path_eqb path (ns_instances st) = Ok orig
                 /\ inst_path new = inst_path orig
                 /\ inst_classname new = inst_classname orig) ->
            (exists r,
               match prepared with
               | Ok (mpath, orig_instance) =>
                   match ObjectStore.update path_eqb mpath orig_instance
                           (ns_instances st) with
                   | Ok instance_store' =>
                       (Ok tt,
                        put_instance_store namespace instance_store' self)
                   | Raise e => (Raise e, self)
                   end
               | Raise e => (Raise e, self)
               end = (r, self))
            \/ exists st0 path orig new,
                 Some st = Some st0
                 /\ inst_path ModifiedInstance = Some path
                 /\ ObjectStore.get path_eqb path (ns_instances st0) = Ok orig
                 /\ inst_path new = inst_path orig
                 /\ inst_classname new = inst_classname orig
                 /\ match prepared with
                    | Ok (mpath, orig_instance) =>
                        match ObjectStore.update path_eqb mpath orig_instance
                                (ns_instances st) with
                        | Ok instance_store' =>
                            (Ok tt,
                             put_instance_store namespace instance_store'
                               self)
                        | Raise e => (Raise e, self)
                        end
                    | Raise e => (Raise e, self)
                    end
                    = (Ok tt,
                       put_instance_store namespace
                         (map (fun e => if ObjectStore.matches path_eqb path e
                                        then (fst e, new) else e)
                            (ns_instances st0))
                         self)) as Hfinish.
  { intros [[mpath new]|e] Hprep; [|left; by eexists].
    destruct (Hprep mpath new eq_refl)
      as (path & orig & Hpath & Hsame & Hget & Hp & Hc).
    unfold ObjectStore.update.
    destruct (ObjectStore.exists_ path_eqb mpath (ns_instances st));
      [|left; by eexists].
    right. exists st, path, orig, new. repeat (split; [done|]).
    do 2 f_equal. apply map_ext. intros e. unfold ObjectStore.matches.
    rewrite (path_eqb_sym (fst e) mpath), (path_eqb_sym (fst e) path).
    by rewrite (path_eqb_trans_l _ _ _ Hsame). }
  destruct pl as [[|p pl]|]; [left; by eexists| |];
    (apply Hfinish; intros mpath new;
     unfold path_of;
     destruct (inst_path ModifiedInstance) as [path|];
     cbn [from_option mbind result_bind]; [|done];
     destruct (negb (PyStr.eqb_nocase _ _));
     cbn [mbind result_bind]; [done|];
     destruct (translate _ _ _) as [tc|];
     cbn [mbind result_bind]; [|done];
     rewrite _find_instance_get;
     set (mpath0 := match path_namespace path with
                    | Some _ => path
                    | None =>
                        path_with_namespace
                          (Some (PyStr.strip "/"%char namespace)) path
                    end);
     assert (path_eqb mpath0 path = true) as Hsame
       by (unfold mpath0; destruct (path_namespace path);
           [apply path_eqb_refl
           |rewrite path_eqb_with_namespace; apply path_eqb_refl]);
     rewrite (get_key_ext path_eqb path_eqb_trans_l path_eqb_sym _ _ _ Hsame);
     destruct (ObjectStore.get path_eqb path (ns_instances st))
       as [orig|] eqn:Hget;
     cbn [from_option mbind result_bind]; [|done];
     match goal with
     | |- context [if ?c then check_names_in_class ?a ?b else Ok tt] =>
         destruct (if c then check_names_in_class a b else Ok tt);
         cbn [mbind result_bind]; [|done]
     end;
     destruct (check_names_in_class tc (Instance.names _));
     cbn [mbind result_bind]; [|done];
     destruct (set_class_values tc _) as [mi1|];
     cbn [mbind result_bind]; [|done];
     destruct (drop_unchanged orig mi1) as [mi2|];
     cbn [mbind result_bind]; [|done];
     destruct (check_no_key_props tc mi2);
     cbn [mbind result_bind]; [|done];
     destruct (for_each (conform_modified_property tc) _ _) as [mi3|];
     cbn [mbind result_bind]; [|done];
     intros [= <- <-]; exists path, orig;
     split; [done|]; split; [exact Hsame|]; split; [exact Hget|];
     apply Instance_update_frame).
Qed.


Lemma stores_ok_replace_instance st path orig new :
  stores_ok st ->
  ObjectStore.get path_eqb path (ns_instances st) = Ok orig ->
  inst_path new = inst_path orig ->
  stores_ok
    (mkNamespaceStores (ns_classes st)
       (map (fun e => if ObjectStore.matches path_eqb path e
                      then (fst e, new) else e) (ns_instances st))
       (ns_qualifiers st)).
Proof.
  intros (Hcs & His & Hsup & Hic) Hget Hpath.
  apply andb_true_iff in His as [Hu Hp].
  unfold stores_ok, instance_store_ok, instance_classes_stored in *.
  cbn [ns_classes ns_instances].
  assert (forall e : CIMInstanceName * CIMInstance,
            fst (if ObjectStore.matches path_eqb path e
                 then (fst e, new) else e) = fst e) as Hfst
    by (intros e; by destruct (ObjectStore.matches _ _ e)).
  split; [done|]. split; [|split; [done|]].
  - apply andb_true_iff. split.
    + by rewrite (keys_unique_map path_eqb).
    + rewrite forallb_forall in Hp. apply forallb_forall.
      intros e' (e & <- & He)%in_map_iff.
      pose proof (Hp e He) as Hpe. apply list_elem_of_In in He.
      destruct (ObjectStore.matches path_eqb path e) eqn:Hm; [|done].
      cbn [fst snd]. apply bool_decide_eq_true.
      apply get_Ok_elem in Hget as (e0 & He0 & Hk0 & <-).
      assert (e = e0) as ->.
      { apply (keys_unique_elem path_eqb (ns_instances st)); try done.
        unfold ObjectStore.matches in Hm.
        by rewrite (path_eqb_trans_l _ _ _ Hm), path_eqb_sym. }
      rewrite Hpath. by apply bool_decide_eq_true in Hpe.
  - rewrite forallb_map. rewrite <- Hic.
    clear -Hfst. induction (ns_instances st) as [|e s IH]; [done|].
    cbn [forallb]. by rewrite IH, Hfst.
Qed.

(** X22.  [ModifyInstance] keeps the repository well-formed and never
    adds, removes or moves anything: whatever it is given, and whether it
    returns or raises, the namespaces, the classes and the qualifier
    declarations of every namespace and the paths of the stored
    instances, in their order, are as before, and so are the enumeration
    contexts, the host and the pull-operations flag.  When it raises, the
    provider is unchanged. *)
Theorem X22_ModifyInstance_keeps_well_formed self namespace ModifiedInstance
    iq pl :
  repository_ok self ->
  let out := ModifyInstance self namespace ModifiedInstance iq pl in
  repository_ok (snd out)
  /\ (forall e, fst out = Raise e -> snd out = self)
  /\ map fst (datastore (snd out)) = map fst (datastore self)
  /\ (forall n,
        get_class_store (snd out) n = get_class_store self n
        /\ get_qualifier_store (snd out) n = get_qualifier_store self n
        /\ (map fst <$> get_instance_store (snd out) n)
           = (map fst <$> get_instance_store self n))
  /\ enumeration_contexts (snd out) = enumeration_contexts self
  /\ host (snd out) = host self
  /\ disable_pull_operations (snd out) = disable_pull_operations self.
Proof.
  intros Hok out. subst out.
  destruct (ModifyInstance_cases self namespace ModifiedInstance iq pl)
    as [[r ->]|(st & path & orig & new & Hl & Hpath & Hget & Hp & Hc & ->)];
    [done|].
  cbn [fst snd].
  split; [|split; [done|]; split; [|split; [|apply put_instance_store_frame]]].
  - unfold repository_ok. rewrite (put_instance_store_datastore _ _ _ _ Hl).
    apply Forall_put; [done|].
    apply stores_ok_replace_instance with orig; [|done|done].
    by apply (repository_ok_lookup self namespace).
  - rewrite (put_instance_store_datastore _ _ _ _ Hl).
    unfold Datastore.put. rewrite map_map. apply map_ext.
    intros e. by destruct (NocaseDict.key_is _ e).
  - intros n. unfold get_class_store, get_qualifier_store, get_instance_store.
    rewrite (get_stores_put_instance_store _ _ _ _ _ Hl).
    case_bool_decide as Hs; [|done].
    rewrite (get_stores_same_namespace _ _ _ Hs), get_stores_cases, Hl.
    cbn [fmap result_fmap ns_classes ns_qualifiers ns_instances].
    split; [done|]. split; [done|]. f_equal.
    rewrite map_map. apply map_ext.
    intros e. by destruct (ObjectStore.matches _ _ e).
Qed.

(** ** DeleteClass *)








End Provider.

(** * Concrete cases on the example repository *)

Section Cases.
Import Example.

(** C1 on [OpenEnumerateInstancePaths] over three instances: a page of two
    with a new context, and all three without a count. *)
Lemma C1_witness :
  let ps n := mkOpenParameters None None None None n in
  let op := OpenEnumerateInstancePaths_ "CIM_Foo" in
  (disable_pull_operations provider = false
   /\ validate_namespace provider "root/cimv2" = Ok tt
   /\ _validate_open_params None None None = Ok tt
   /\ non_paged recursion_limit ReferenceNames References AssociatorNames
        Associators provider "root/cimv2" op = Ok three_paths)
  /\ call_open recursion_limit ReferenceNames References AssociatorNames
      Associators env provider "root/cimv2" op (ps None)
     = (Ok (three_paths, "TRUE", ""), provider)
  /\ exists ctx,
       call_open recursion_limit ReferenceNames References AssociatorNames
      Associators env provider "root/cimv2" op (ps (Some 2%Z))
       = (Ok (py_slice0 three_paths 2, "FALSE", "uuid-1"),
          with_enumeration_contexts
            (<["uuid-1" := ctx]> (enumeration_contexts provider)) provider)
       /\ ctx_data ctx = py_del0 three_paths 2.
Proof.
  intros ps op.
  assert (disable_pull_operations provider = false) as H1 by reflexivity.
  assert (validate_namespace provider "root/cimv2" = Ok tt) as H2
    by reflexivity.
  assert (_validate_open_params None None None = Ok tt) as H3 by reflexivity.
  assert (non_paged recursion_limit ReferenceNames References AssociatorNames
            Associators provider "root/cimv2" op = Ok three_paths) as H4
    by (vm_compute; reflexivity).
  split; [by repeat split|]. split.
  - apply (C1_open_returns_first_page recursion_limit ReferenceNames
             References AssociatorNames Associators env provider "root/cimv2"
             op (ps None) three_paths H1 H2 H3 H4).
    cbn. lia.
  - destruct (C1_open_returns_first_page recursion_limit ReferenceNames
                References AssociatorNames Associators env provider
                "root/cimv2" op (ps (Some 2%Z)) three_paths H1 H2 H3 H4)
      as [_ Hgt].
    destruct Hgt as (ctx & Hcall & Hdata & _); [cbn; lia|].
    exists ctx. split; [exact Hcall|exact Hdata].
Defined.

(** C2 (as stated) fails: the context holds three paths and the pull asks
    for two.  The claim has the call return the first
    [min 3 (max 2 100) = 3] entries, end the sequence and discard the
    context; the call returns no such page, and leaves the context with the
    third path: it has sliced off two. *)
Lemma C2_counterexample :
  let call := PullInstancePaths provider_with_context "uuid-0" (Some 2%Z) in
  Nat.min (length three_paths) (Z.to_nat (Z.max 2 100)) = 3
  /\ (forall eos context_id,
        fst call <> Ok (take 3 three_paths, eos, context_id))
  /\ ctx_data <$> (enumeration_contexts (snd call) !! "uuid-0")
     = Some (drop 2 three_paths).
Proof.
  split; [reflexivity|]. split.
  - intros eos context_id. vm_compute. discriminate.
  - vm_compute. reflexivity.
Qed.

(** C2 (amended) on the context with three paths: asked for two, the pull
    leaves the third in the context; asked for five, it returns all three
    and discards the context. *)
Lemma C2_witness :
  (disable_pull_operations provider_with_context = false
   /\ enumeration_contexts provider_with_context !! "uuid-0"
      = Some (open_context "root/cimv2")
   /\ validate_namespace provider_with_context "root/cimv2" = Ok tt)
  /\ call_pull provider_with_context PullInstancePaths_ "uuid-0" (Some 5%Z)
     = (Ok (three_paths, "TRUE", ""),
        with_enumeration_contexts
          (delete "uuid-0" (enumeration_contexts provider_with_context))
          provider_with_context)
  /\ ctx_data <$>
       (enumeration_contexts
          (snd (call_pull provider_with_context PullInstancePaths_ "uuid-0"
                  (Some 2%Z))) !! "uuid-0")
     = Some (py_del0 three_paths 2).
Proof.
  assert (disable_pull_operations provider_with_context = false) as H1
    by reflexivity.
  assert (enumeration_contexts provider_with_context !! "uuid-0"
          = Some (open_context "root/cimv2")) as H2
    by (vm_compute; reflexivity).
  assert (validate_namespace provider_with_context
            (ctx_namespace (open_context "root/cimv2")) = Ok tt) as H3
    by reflexivity.
  assert (ctx_pull_type (open_context "root/cimv2")
          = pull_type_name PullInstancePaths_) as H4 by reflexivity.
  split; [by repeat split|]. split.
  - apply (C2_pull_slices_requested_count provider_with_context
             PullInstancePaths_ "uuid-0" (Some 5%Z)
             (open_context "root/cimv2") H1 H2 H3 H4).
    cbn. lia.
  - destruct (C2_pull_slices_requested_count provider_with_context
                PullInstancePaths_ "uuid-0" (Some 2%Z)
                (open_context "root/cimv2") H1 H2 H3 H4) as [_ Hgt].
    destruct Hgt as [Hstate _]; [cbn; lia|].
    rewrite Hstate. cbn [enumeration_contexts with_enumeration_contexts].
    rewrite lookup_insert_eq. reflexivity.
Defined.

(** C3 fails on the code.  Three instances are enumerated with pages of
    one: the open call returns the first path; the first pull removes the
    second path from the context and then raises [UnboundLocalError] in
    place of returning it; the second pull returns the third path and ends
    the sequence.  The pages that were returned do not add up to the result
    of the non-paged operation. *)
Theorem C3_paged_session_loses_a_page :
  let p1 := foo_path "CIM_Foo" "1" in
  let p2 := foo_path "CIM_Foo_sub" "2" in
  let p3 := foo_path "CIM_Foo_sub_sub" "3" in
  let opened :=
    OpenEnumerateInstancePaths recursion_limit env provider "root/cimv2"
      "CIM_Foo" None None None None (Some 1%Z) in
  let pull1 := PullInstancePaths (snd opened) "uuid-1" (Some 1%Z) in
  let pull2 := PullInstancePaths (snd pull1) "uuid-1" (Some 1%Z) in
  EnumerateInstanceNames recursion_limit provider "root/cimv2" "CIM_Foo"
  = Ok [p1; p2; p3]
  /\ fst opened = Ok ([ObjPath p1], "FALSE", "uuid-1")
  /\ fst pull1 = Raise UnboundLocalError
  /\ fst pull2 = Ok ([ObjPath p3], "TRUE", "")
  /\ [ObjPath p1] ++ [ObjPath p3] <> map ObjPath [p1; p2; p3].
Proof.
  repeat split; try (vm_compute; reflexivity). discriminate.
Qed.

(** C4 (as stated) fails: on a connection with pull operations disabled the
    calls on a missing context raise [CIM_ERR_NOT_SUPPORTED], and a pull of
    the wrong type on a context whose namespace is gone raises
    [CIM_ERR_INVALID_NAMESPACE]. *)
Lemma C4_counterexample :
  fst (PullInstancePaths provider_no_pull "uuid-9" (Some 10%Z))
  = Raise (CIMError CIM_ERR_NOT_SUPPORTED)
  /\ fst (CloseEnumeration provider_no_pull "uuid-9")
     = Raise (CIMError CIM_ERR_NOT_SUPPORTED)
  /\ enumeration_contexts provider_no_pull !! "uuid-9" = None
  /\ ctx_pull_type <$> (enumeration_contexts provider_with_stale_context
                        !! "uuid-0") = Some "PullInstancePaths"
  /\ fst (PullInstances provider_with_stale_context "uuid-0" (Some 10%Z))
     = Raise (CIMError CIM_ERR_INVALID_NAMESPACE)
  /\ CIMError CIM_ERR_NOT_SUPPORTED
     <> CIMError CIM_ERR_INVALID_ENUMERATION_CONTEXT
  /\ CIMError CIM_ERR_INVALID_NAMESPACE
     <> CIMError CIM_ERR_INVALID_ENUMERATION_CONTEXT.
Proof.
  repeat split; try (vm_compute; reflexivity); discriminate.
Qed.

(** C4 (amended) on the provider with the open context for instance
    paths. *)
Lemma C4_witness :
  disable_pull_operations provider_with_context = false
  /\ call_pull provider_with_context PullInstances_ "uuid-9" (Some 10%Z)
     = (Raise (CIMError CIM_ERR_INVALID_ENUMERATION_CONTEXT),
        provider_with_context)
  /\ call_pull provider_with_context PullInstances_ "uuid-0" (Some 10%Z)
     = (Raise (CIMError CIM_ERR_INVALID_ENUMERATION_CONTEXT),
        provider_with_context)
  /\ CloseEnumeration provider_with_context "uuid-0"
     = (Ok tt,
        with_enumeration_contexts
          (delete "uuid-0" (enumeration_contexts provider_with_context))
          provider_with_context).
Proof.
  assert (disable_pull_operations provider_with_context = false) as H1
    by reflexivity.
  assert (enumeration_contexts provider_with_context !! "uuid-0"
          = Some (open_context "root/cimv2")) as H2
    by (vm_compute; reflexivity).
  destruct (C4_invalid_enumeration_context provider_with_context
              PullInstances_ "uuid-9" (Some 10%Z) H1) as [Hmissing _].
  destruct (C4_invalid_enumeration_context provider_with_context
              PullInstances_ "uuid-0" (Some 10%Z) H1) as [_ Hpresent].
  destruct (Hpresent _ H2) as [Htype Hclose].
  split; [exact H1|]. split; [|split].
  - apply Hmissing. vm_compute. reflexivity.
  - apply Htype; [reflexivity|]. vm_compute. discriminate.
  - exact Hclose.
Defined.

(** C5 on the request to create the namespace [root/test]: the call
    returns, and the namespace that was absent is there afterwards. *)
Lemma C5_witness :
  (PyStr.eqb_nocase (inst_classname new_namespace_instance) "PG_Namespace"
   = true
   \/ PyStr.eqb_nocase (inst_classname new_namespace_instance)
        "CIM_Namespace" = true)
  /\ exists path self',
       CreateInstance provider "root/cimv2" new_namespace_instance
       = (Ok path, self')
       /\ NocaseDict.contains "root/test" (datastore provider) = false
       /\ NocaseDict.keys (datastore self') = ["root/cimv2"; "root/test"].
Proof.
  assert (PyStr.eqb_nocase (inst_classname new_namespace_instance)
            "PG_Namespace" = true
          \/ PyStr.eqb_nocase (inst_classname new_namespace_instance)
               "CIM_Namespace" = true) as Hcase by (right; reflexivity).
  split; [exact Hcase|].
  pose proof (C5_namespace_added_after_validation provider "root/cimv2"
                new_namespace_instance Hcase) as Hspec.
  destruct (CreateInstance provider "root/cimv2" new_namespace_instance)
    as [[path|e] self'] eqn:Hcall.
  - exists path, self'. split; [reflexivity|].
    destruct Hspec as (nsc & store & cl & name & inst1 & inst2 & self1 & _
                       & _ & Hname & _ & _ & _ & _ & _ & Habsent & -> & ->).
    injection Hname as <-. split; [exact Habsent|]. reflexivity.
  - vm_compute in Hcall. discriminate.
Defined.

(** C6 (as stated) fails: deleting [CIM_Foo] deletes [CIM_Foo_sub], of depth
    1, before its subclass [CIM_Foo_sub_sub], of depth 2; the order is not
    one of descending depth. *)
Lemma C6_counterexample :
  fst (DeleteClass recursion_limit provider "root/cimv2" "CIM_Foo")
  = Ok ["CIM_Foo_sub"; "CIM_Foo_sub_sub"; "CIM_Foo"]
  /\ class_depth (ns_classes cimv2) "CIM_Foo_sub" = Some 1
  /\ class_depth (ns_classes cimv2) "CIM_Foo_sub_sub" = Some 2
  /\ ~ descending_depth (ns_classes cimv2)
        ["CIM_Foo_sub"; "CIM_Foo_sub_sub"; "CIM_Foo"].
Proof.
  split; [vm_compute; reflexivity|].
  split; [vm_compute; reflexivity|].
  split; [vm_compute; reflexivity|].
  intros H.
  specialize (H 0 1 "CIM_Foo_sub" "CIM_Foo_sub_sub" 1 2).
  assert (2 <= 1) by (apply H; try reflexivity; lia). lia.
Qed.

(** C6 (amended) on the deletion of [CIM_Foo] and on a class that is not
    there. *)
Lemma C6_witness :
  (Datastore.lookup "root/cimv2" (datastore provider) = Some cimv2
   /\ class_store_ok (ns_classes cimv2) = true
   /\ instance_store_ok (ns_instances cimv2) = true
   /\ heights_decrease height (ns_classes cimv2) = true
   /\ height (PyStr.lower "CIM_Foo") < recursion_limit)
  /\ DeleteClass recursion_limit provider "root/cimv2" "CIM_Bar"
     = (Raise (CIMError CIM_ERR_NOT_FOUND), provider)
  /\ exists subclasses self',
       DeleteClass recursion_limit provider "root/cimv2" "CIM_Foo"
       = (Ok (subclasses ++ ["CIM_Foo"]), self')
       /\ forall c, c ∈ ObjectStore.iter_values (ns_classes cimv2) ->
                    cls_classname c ∈ subclasses
                    <-> descends (ns_classes cimv2) "CIM_Foo" c.
Proof.
  assert (Datastore.lookup "root/cimv2" (datastore provider) = Some cimv2)
    as H1 by reflexivity.
  assert (class_store_ok (ns_classes cimv2) = true) as H2 by reflexivity.
  assert (instance_store_ok (ns_instances cimv2) = true) as H3
    by (vm_compute; reflexivity).
  assert (heights_decrease height (ns_classes cimv2) = true) as H4
    by reflexivity.
  assert (height (PyStr.lower "CIM_Foo") < recursion_limit) as H5
    by (vm_compute; lia).
  split; [by repeat split|].
  destruct (C6_DeleteClass recursion_limit provider "root/cimv2" "CIM_Bar"
              cimv2 H1) as [Habsent _].
  destruct (C6_DeleteClass recursion_limit provider "root/cimv2" "CIM_Foo"
              cimv2 H1) as [_ Hpresent].
  split; [apply Habsent; reflexivity|].
  destruct (Hpresent eq_refl height H2 H3 H4 H5)
    as (deeper & _ & Hset & Hcall).
  eexists _, _. split; [exact Hcall|exact Hset].
Defined.

(** C7 on the example repository: without [DeepInheritance],
    [EnumerateClassNames] for [CIM_Foo] returns its one direct subclass,
    [EnumerateClasses] returns one class, of that name, and
    [EnumerateInstances] for [CIM_Foo] returns an instance for each of the
    three stored instances of the class and its subclasses. *)
Lemma C7_witness :
  (Datastore.lookup "root/cimv2" (datastore provider) = Some cimv2
   /\ 0 < recursion_limit
   /\ check_ClassName (Some "CIM_Foo") (ns_classes cimv2) = Ok tt
   /\ class_store_ok (ns_classes cimv2) = true)
  /\ EnumerateClassNames recursion_limit provider "root/cimv2"
       (Some "CIM_Foo") None = Ok ["CIM_Foo_sub"]
  /\ (exists classes,
        EnumerateClasses recursion_limit provider "root/cimv2"
          (Some "CIM_Foo") None None None None = Ok classes
        /\ map cls_classname classes = ["CIM_Foo_sub"])
  /\ exists insts,
       EnumerateInstances recursion_limit provider "root/cimv2" "CIM_Foo"
         None None None None None = Ok insts
       /\ length insts = 3.
Proof.
  assert (Datastore.lookup "root/cimv2" (datastore provider) = Some cimv2)
    as H1 by reflexivity.
  assert (0 < recursion_limit) as H2 by (vm_compute; lia).
  assert (check_ClassName (Some "CIM_Foo") (ns_classes cimv2) = Ok tt) as H3
    by reflexivity.
  assert (class_store_ok (ns_classes cimv2) = true) as H4 by reflexivity.
  split; [by repeat split|].
  destruct (C7_default_DeepInheritance recursion_limit)
    as (_ & _ & _ & Hnames & Hclasses & Hinsts).
  split; [exact (Hnames provider "root/cimv2" cimv2 (Some "CIM_Foo") H1 H2 H3)|].
  split.
  { destruct (Hclasses provider "root/cimv2" cimv2 (Some "CIM_Foo") None None
                None H1 H2 H3 H4) as (classes & Hcall & Hcn & _).
    exists classes. split; [exact Hcall|exact Hcn]. }
  destruct (Hinsts provider "root/cimv2" cimv2 "CIM_Foo" None None None None
              height H1 eq_refl eq_refl)
    as (subclasses & insts & Hwalk & _ & Hcall & Hall).
  - vm_compute. reflexivity.
  - reflexivity.
  - vm_compute. lia.
  - exists insts. split; [exact Hcall|].
    apply Forall2_length in Hall. rewrite <- Hall.
    injection Hwalk as <-. reflexivity.
Defined.

(** C8 fails on the code.  [Foo] of the first instance is to be set to
    ["z"]: with the property list [["Foo"]] the stored value changes; with
    [["foo"]], which names the same property in another casing, the call
    returns as well but the repository stays as it was.  The property list
    is not de-duplicated case-insensitively either. *)
Theorem C8_PropertyList_casing_matters :
  let listed := ModifyInstance provider "root/cimv2" modified_foo1 None
                  (Some ["Foo"]) in
  let recased := ModifyInstance provider "root/cimv2" modified_foo1 None
                   (Some ["foo"]) in
  let stored_Foo self :=
    st ← Datastore.lookup "root/cimv2" (datastore self);
    inst ← snd <$> List.find (fun e => path_eqb (fst e)
                                         (foo_path "CIM_Foo" "1"))
                     (ns_instances st);
    Some (Instance.getitem "Foo" inst) in
  fst listed = Ok tt
  /\ fst recased = Ok tt
  /\ stored_Foo provider = Some (Ok (VString "a"))
  /\ stored_Foo (snd listed) = Some (Ok (VString "z"))
  /\ stored_Foo (snd recased) = Some (Ok (VString "a"))
  /\ snd recased = provider
  /\ snd listed <> snd recased
  /\ dedupe_property_list (Some ["Foo"; "foo"]) = Some ["Foo"; "foo"].
Proof.
  repeat split; try (vm_compute; reflexivity).
  intros H. apply (f_equal datastore) in H. vm_compute in H. discriminate.
Qed.

(** C9 (as stated) fails: with an empty property list and a namespace that
    does not exist, the call raises [CIM_ERR_INVALID_NAMESPACE]. *)
Lemma C9_counterexample :
  ModifyInstance provider "root/nope" modified_foo1 None (Some [])
  = (Raise (CIMError CIM_ERR_INVALID_NAMESPACE), provider).
Proof. reflexivity. Qed.

(** C10 on the example repository: an open call with [MaxObjectCount = 0]
    stores all three paths and returns none; a pull with
    [MaxObjectCount = 0] returns what a pull without a count returns. *)
Lemma C10_witness :
  let ps := mkOpenParameters None None None None (Some 0%Z) in
  let op := OpenEnumerateInstancePaths_ "CIM_Foo" in
  (disable_pull_operations provider = false
   /\ validate_namespace provider "root/cimv2" = Ok tt
   /\ non_paged recursion_limit ReferenceNames References AssociatorNames
        Associators provider "root/cimv2" op = Ok three_paths
   /\ three_paths <> []
   /\ enumeration_contexts provider_with_context !! "uuid-0"
      = Some (open_context "root/cimv2"))
  /\ call_pull provider_with_context PullInstancePaths_ "uuid-0" (Some 0%Z)
     = call_pull provider_with_context PullInstancePaths_ "uuid-0" None
  /\ call_pull provider_with_context PullInstancePaths_ "uuid-0" (Some 0%Z)
     = (Ok (three_paths, "TRUE", ""),
        with_enumeration_contexts
          (delete "uuid-0" (enumeration_contexts provider_with_context))
          provider_with_context)
  /\ exists ctx,
       call_open recursion_limit ReferenceNames References AssociatorNames
         Associators env provider "root/cimv2" op ps
       = (Ok ([], "FALSE", "uuid-1"),
          with_enumeration_contexts
            (<["uuid-1" := ctx]> (enumeration_contexts provider)) provider)
       /\ ctx_data ctx = three_paths.
Proof.
  intros ps op.
  assert (disable_pull_operations provider = false) as H1 by reflexivity.
  assert (validate_namespace provider "root/cimv2" = Ok tt) as H2
    by reflexivity.
  assert (_validate_open_params (open_FilterQueryLanguage ps)
            (open_FilterQuery ps) (open_OperationTimeout ps) = Ok tt) as H3
    by reflexivity.
  assert (open_MaxObjectCount ps = Some 0%Z) as H4 by reflexivity.
  assert (non_paged recursion_limit ReferenceNames References AssociatorNames
            Associators provider "root/cimv2" op = Ok three_paths) as H5
    by (vm_compute; reflexivity).
  assert (three_paths <> []) as H6 by discriminate.
  assert (disable_pull_operations provider_with_context = false) as H7
    by reflexivity.
  assert (enumeration_contexts provider_with_context !! "uuid-0"
          = Some (open_context "root/cimv2")) as H8
    by (vm_compute; reflexivity).
  assert (validate_namespace provider_with_context
            (ctx_namespace (open_context "root/cimv2")) = Ok tt) as H9
    by reflexivity.
  assert (ctx_pull_type (open_context "root/cimv2")
          = pull_type_name PullInstancePaths_) as H10 by reflexivity.
  split; [by repeat split|].
  destruct (C10_MaxObjectCount_zero recursion_limit ReferenceNames References
              AssociatorNames Associators env provider "root/cimv2" op ps
              three_paths provider_with_context PullInstancePaths_ "uuid-0"
              (open_context "root/cimv2") H1 H2 H3 H4 H5 H6 H7 H8 H9 H10)
    as (Hsame & Hdrain & _ & ctx & Hopen & Hdata & _).
  split; [exact Hsame|]. split; [apply Hdrain; cbn; lia|].
  exists ctx. split; [exact Hopen|exact Hdata].
Defined.


(** The example repository is well-formed. *)
Lemma provider_ok : repository_ok provider.
Proof.
  repeat first [apply Forall_nil_2 | apply Forall_cons_2];
    repeat split; by vm_compute.
Qed.

Lemma provider_with_namespace_ok : repository_ok provider_with_namespace.
Proof.
  repeat first [apply Forall_nil_2 | apply Forall_cons_2];
    repeat split; by vm_compute.
Qed.

(** X2 on [OpenEnumerateInstancePaths] over three instances with a page of
    two: the pull returns the third path and ends the session. *)
Lemma X2_witness :
  let op := OpenEnumerateInstancePaths_ "CIM_Foo" in
  let ps := mkOpenParameters None None None None (Some 2%Z) in
  let opened :=
    call_open recursion_limit ReferenceNames References AssociatorNames
      Associators env provider "root/cimv2" op ps in
  opened = (Ok (py_slice0 three_paths 2, "FALSE", "uuid-1"), snd opened)
  /\ call_pull (snd opened) PullInstancePaths_ "uuid-1" None
     = (Ok (py_del0 three_paths 2, "TRUE", ""), provider).
Proof.
  intros op ps opened.
  assert (opened
          = (Ok (py_slice0 three_paths 2, "FALSE", "uuid-1"), snd opened))
    as H1 by (vm_compute; reflexivity).
  split; [exact H1|].
  destruct (X2_Open_then_draining_Pull recursion_limit ReferenceNames
              References AssociatorNames Associators env provider
              "root/cimv2" op ps PullInstancePaths_
              (py_slice0 three_paths 2) "uuid-1" (snd opened) None H1
              eq_refl)
    as (all & ctx & Hall & Hctx & Happ & Hpull).
  assert (ctx_data ctx = py_del0 three_paths 2) as Hdata.
  { assert (all = three_paths) as ->
      by (vm_compute in Hall; by injection Hall).
    by apply (app_inv_head (py_slice0 three_paths 2)). }
  rewrite Hdata in Hpull. rewrite Hpull; [reflexivity|].
  vm_compute. discriminate.
Defined.

(** X3 on the same open request: [PullInstances] refuses the context. *)
Lemma X3_witness :
  let op := OpenEnumerateInstancePaths_ "CIM_Foo" in
  let ps := mkOpenParameters None None None None (Some 2%Z) in
  let opened :=
    call_open recursion_limit ReferenceNames References AssociatorNames
      Associators env provider "root/cimv2" op ps in
  opened = (Ok (py_slice0 three_paths 2, "FALSE", "uuid-1"), snd opened)
  /\ PullInstances (snd opened) "uuid-1" None
     = (Raise (CIMError CIM_ERR_INVALID_ENUMERATION_CONTEXT), snd opened).
Proof.
  intros op ps opened.
  assert (opened
          = (Ok (py_slice0 three_paths 2, "FALSE", "uuid-1"), snd opened))
    as H1 by (vm_compute; reflexivity).
  split; [exact H1|].
  exact (X3_PullInstances_rejects_opened_contexts recursion_limit
           ReferenceNames References AssociatorNames Associators env provider
           "root/cimv2" op ps (py_slice0 three_paths 2) "uuid-1" (snd opened)
           None H1).
Defined.

(** X4 on the provider with an open context: after [CloseEnumeration] the
    context cannot be closed again. *)
Lemma X4_witness :
  let closed := CloseEnumeration provider_with_context "uuid-0" in
  closed = (Ok tt, snd closed)
  /\ CloseEnumeration (snd closed) "uuid-0"
     = (Raise (CIMError CIM_ERR_INVALID_ENUMERATION_CONTEXT), snd closed).
Proof.
  intros closed.
  assert (closed = (Ok tt, snd closed)) as H1 by (vm_compute; reflexivity).
  split; [exact H1|].
  destruct (X4_session_ends provider_with_context "uuid-0" (snd closed)
              (or_introl H1)) as (_ & _ & _ & _ & Hclose).
  exact Hclose.
Defined.

(** X5 on an [OperationTimeout] of 50 seconds. *)
Lemma X5_witness :
  let ps := mkOpenParameters None None (Some 50%Z) None None in
  call_open recursion_limit ReferenceNames References AssociatorNames
    Associators env provider "root/cimv2"
    (OpenEnumerateInstancePaths_ "CIM_Foo") ps
  = (Raise ValueError, provider).
Proof.
  intros ps.
  destruct (X5_Open_checks recursion_limit ReferenceNames References
              AssociatorNames Associators env provider "root/cimv2"
              (OpenEnumerateInstancePaths_ "CIM_Foo") ps) as [_ Hchecks].
  destruct (Hchecks eq_refl) as [_ Hknown].
  destruct (Hknown (ex_intro _ cimv2 eq_refl)) as (_ & _ & Htimeout).
  apply (Htimeout 50%Z); [by left|reflexivity|lia].
Defined.

(** X7 on the declaration of [Key] in the example repository, which holds
    no declaration: it can be read back under another casing. *)
Lemma X7_witness :
  validate_namespace provider "root/cimv2" = Ok tt
  /\ exists self',
       SetQualifier provider "root/cimv2" key_declaration = (Ok tt, self')
       /\ GetQualifier self' "/ROOT/cimv2/" "KEY" = Ok key_declaration
       /\ EnumerateQualifiers self' "root/cimv2" = Ok [key_declaration].
Proof.
  assert (validate_namespace provider "root/cimv2" = Ok tt) as H1
    by reflexivity.
  split; [exact H1|].
  destruct (X7_SetQualifier provider "root/cimv2" key_declaration H1)
    as (self' & old & new & Hset & Hget & Hold & Hnew & Hlen & _).
  exists self'. split; [exact Hset|]. split.
  - rewrite Hget; [reflexivity|]. vm_compute. reflexivity.
  - injection Hold as <-. rewrite Hnew. f_equal. exact Hlen.
Defined.

(** X10 on the classes below [CIM_Foo]. *)
Lemma X10_witness :
  map cls_classname
    <$> EnumerateClasses recursion_limit provider "root/cimv2"
          (Some "CIM_Foo") (Some true) None None None
  = Ok ["CIM_Foo_sub"; "CIM_Foo_sub_sub"].
Proof.
  destruct (X10_EnumerateClasses_by_name recursion_limit provider
              "root/cimv2" (Some "CIM_Foo") (Some true) None None None
              provider_ok) as [_ Hnames].
  rewrite Hnames. vm_compute. reflexivity.
Defined.

(** X13 on a namespace that the example repository does not hold. *)
Lemma X13_witness :
  Datastore.lookup "root/none" (datastore provider) = None
  /\ GetClass provider "root/none" "CIM_Foo" None None None None
     = Raise (CIMError CIM_ERR_INVALID_NAMESPACE)
  /\ CreateInstance provider "root/none" new_foo
     = (Raise (CIMError CIM_ERR_INVALID_NAMESPACE), provider).
Proof.
  assert (Datastore.lookup "root/none" (datastore provider) = None) as H1
    by reflexivity.
  split; [exact H1|].
  destruct (X13_unknown_namespace recursion_limit _resolve_class provider
              "root/none" H1)
    as (_ & _ & Hget & _ & _ & _ & _ & _ & _ & _ & Hcreate & _).
  split; [apply Hget|apply Hcreate].
Defined.

(** X14 on a class that the example repository does not hold. *)
Lemma X14_witness :
  (Datastore.lookup "root/cimv2" (datastore provider) = Some cimv2
   /\ ObjectStore.exists_ class_key_eqb "CIM_Bar" (ns_classes cimv2) = false)
  /\ EnumerateInstances recursion_limit provider "root/cimv2" "CIM_Bar" None
       None None None None = Raise (CIMError CIM_ERR_NOT_FOUND)
  /\ EnumerateInstanceNames recursion_limit provider "root/cimv2" "CIM_Bar"
     = Raise (CIMError CIM_ERR_INVALID_CLASS)
  /\ GetInstance provider "root/cimv2"
       (mkCIMInstanceName "CIM_Bar" [("InstanceID", VString "1")] None None)
       None None None None
     = Raise (CIMError CIM_ERR_INVALID_CLASS).
Proof.
  assert (Datastore.lookup "root/cimv2" (datastore provider) = Some cimv2)
    as H1 by reflexivity.
  assert (ObjectStore.exists_ class_key_eqb "CIM_Bar" (ns_classes cimv2)
          = false) as H2 by reflexivity.
  split; [by split|].
  destruct (X14_missing_class recursion_limit provider "root/cimv2" cimv2
              "CIM_Bar" H1 H2)
    as (_ & _ & Hinsts & _ & _ & Hnames & Hget & _).
  split; [apply Hinsts|]. split; [exact Hnames|].
  apply Hget; [reflexivity|]. left. split; [reflexivity|].
  vm_compute. reflexivity.
Defined.

(** X15 on the first instance of the example repository: read in its
    namespace, with a property list in another casing; and asked for, by a
    path without namespace, in the namespace written [/root/cimv2/]. *)
Lemma X15_witness :
  (exists r,
     GetInstance provider "root/cimv2" (foo_path "CIM_Foo" "1") None None None
       (Some ["FOO"]) = Ok r
     /\ Instance.getitem "Foo" r = Ok (VString "a")
     /\ Instance.getitem "InstanceID" r = Raise KeyError)
  /\ GetInstance provider "/root/cimv2/"
       (mkCIMInstanceName "CIM_Foo" [("InstanceID", VString "1")] None None)
       None None None None
     = Raise (CIMError CIM_ERR_INVALID_NAMESPACE)
  /\ GetInstance provider "root/cimv2" (foo_path "CIM_Foo" "9") None None None
       None = Raise (CIMError CIM_ERR_NOT_FOUND).
Proof.
  split; [|split].
  - destruct (X15_GetInstance provider "root/cimv2" (foo_path "CIM_Foo" "1")
                None None None (Some ["FOO"])) as (_ & _ & Hfound).
    destruct (Hfound eq_refl cimv2 eq_refl) as [_ Hclass].
    destruct (Hclass eq_refl) as [_ Hstored].
    destruct (Hstored foo1) as (r & Hget & _ & _ & Hprops).
    + apply list_elem_of_In. cbn. auto.
    + vm_compute. reflexivity.
    + reflexivity.
    + exists r. split; [exact Hget|]. split; apply Hprops.
  - destruct (X15_GetInstance provider "/root/cimv2/"
                (mkCIMInstanceName "CIM_Foo" [("InstanceID", VString "1")]
                   None None) None None None None) as (_ & Hslash & _).
    apply Hslash; [reflexivity|]. vm_compute. discriminate.
  - destruct (X15_GetInstance provider "root/cimv2" (foo_path "CIM_Foo" "9")
                None None None None) as (_ & _ & Hfound).
    destruct (Hfound eq_refl cimv2 eq_refl) as [_ Hclass].
    destruct (Hclass eq_refl) as [Hmissing _].
    apply Hmissing. vm_compute. reflexivity.
Defined.

(** X16 on the instances of [CIM_Foo] and of its subclasses. *)
Lemma X16_witness :
  (Datastore.lookup "root/cimv2" (datastore provider) = Some cimv2
   /\ instance_store_ok (ns_instances cimv2) = true
   /\ ObjectStore.exists_ class_key_eqb "CIM_Foo" (ns_classes cimv2) = true)
  /\ map inst_path
       <$> EnumerateInstances recursion_limit provider "root/cimv2" "CIM_Foo"
             None None None None (Some ["Foo"])
     = Ok [Some (foo_path "CIM_Foo" "1"); Some (foo_path "CIM_Foo_sub" "2");
           Some (foo_path "CIM_Foo_sub_sub" "3")].
Proof.
  assert (Datastore.lookup "root/cimv2" (datastore provider) = Some cimv2)
    as H1 by reflexivity.
  assert (instance_store_ok (ns_instances cimv2) = true) as H2
    by (vm_compute; reflexivity).
  assert (ObjectStore.exists_ class_key_eqb "CIM_Foo" (ns_classes cimv2)
          = true) as H3 by reflexivity.
  split; [by repeat split|].
  rewrite (X16_EnumerateInstances_paths recursion_limit provider "root/cimv2"
             cimv2 "CIM_Foo" None None None None (Some ["Foo"]) H1 H2 H3).
  vm_compute. reflexivity.
Defined.

(** X11 on the example hierarchy: the superclasses of [CIM_Foo_sub_sub],
    from the top, and [CIM_Foo] among them. *)
Lemma X11_witness :
  (class_store_ok (ns_classes cimv2) = true
   /\ superclasses_stored (ns_classes cimv2) = true
   /\ heights_decrease height (ns_classes cimv2) = true)
  /\ exists sups subs,
       _get_superclass_names 3 (Some "CIM_Foo_sub_sub") (ns_classes cimv2)
       = Some (Ok sups)
       /\ _get_subclass_names recursion_limit (Some "CIM_Foo")
            (ns_classes cimv2) (Some true) = Ok subs
       /\ last sups = Some "CIM_Foo_sub"
       /\ in_names "CIM_Foo" sups = true
       /\ in_names "CIM_Foo_sub_sub" subs = true.
Proof.
  assert (class_store_ok (ns_classes cimv2) = true) as H1 by reflexivity.
  assert (superclasses_stored (ns_classes cimv2) = true) as H2
    by reflexivity.
  assert (heights_decrease height (ns_classes cimv2) = true) as H3
    by reflexivity.
  split; [by repeat split|].
  destruct (X11_superclass_and_subclass_walks recursion_limit
              (ns_classes cimv2) height 2 3 CIM_Foo_sub_sub CIM_Foo H1 H2 H3)
    as (sups & subs & Hsups & Hsubs & Hlast & Hdesc & Hagree).
  - intros e He.
    change (ObjectStore.iter_values (ns_classes cimv2))
      with [CIM_Foo; CIM_Foo_sub; CIM_Foo_sub_sub; CIM_Namespace] in He.
    repeat (apply elem_of_cons in He as [->|He]); try (vm_compute; lia).
    by apply elem_of_nil in He.
  - lia.
  - vm_compute. lia.
  - apply list_elem_of_In. cbn. auto.
  - apply list_elem_of_In. cbn. auto.
  - discriminate.
  - exists sups, subs. split; [exact Hsups|]. split; [exact Hsubs|].
    split; [by apply Hlast|].
    assert (in_names (cls_classname CIM_Foo) sups = true) as Hin.
    { vm_compute in Hsups. injection Hsups as <-. reflexivity. }
    split; [exact Hin|]. by apply Hagree.
Defined.

(** X17 on a new instance of [CIM_Foo]: it can be read back under the
    path that was returned, and not be created again.  Created in the
    namespace written [/root/cimv2/], it cannot be read back in the
    namespace as written. *)
Lemma X17_witness :
  let created := CreateInstance provider "root/cimv2" new_foo in
  let created' := CreateInstance provider "/root/cimv2/" new_foo in
  (repository_ok provider
   /\ created = (Ok (foo_path "CIM_Foo" "4"), snd created)
   /\ created' = (Ok (foo_path "CIM_Foo" "4"), snd created'))
  /\ (exists stored,
        GetInstance (snd created) "root/cimv2" (foo_path "CIM_Foo" "4") None
          (Some true) (Some true) None = Ok stored
        /\ Instance.contains "Foo" stored = true)
  /\ CreateInstance (snd created) "root/cimv2" new_foo
     = (Raise (CIMError CIM_ERR_ALREADY_EXISTS), snd created)
  /\ GetInstance (snd created') "/root/cimv2/" (foo_path "CIM_Foo" "4") None
       (Some true) (Some true) None
     = Raise (CIMError CIM_ERR_INVALID_NAMESPACE).
Proof.
  intros created created'.
  assert (created = (Ok (foo_path "CIM_Foo" "4"), snd created)) as H1
    by (vm_compute; reflexivity).
  assert (created' = (Ok (foo_path "CIM_Foo" "4"), snd created')) as H2
    by (vm_compute; reflexivity).
  split; [split; [exact provider_ok|by split]|].
  destruct (X17_CreateInstance_then_GetInstance provider "root/cimv2"
              new_foo (foo_path "CIM_Foo" "4") (snd created) provider_ok H1)
    as (stored & tc & Hget & _ & _ & _ & _ & _ & _ & Hclass & _ & Hprops
        & Hagain).
  destruct (X17_CreateInstance_then_GetInstance provider "/root/cimv2/"
              new_foo (foo_path "CIM_Foo" "4") (snd created') provider_ok H2)
    as (_ & _ & _ & Hslash & _).
  split; [|split; [exact Hagain|]].
  - exists stored. split; [exact Hget|].
    assert (tc = CIM_Foo) as ->
      by (vm_compute in Hclass; by injection Hclass).
    apply Hprops. apply list_elem_of_In. cbn. auto.
  - apply Hslash. vm_compute. discriminate.
Defined.

(** X18 on the first instance of the example repository and on a path
    that is not stored. *)
Lemma X18_witness :
  ns_classname_of "CIM_Foo" = None
  /\ DeleteInstance provider "root/cimv2" (foo_path "CIM_Foo" "9")
     = (Raise (CIMError CIM_ERR_NOT_FOUND), provider)
  /\ exists self',
       DeleteInstance provider "root/cimv2" (foo_path "CIM_Foo" "1")
       = (Ok tt, self')
       /\ GetInstance self' "root/cimv2" (foo_path "CIM_Foo" "1") None None
            None None = Raise (CIMError CIM_ERR_NOT_FOUND).
Proof.
  assert (ns_classname_of "CIM_Foo" = None) as H1 by reflexivity.
  split; [exact H1|]. split.
  - exact (X18_DeleteInstance provider "root/cimv2" (foo_path "CIM_Foo" "9")
             H1).
  - destruct (X18_DeleteInstance provider "root/cimv2"
                (foo_path "CIM_Foo" "1") H1)
      as (self' & Hdel & Hget & _).
    exists self'. split; [exact Hdel|].
    rewrite Hget; reflexivity.
Defined.

(** X19 on the creation of an instance and of a namespace in the example
    repository. *)
Lemma X19_witness :
  repository_ok (snd (CreateInstance provider "root/cimv2" new_foo))
  /\ repository_ok
       (snd (CreateInstance provider "root/cimv2" new_namespace_instance)).
Proof.
  split.
  - exact (proj1 (X19_CreateInstance_keeps_well_formed provider "root/cimv2"
                    new_foo provider_ok)).
  - exact (proj1 (X19_CreateInstance_keeps_well_formed provider "root/cimv2"
                    new_namespace_instance provider_ok)).
Defined.

(** X20 on the deletion of a stored instance, and on a request that is
    refused because its path names another namespace. *)
Lemma X20_witness :
  repository_ok
    (snd (DeleteInstance provider "root/cimv2" (foo_path "CIM_Foo" "1")))
  /\ snd (DeleteInstance provider_with_namespace "root/test" namespace_path)
     = provider_with_namespace.
Proof.
  split.
  - exact (proj1 (X20_DeleteInstance_keeps_well_formed provider "root/cimv2"
                    (foo_path "CIM_Foo" "1") provider_ok)).
  - destruct (X20_DeleteInstance_keeps_well_formed provider_with_namespace
                "root/test" namespace_path provider_with_namespace_ok)
      as (_ & _ & Hraise).
    apply (Hraise (CIMError CIM_ERR_INVALID_NAMESPACE)).
    vm_compute. reflexivity.
Defined.

(** X21 on the repository with the namespace [root/test]: deleting its
    instance of [CIM_Namespace] removes the empty namespace. *)
Lemma X21_witness :
  (Datastore.lookup "root/cimv2" (datastore provider_with_namespace)
   = Some cimv2_with_namespace
   /\ ObjectStore.exists_ path_eqb namespace_path
        (ns_instances cimv2_with_namespace) = true
   /\ is_Some (ns_classname_of (path_classname namespace_path)))
  /\ exists self',
       DeleteInstance provider_with_namespace "root/cimv2" namespace_path
       = (Ok tt, self')
       /\ validate_namespace self' "root/test"
          = Raise (CIMError CIM_ERR_INVALID_NAMESPACE)
       /\ get_stores self' "root/cimv2" = Ok cimv2.
Proof.
  assert (Datastore.lookup "root/cimv2" (datastore provider_with_namespace)
          = Some cimv2_with_namespace) as H1 by reflexivity.
  assert (ObjectStore.exists_ path_eqb namespace_path
            (ns_instances cimv2_with_namespace) = true) as H4
    by (vm_compute; reflexivity).
  assert (is_Some (ns_classname_of (path_classname namespace_path))) as H5
    by (by eexists).
  split; [by repeat split|].
  destruct (X21_DeleteInstance_of_namespace provider_with_namespace
              "root/cimv2" namespace_path cimv2_with_namespace H1 eq_refl
              eq_refl H4 H5) as [_ Hname].
  destruct (Hname "root/test" eq_refl) as (_ & _ & _ & Hempty).
  destruct (Hempty (mkNamespaceStores [] [] []) eq_refl eq_refl)
    as (self' & Hdel & Hgone & Hstores & _).
  exists self'. split; [exact Hdel|]. split; [exact Hgone|].
  rewrite Hstores. vm_compute. reflexivity.
Defined.

(** X22 on a modification of [Foo] on the first instance of the example
    repository. *)
Lemma X22_witness :
  let out := ModifyInstance provider "root/cimv2" modified_foo1 None None in
  fst out = Ok tt
  /\ repository_ok (snd out)
  /\ (map fst <$> get_instance_store (snd out) "root/cimv2")
     = (map fst <$> get_instance_store provider "root/cimv2").
Proof.
  intros out. split; [vm_compute; reflexivity|].
  destruct (X22_ModifyInstance_keeps_well_formed provider "root/cimv2"
              modified_foo1 None None provider_ok)
    as (Hok & _ & _ & Hstores & _).
  split; [exact Hok|]. apply (Hstores "root/cimv2").
Defined.

End Cases.
